(** * Agent task client: response normalisation, error classification,
      submit/poll route and client poll loop

    A shallow embedding of the TypeScript sources
      - the route of [/api/agent] (route.ts, in src/package.json):
        normalizeResponse, POST, submitTask, pollTask;
      - the client [@/lib/aiAgent] (src/postcss.config.js):
        callAIAgent, POLL_TIMEOUT_MS and the backoff delay;
      - [@/lib/fetchWrapper] (src/daily_digest_agent.json): fetchWrapper;
      - the global fetch interceptor (first part of src/package.json):
        detectResponseIssue, interceptedFetch, the pending error and the
        fix request;
      - the wrappers and hooks of the client (useAgent, callAgentAPI,
        useAIAgent, useFileUpload, uploadFiles, extractText), handleApiError
        and the page's parseAgentResult (src/unnamed);
    together with the properties the specification states about them. *)

From Stdlib Require Import Bool Arith ZArith List String Ascii Lia.
From Stdlib Require Import Floats QArith Qpower Qminmax Qround DecimalString.
From Stdlib Require Import Wf_nat NArith HexString.
Import ListNotations.

Set Warnings "-register-all".
Set Implicit Arguments.

Open Scope string_scope.

(* ================================================================== *)
(** ** JavaScript values *)
(* ================================================================== *)

(** The values that travel through the program are the ones [JSON.parse]
    produces, plus [undefined].  Numbers are IEEE-754 doubles.  An object is
    the ordered list of its own properties; a property read returns the first
    entry for the key.  A string is the sequence of its code units. *)
Inductive value : Type :=
| VUndef
| VNull
| VBool (b : bool)
| VNum (n : float)
| VStr (s : string)
| VObj (fields : list (string * value))
| VArr (items : list value).

(** Thrown values: an instance of [Error] carrying its [message], or any
    other thrown value. *)
Inductive exn : Type :=
| JsError (msg : string)
| JsOther (v : value).

(** The completion of an evaluation that may throw. *)
Inductive completion (A : Type) : Type :=
| Return (a : A)
| Throw (e : exn).
Arguments Return {A} a.
Arguments Throw {A} e.

Definition bindc {A B} (c : completion A) (k : A -> completion B) : completion B :=
  match c with
  | Return a => k a
  | Throw e => Throw e
  end.

Notation "x <- c ;; k" := (bindc c (fun x => k))
  (at level 61, c at next level, right associativity).

(** [typeof v === 'string'] and [typeof v === 'object'] ([null] included). *)
Definition is_string (v : value) : bool :=
  match v with VStr _ => true | _ => false end.

Definition is_object (v : value) : bool :=
  match v with VNull | VObj _ | VArr _ => true | _ => false end.

Definition is_nullish (v : value) : bool :=
  match v with VUndef | VNull => true | _ => false end.

Definition num_is_nan (n : float) : bool := negb (PrimFloat.eqb n n).
Definition num_is_zero (n : float) : bool := PrimFloat.eqb n 0%float.

(** ToBoolean: [undefined], [null], [false], [+0], [-0], [NaN] and the empty
    string are falsy. *)
Definition truthy (v : value) : bool :=
  match v with
  | VUndef | VNull => false
  | VBool b => b
  | VNum n => negb (num_is_zero n || num_is_nan n)
  | VStr s => negb (String.eqb s "")
  | VObj _ | VArr _ => true
  end.

(** [a || b] and [a ?? b]. *)
Definition js_or (a b : value) : value := if truthy a then a else b.
Definition js_coalesce (a b : value) : value := if is_nullish a then b else a.

(** [v === 'lit'] for a string literal. *)
Definition is_str_lit (v : value) (lit : string) : bool :=
  match v with VStr s => String.eqb s lit | _ => false end.

(** [v === false], [v === true], [v === null]. *)
Definition is_false (v : value) : bool :=
  match v with VBool false => true | _ => false end.
Definition is_true (v : value) : bool :=
  match v with VBool true => true | _ => false end.
Definition is_null (v : value) : bool :=
  match v with VNull => true | _ => false end.

Definition nat_to_string (n : nat) : string :=
  NilZero.string_of_uint (Nat.to_uint n).

Definition num_of_nat (n : nat) : float :=
  PrimFloat.of_uint63 (Uint63.of_Z (Z.of_nat n)).

Section assoc.
Variable A : Type.

Fixpoint lookup (k : string) (fs : list (string * A)) : option A :=
  match fs with
  | [] => None
  | (k', x) :: rest => if String.eqb k k' then Some x else lookup k rest
  end.

(** Write a property: an existing key keeps its position. *)
Fixpoint assoc_set (k : string) (x : A) (fs : list (string * A)) : list (string * A) :=
  match fs with
  | [] => [(k, x)]
  | (k', y) :: rest =>
      if String.eqb k k' then (k, x) :: rest else (k', y) :: assoc_set k x rest
  end.

Definition assoc_remove (ks : list string) (fs : list (string * A)) : list (string * A) :=
  filter (fun kv => negb (existsb (String.eqb (fst kv)) ks)) fs.
End assoc.

Section lookup_with.
Variables (A : Type) (f : value -> A).

(** [lookup] followed by [f], written so that a recursive [f] stays
    structurally guarded. *)
Fixpoint lookup_with (k : string) (fs : list (string * value)) : option A :=
  match fs with
  | [] => None
  | (k', x) :: rest => if String.eqb k k' then Some (f x) else lookup_with k rest
  end.

End lookup_with.

(** Characters of a string as one-character strings (indexing a string). *)
Fixpoint string_chars (s : string) : list value :=
  match s with
  | EmptyString => []
  | String c rest => VStr (String c EmptyString) :: string_chars rest
  end.

(** The own indexed entries of a list of elements: keys "0", "1", ... *)
Definition indexed (xs : list value) : list (string * value) :=
  combine (map nat_to_string (seq 0 (List.length xs))) xs.

(** Property read [v.k] / [v[k]] on a value that is neither [null] nor
    [undefined] (on those the read throws, see [get_prop]). *)
Definition get (k : string) (v : value) : value :=
  match v with
  | VObj fs => match lookup k fs with Some x => x | None => VUndef end
  | VArr xs =>
      if String.eqb k "length" then VNum (num_of_nat (List.length xs))
      else match lookup k (indexed xs) with Some x => x | None => VUndef end
  | VStr s =>
      if String.eqb k "length" then VNum (num_of_nat (String.length s))
      else match lookup k (indexed (string_chars s)) with Some x => x | None => VUndef end
  | _ => VUndef
  end.

(** The message V8 gives the [TypeError] of a property read on [null] or
    [undefined]. *)
Definition read_type_error (v : value) (k : string) : exn :=
  JsError ("Cannot read properties of "
           ++ (match v with VNull => "null" | _ => "undefined" end)
           ++ " (reading '" ++ k ++ "')").

(** Property read that throws on [null] and [undefined]. *)
Definition get_prop (v : value) (k : string) : completion value :=
  if is_nullish v then Throw (read_type_error v k) else Return (get k v).

(** Optional chaining [v?.k]. *)
Definition get_opt (v : value) (k : string) : value :=
  if is_nullish v then VUndef else get k v.

(** ['k' in v] for an object or array [v]. *)
Definition has_key (k : string) (v : value) : bool :=
  match v with
  | VObj fs => match lookup k fs with Some _ => true | None => false end
  | VArr xs =>
      String.eqb k "length"
      || match lookup k (indexed xs) with Some _ => true | None => false end
  | _ => false
  end.

(** The own enumerable entries copied by an object spread [{...v}]. *)
Definition own_entries (v : value) : list (string * value) :=
  match v with
  | VObj fs => fs
  | VArr xs => indexed xs
  | VStr s => indexed (string_chars s)
  | _ => []
  end.

(** An object literal [{k1: v1, ..., kn: vn}] extending [base]. *)
Definition obj_extend (base : list (string * value)) (kvs : list (string * value))
  : list (string * value) :=
  fold_left (fun acc kv => assoc_set (fst kv) (snd kv) acc) kvs base.

Section conversions.
(** [Number::toString] and [StringToNumber] of ECMAScript, the two
    conversions between doubles and their text, are taken as given. *)
Variable NumberToString : float -> string.
Variable StringToNumber : string -> float.

Definition join_with (sep : string) (parts : list string) : string :=
  match parts with
  | [] => ""
  | p :: ps => fold_left (fun acc q => acc ++ sep ++ q) ps p
  end.

(** The [TypeError] of a conversion of an object that has no callable
    [toString] or [valueOf] giving a primitive. *)
Definition cannot_convert : exn :=
  JsError "Cannot convert object to primitive value".

(** [String(v)], and the conversion a template literal makes.  An object is
    converted through its [toString] method: an object that has a property
    of its own named [toString] (a value of the data, never a function)
    cannot be converted, [valueOf] of [Object.prototype] returning the object
    itself, and the conversion throws; any other object inherits the method
    of [Object.prototype].  An array is joined with commas, [null] and
    [undefined] elements giving the empty string and the others being
    converted in turn. *)
Fixpoint ToString (v : value) : completion string :=
  match v with
  | VUndef => Return "undefined"
  | VNull => Return "null"
  | VBool true => Return "true"
  | VBool false => Return "false"
  | VNum n => Return (NumberToString n)
  | VStr s => Return s
  | VObj fs =>
      match lookup "toString" fs with
      | Some _ => Throw cannot_convert
      | None => Return "[object Object]"
      end
  | VArr xs =>
      parts <-
        (fix elems (l : list value) : completion (list string) :=
           match l with
           | [] => Return []
           | x :: r =>
               s <- (if is_nullish x then Return "" else ToString x) ;;
               rest <- elems r ;;
               Return (s :: rest)
           end) xs ;;
      Return (join_with "," parts)
  end.

(** The string of a value whose conversion does not throw, as is the case
    of every value that is not an object. *)
Definition string_of (v : value) : string :=
  match ToString v with
  | Return s => s
  | Throw _ => ""
  end.

(** [Number(v)], and the conversion a comparison with a number makes: an
    object or an array is converted to a string first ([valueOf] of
    [Object.prototype] returns the object itself, and a [valueOf] of the
    data is no function). *)
Definition ToNumber (v : value) : completion float :=
  match v with
  | VUndef => Return nan
  | VNull => Return 0%float
  | VBool true => Return 1%float
  | VBool false => Return 0%float
  | VNum n => Return n
  | VStr s => Return (StringToNumber s)
  | VObj _ | VArr _ => s <- ToString v ;; Return (StringToNumber s)
  end.

(** [v > n] for a number literal [n]. *)
Definition js_gt (v : value) (n : float) : completion bool :=
  x <- ToNumber v ;; Return (PrimFloat.ltb n x).

(** [v.length > n] for a natural-number literal [n] and a [v] that is neither
    [null] nor [undefined].  The length of a string or an array is a natural
    number, exactly representable as a double, so the comparison is the one
    of natural numbers; any other value is read for a [length] property,
    converted and compared as a double. *)
Definition length_gt (v : value) (n : nat) : completion bool :=
  match v with
  | VStr s => Return (n <? String.length s)%nat
  | VArr xs => Return (n <? List.length xs)%nat
  | _ => js_gt (get "length" v) (num_of_nat n)
  end.
End conversions.

(** A well-founded induction principle for values, with the elements of
    objects and arrays covered. *)
Section value_induction.
Variable P : value -> Prop.
Hypothesis Hundef : P VUndef.
Hypothesis Hnull : P VNull.
Hypothesis Hbool : forall b, P (VBool b).
Hypothesis Hnum : forall n, P (VNum n).
Hypothesis Hstr : forall s, P (VStr s).
Hypothesis Hobj : forall fs, Forall (fun kv => P (snd kv)) fs -> P (VObj fs).
Hypothesis Harr : forall xs, Forall P xs -> P (VArr xs).

Fixpoint value_nested_ind (v : value) : P v :=
  match v with
  | VUndef => Hundef
  | VNull => Hnull
  | VBool b => Hbool b
  | VNum n => Hnum n
  | VStr s => Hstr s
  | VObj fs =>
      Hobj ((fix go (l : list (string * value)) : Forall (fun kv => P (snd kv)) l :=
               match l with
               | [] => Forall_nil _
               | kv :: r => Forall_cons kv (value_nested_ind (snd kv)) (go r)
               end) fs)
  | VArr xs =>
      Harr ((fix go (l : list value) : Forall P l :=
               match l with
               | [] => Forall_nil _
               | x :: r => Forall_cons x (value_nested_ind x) (go r)
               end) xs)
  end.
End value_induction.

(* ================================================================== *)
(** ** The response normalizer ([normalizeResponse], route.ts) *)
(* ================================================================== *)

Inductive Status : Type := success | error.

(** [interface NormalizedAgentResponse].  The optional properties [message]
    and [metadata] hold [VUndef] when they are absent or undefined: a
    property read and the JSON serialisation of the route's reply, the two
    observations the program makes of such a record, do not tell the two
    apart. *)
Record NormalizedAgentResponse : Type := {
  status : Status;
  result : value;
  message : value;
  metadata : value
}.

Definition status_string (s : Status) : string :=
  match s with success => "success" | error => "error" end.

(** The record as the JavaScript object it is. *)
Definition response_object (r : NormalizedAgentResponse) : value :=
  VObj [("status", VStr (status_string (status r)));
        ("result", result r);
        ("message", message r);
        ("metadata", metadata r)].

Definition empty_response : NormalizedAgentResponse :=
  {| status := error;
     result := VObj [];
     message := VStr "Empty response from agent";
     metadata := VUndef |}.

(** [const { status, message, metadata, ...rest } = parsed]. *)
Definition rest_of (parsed : value) : value :=
  VObj (assoc_remove ["status"; "message"; "metadata"] (own_entries parsed)).

Definition object_keys (v : value) : list string := map fst (own_entries v).

Section normalizer.
Variable NumberToString : float -> string.

Fixpoint normalizeResponse (parsed : value) : NormalizedAgentResponse :=
  if negb (truthy parsed) then
    empty_response
  else if is_string parsed then
    {| status := success;
       result := VObj [("text", parsed)];
       message := parsed;
       metadata := VUndef |}
  else if negb (is_object parsed) then
    {| status := success;
       result := VObj [("value", parsed)];
       (* String(parsed), of a number or a boolean *)
       message := VStr (string_of NumberToString parsed);
       metadata := VUndef |}
  else if has_key "status" parsed && has_key "result" parsed then
    {| status := if is_str_lit (get "status" parsed) "error" then error else success;
       result := js_or (get "result" parsed) (VObj []);
       message := get "message" parsed;
       metadata := get "metadata" parsed |}
  else if has_key "status" parsed then
    let rest := rest_of parsed in
    {| status := if is_str_lit (get "status" parsed) "error" then error else success;
       result := if (0 <? List.length (object_keys rest))%nat then rest else VObj [];
       message := get "message" parsed;
       metadata := get "metadata" parsed |}
  else if has_key "result" parsed then
    let r := get "result" parsed in
    let msg :=
      js_coalesce
        (js_coalesce (get "message" parsed) (if is_string r then r else VNull))
        (if truthy r && is_object r then
           js_coalesce (js_coalesce (js_coalesce (js_coalesce (js_coalesce
             (get "text" r) (get "message" r)) (get "response" r))
             (get "answer" r)) (get "summary" r)) (get "content" r)
         else VNull) in
    {| status := success;
       result := if is_string r then VObj [("text", r)] else js_or r (VObj []);
       message := if is_string msg then msg else VUndef;
       metadata := get "metadata" parsed |}
  else if has_key "message" parsed && is_string (get "message" parsed) then
    {| status := success;
       result := VObj [("text", get "message" parsed)];
       message := get "message" parsed;
       metadata := VUndef |}
  else if has_key "response" parsed then
    (* normalizeResponse(parsed.response) *)
    match parsed with
    | VObj fs =>
        match lookup_with normalizeResponse "response" fs with
        | Some r => r
        | None => empty_response
        end
    | _ => empty_response
    end
  else
    {| status := success;
       result := parsed;
       message := VUndef;
       metadata := VUndef |}.

(** ['k' in v] as the language evaluates it: a [TypeError] when [v] is not
    an object. *)
Definition in_op (k : string) (v : value) : completion bool :=
  match v with
  | VObj _ | VArr _ => Return (has_key k v)
  | _ => Throw (JsError ("Cannot use 'in' operator to search for '" ++ k
                         ++ "' in " ++ string_of NumberToString v))
  end.

(** [a && b] on tests that may throw: [b] is evaluated only when [a] holds. *)
Definition and_then (a : completion bool) (b : completion bool) : completion bool :=
  x <- a ;; if x then b else Return false.

(** [normalizeResponse] again, with every property read and every [in]
    test able to throw as the language has them, in the order of evaluation
    of the source. *)
Fixpoint normalizeResponse_checked (parsed : value)
  : completion NormalizedAgentResponse :=
  if negb (truthy parsed) then
    Return empty_response
  else if is_string parsed then
    Return {| status := success;
              result := VObj [("text", parsed)];
              message := parsed;
              metadata := VUndef |}
  else if negb (is_object parsed) then
    msg <- ToString NumberToString parsed ;;
    Return {| status := success;
              result := VObj [("value", parsed)];
              message := VStr msg;
              metadata := VUndef |}
  else
    c4 <- and_then (in_op "status" parsed) (in_op "result" parsed) ;;
    if c4 then
      st <- get_prop parsed "status" ;;
      r <- get_prop parsed "result" ;;
      m <- get_prop parsed "message" ;;
      md <- get_prop parsed "metadata" ;;
      Return {| status := if is_str_lit st "error" then error else success;
                result := js_or r (VObj []);
                message := m;
                metadata := md |}
    else
    c5 <- in_op "status" parsed ;;
    if c5 then
      st <- get_prop parsed "status" ;;
      m <- get_prop parsed "message" ;;
      md <- get_prop parsed "metadata" ;;
      let rest := rest_of parsed in
      Return {| status := if is_str_lit st "error" then error else success;
                result := if (0 <? List.length (object_keys rest))%nat
                          then rest else VObj [];
                message := m;
                metadata := md |}
    else
    c6 <- in_op "result" parsed ;;
    if c6 then
      r <- get_prop parsed "result" ;;
      m <- get_prop parsed "message" ;;
      inner <-
        (if is_nullish (js_coalesce m (if is_string r then r else VNull)) then
           if truthy r && is_object r then
             t <- get_prop r "text" ;;
             if negb (is_nullish t) then Return t else
             t <- get_prop r "message" ;;
             if negb (is_nullish t) then Return t else
             t <- get_prop r "response" ;;
             if negb (is_nullish t) then Return t else
             t <- get_prop r "answer" ;;
             if negb (is_nullish t) then Return t else
             t <- get_prop r "summary" ;;
             if negb (is_nullish t) then Return t else
             get_prop r "content"
           else Return VNull
         else Return VNull) ;;
      let msg := js_coalesce (js_coalesce m (if is_string r then r else VNull)) inner in
      md <- get_prop parsed "metadata" ;;
      Return {| status := success;
                result := if is_string r then VObj [("text", r)] else js_or r (VObj []);
                message := if is_string msg then msg else VUndef;
                metadata := md |}
    else
    c7 <- and_then (in_op "message" parsed)
                   (m <- get_prop parsed "message" ;; Return (is_string m)) ;;
    if c7 then
      m <- get_prop parsed "message" ;;
      Return {| status := success;
                result := VObj [("text", m)];
                message := m;
                metadata := VUndef |}
    else
    c8 <- in_op "response" parsed ;;
    if c8 then
      match parsed with
      | VObj fs =>
          match lookup_with normalizeResponse_checked "response" fs with
          | Some r => r
          | None => Return empty_response
          end
      | _ => Return empty_response
      end
    else
      Return {| status := success;
                result := parsed;
                message := VUndef;
                metadata := VUndef |}.

(** The guard of the recursive case: none of the earlier cases applies and
    the object has a [response] property. *)
Definition unwraps (parsed : value) : bool :=
  truthy parsed && is_object parsed
  && negb (has_key "status" parsed)
  && negb (has_key "result" parsed)
  && negb (has_key "message" parsed && is_string (get "message" parsed))
  && has_key "response" parsed.
End normalizer.

(** The candidates [normalizeResponse] answers with status [error]: the falsy
    ones, the objects whose [status] property is the string 'error', and the
    objects unwrapped by the recursive case whose [response] is such a
    candidate. *)
Inductive signals_error : value -> Prop :=
| se_empty : forall v, truthy v = false -> signals_error v
| se_status : forall v,
    truthy v = true -> is_object v = true ->
    has_key "status" v = true -> is_str_lit (get "status" v) "error" = true ->
    signals_error v
| se_unwrap : forall v,
    unwraps v = true -> signals_error (get "response" v) -> signals_error v.

(** The two ways of signalling an error the specification names: an empty
    candidate, or an object carrying a [status] property that is 'error'. *)
Definition empty_or_status_error (v : value) : bool :=
  negb (truthy v)
  || (is_object v && has_key "status" v && is_str_lit (get "status" v) "error").

(** A scalar that is neither an object nor a string: a number or a boolean. *)
Definition is_scalar (v : value) : bool :=
  match v with VBool _ | VNum _ => true | _ => false end.

(** The keys of an array's elements are decimal numerals: they start with a
    digit. *)
Definition starts_with_digit (k : string) : bool :=
  match k with
  | String c _ => (48 <=? nat_of_ascii c)%nat && (nat_of_ascii c <=? 57)%nat
  | EmptyString => false
  end.

(** Sample candidates. *)
Definition wrapped_null : value := VObj [("response", VNull)].
Definition wrapped_error : value :=
  VObj [("response", VObj [("status", VStr "error"); ("result", VObj [])])].

(** An object read as an already-normalized response: it has a [status]
    property that is 'success' or 'error' and a [result] property; [message]
    and [metadata] are optional. *)
Definition as_response (v : value) : option NormalizedAgentResponse :=
  match v with
  | VObj _ =>
      if has_key "status" v && has_key "result" v then
        if is_str_lit (get "status" v) "success" then
          Some {| status := success; result := get "result" v;
                  message := get "message" v; metadata := get "metadata" v |}
        else if is_str_lit (get "status" v) "error" then
          Some {| status := error; result := get "result" v;
                  message := get "message" v; metadata := get "metadata" v |}
        else None
      else None
  | _ => None
  end.

Definition hello_response : NormalizedAgentResponse :=
  {| status := success;
     result := VObj [("text", VStr "Hello back")];
     message := VStr "Hello back";
     metadata := VUndef |}.

(* ================================================================== *)
(** ** The error classifier ([detectResponseIssue], the fetch interceptor) *)
(* ================================================================== *)

Module AgentInterceptor.

Definition LYZR_API_URL : string :=
  "https://agent-prod.studio.lyzr.ai/v3/inference/chat".

Inductive ErrorType : Type :=
| react_error | api_error | parse_error | network_error | unknown.

(** [interface ErrorDetails]; [message] and [raw_response] hold whatever
    value the payload carries under the cast [as string]. *)
Record ErrorDetails : Type := {
  type : ErrorType;
  message : value;
  raw_response : value;
  endpoint : string;
  timestamp : string;
  userAgent : string;
  url : string
}.

(** The return value [{ hasIssue, error }]. *)
Record Detection : Type := {
  hasIssue : bool;
  error : option ErrorDetails
}.

(** What the classifier reads of the browser: [new Date().toISOString()],
    [navigator.userAgent] and [window.location.href]. *)
Record Browser : Type := {
  now_iso : string;
  navigator_userAgent : string;
  location_href : string
}.

Section classifier.
Variable NumberToString : float -> string.
Variable StringToNumber : string -> float.
Variable browser : Browser.

Definition issue (t : ErrorType) (msg raw : value) : Detection :=
  {| hasIssue := true;
     error := Some {| type := t;
                      message := msg;
                      raw_response := raw;
                      endpoint := LYZR_API_URL;
                      timestamp := now_iso browser;
                      userAgent := navigator_userAgent browser;
                      url := location_href browser |} |}.

Definition no_issue : Detection := {| hasIssue := false; error := None |}.

(** [data.success === false && data.error] *)
Definition api_failure (data : value) : bool :=
  is_false (get "success" data) && truthy (get "error" data).

(** [data._parse_succeeded === false && data._has_valid_data === true] *)
Definition flagged_parse_failure (data : value) : bool :=
  is_false (get "_parse_succeeded" data) && is_true (get "_has_valid_data" data).

(** [rawResponse && rawResponse.length > 20]; the comparison throws when
    the length cannot be converted to a number. *)
Definition hasValidRaw (rawResponse : value) : completion bool :=
  if truthy rawResponse then length_gt NumberToString StringToNumber rawResponse 20
  else Return false.

(** The nested response failed:
    [data.response && typeof data.response === 'object'] and
    [response.success === false && response.error]. *)
Definition nested_response_failed (data : value) : bool :=
  let response := get "response" data in
  truthy response && is_object response
  && (is_false (get "success" response) && truthy (get "error" response)).

(** The nested conditions of case 3. *)
Definition nested_parse_failure (data : value) : completion bool :=
  if nested_response_failed data then hasValidRaw (get "raw_response" data)
  else Return false.

(** The reads of [data] throw when it is [null] or [undefined]. *)
Definition detectResponseIssue (data : value) : completion Detection :=
  success <- get_prop data "success" ;;
  (* Case 1: API-level failure *)
  if is_false success && truthy (get "error" data) then
    Return (issue api_error (get "error" data)
                  (js_or (get "details" data) (get "raw_response" data)))
  (* Case 2: parse failure indicated by the _parse_succeeded flag *)
  else if is_false (get "_parse_succeeded" data)
          && is_true (get "_has_valid_data" data) then
    Return (issue parse_error
                  (VStr "JSON parsing failed but valid data exists in raw_response")
                  (get "raw_response" data))
  (* Case 3: the response has an error field indicating a parse failure *)
  else if truthy (get "response" data) && is_object (get "response" data) then
    let response := get "response" data in
    if is_false (get "success" response) && truthy (get "error" response) then
      let rawResponse := get "raw_response" data in
      valid <- hasValidRaw rawResponse ;;
      if valid : bool then
        Return (issue parse_error (get "error" response) rawResponse)
      else Return no_issue
    else Return no_issue
  else Return no_issue.

(** The kind of the record produced, if any. *)
Definition kind_of (d : Detection) : option ErrorType := option_map type (error d).

(** The condition the specification gives for a [parse_error]: the payload
    is flagged as a failed parse over valid data, or its nested response
    failed while the raw response is longer than the threshold. *)
Definition signals_parse_failure (data : value) : completion bool :=
  if flagged_parse_failure data then Return true else nested_parse_failure data.
End classifier.

(** A payload that is both an API failure and flagged as a failed parse. *)
Definition failed_and_flagged : value :=
  VObj [("success", VBool false); ("error", VStr "model overloaded");
        ("_parse_succeeded", VBool false); ("_has_valid_data", VBool true)].

(** A payload whose nested response failed, with a raw response of 21 code
    units. *)
Definition nested_failure : value :=
  VObj [("response", VObj [("success", VBool false); ("error", VStr "bad json")]);
        ("raw_response", VStr "{'answer': 'forty2'}.")].

End AgentInterceptor.

(* ================================================================== *)
(** ** The client ([callAIAgent], @/lib/aiAgent) *)
(* ================================================================== *)

Module AiAgent.

(** [5 * 60 * 1000], in milliseconds. *)
Definition POLL_TIMEOUT_MS : Z := 5 * 60 * 1000.

(** [Math.min(300 * Math.pow(1.5, attempt), 3000)], in milliseconds.  The
    sequence is stated over the rationals: for attempts 0 to 5 the doubles
    the program computes are these very numbers (300, 450, 675, 1012.5,
    1518.75, 2278.125), and from attempt 6 on the product is at least 3417,
    so that the minimum is the cap. *)
Definition delay (attempt : nat) : Q :=
  Qmin (300 * Qpower (3 # 2) (Z.of_nat attempt)) 3000.

(** What awaiting a call of [fetchWrapper] gives: the promise rejects, or
    resolves with [undefined], or resolves with a [Response], of which the
    client only awaits [json()], which resolves with a value or rejects. *)
Inductive FetchResult : Type :=
| Rejects (e : exn)
| Undefined
| Response (json : completion value).

(** What the client does to the world, in order: it reads the clock
    ([Date.now()]), sleeps ([setTimeout]) and posts a JSON body to
    ['/api/agent'] through [fetchWrapper]. *)
Inductive Event : Type :=
| Clock (t : Z)
| Sleep (ms : Q)
| Post (body : value).

(** The world the client runs in: the k-th reading of the clock, and the
    result of the n-th call of [fetchWrapper], which may depend on the body
    posted. *)
Record World : Type := {
  now : nat -> Z;
  fetchWrapper : nat -> value -> FetchResult
}.

(** The literal failure [{ success: false, response: {...}, error }]. *)
Definition failure (msg : string) : value :=
  VObj [("success", VBool false);
        ("response", VObj [("status", VStr "error");
                           ("result", VObj []);
                           ("message", VStr msg)]);
        ("error", VStr msg)].

(** [error instanceof Error ? error.message : 'Network error'] *)
Definition error_message (e : exn) : string :=
  match e with
  | JsError msg => msg
  | JsOther _ => "Network error"
  end.

(** An execution: the events so far, and how the evaluation completed. *)
Definition Run : Type := (list Event * completion value)%type.

Section client.
Variable w : World.
Variables message agent_id options : value.

(** The body of the submit request,
    [{ message, agent_id, user_id: options?.user_id, ... }]. *)
Definition submit_body : value :=
  VObj [("message", message);
        ("agent_id", agent_id);
        ("user_id", get_opt options "user_id");
        ("session_id", get_opt options "session_id");
        ("assets", get_opt options "assets")].

(** [while (Date.now() - startTime < POLL_TIMEOUT_MS) { ... }].  Iteration
    number [attempt] makes reading [attempt + 1] of the clock and call
    [attempt + 1] of [fetchWrapper] (the submit was call 0).  The fuel bounds
    the number of iterations; [None] is fuel exhausted. *)
Fixpoint poll_loop (fuel : nat) (task_id user_id session_id : value)
    (startTime : Z) (attempt : nat) (trace : list Event) : option Run :=
  match fuel with
  | O => None
  | S fuel' =>
      let t := now w (S attempt) in
      let trace := (trace ++ [Clock t])%list in
      if (t - startTime <? POLL_TIMEOUT_MS)%Z then
        let body := VObj [("task_id", task_id)] in
        let trace := (trace ++ [Sleep (delay attempt); Post body])%list in
        match fetchWrapper w (S attempt) body with
        | Rejects e => Some (trace, Throw e)
        | Undefined =>
            (* fetchWrapper returned undefined: retry next poll *)
            poll_loop fuel' task_id user_id session_id startTime (S attempt) trace
        | Response (Throw e) => Some (trace, Throw e)
        | Response (Return pollData) =>
            match get_prop pollData "status" with
            | Throw e => Some (trace, Throw e)
            | Return st =>
                if is_str_lit st "processing" then
                  poll_loop fuel' task_id user_id session_id startTime (S attempt) trace
                else
                  (* completed or failed *)
                  Some (trace,
                        Return (VObj (obj_extend (own_entries pollData)
                                        [("agent_id", agent_id);
                                         ("user_id", user_id);
                                         ("session_id", session_id)])))
            end
        end
      else
        Some (trace, Return (failure "Agent task timed out after 5 minutes"))
  end.

(** The body of the [try] block. *)
Definition callAIAgent_try (fuel : nat) : option Run :=
  let trace := [Post submit_body] in
  match fetchWrapper w 0 submit_body with
  | Rejects e => Some (trace, Throw e)
  | Undefined => Some (trace, Return (failure "No response from server"))
  | Response (Throw e) => Some (trace, Throw e)
  | Response (Return submitData) =>
      match get_prop submitData "task_id" with
      | Throw e => Some (trace, Throw e)
      | Return task_id =>
          if negb (truthy task_id) then
            Some (trace,
                  Return (if is_false (get "success" submitData) then submitData
                          else failure "No task_id in response"))
          else
            let user_id := get "user_id" submitData in
            let session_id := get "session_id" submitData in
            let startTime := now w 0 in
            poll_loop fuel task_id user_id session_id startTime 0
                      (trace ++ [Clock startTime])%list
      end
  end.

(** [try { ... } catch (error) { return { success: false, ... } }] *)
Definition callAIAgent (fuel : nat) : option Run :=
  match callAIAgent_try fuel with
  | None => None
  | Some (trace, Return v) => Some (trace, Return v)
  | Some (trace, Throw e) => Some (trace, Return (failure (error_message e)))
  end.
End client.

(** The reply to a poll reports the status 'processing'. *)
Definition reports_processing (r : FetchResult) : bool :=
  match r with
  | Response (Return pollData) =>
      negb (is_nullish pollData) && is_str_lit (get "status" pollData) "processing"
  | _ => false
  end.

(** A poll after which the loop goes round again: [fetchWrapper] returned
    [undefined], or the reply reports the status 'processing'. *)
Definition continues (r : FetchResult) : bool :=
  match r with
  | Undefined => true
  | _ => reports_processing r
  end.

(** The guard of the loop at the k-th reading of the clock:
    [Date.now() - startTime < POLL_TIMEOUT_MS]. *)
Definition before_ceiling (w : World) (k : nat) : bool :=
  (now w k - now w 0 <? POLL_TIMEOUT_MS)%Z.

(** The posts of a trace, in order. *)
Definition posts (trace : list Event) : list value :=
  flat_map (fun e => match e with Post b => [b] | _ => [] end) trace.

(** The events of the iteration of the poll loop numbered [attempt]. *)
Definition iteration (w : World) (task_id : value) (attempt : nat) : list Event :=
  [Clock (now w (S attempt)); Sleep (delay attempt);
   Post (VObj [("task_id", task_id)])].

End AiAgent.

(* ================================================================== *)
(** ** HTTP responses and JSON on the wire *)
(* ================================================================== *)

Module Http.

(** What the program reads of a [Response] of the Fetch API.  [json] is
    what [JSON.parse] makes of the body [text]: a value, or a rejection. *)
Record Response : Type := {
  status : nat;
  redirected : bool;
  url : string;
  content_type : option string;
  text : string;
  json : completion value
}.

(** [response.ok]: the status is in the range 200-299. *)
Definition ok (r : Response) : bool :=
  (200 <=? status r)%nat && (status r <=? 299)%nat.

End Http.

Definition num_is_finite (n : float) : bool :=
  negb (num_is_nan n) && negb (PrimFloat.is_infinity n).

(** [JSON.parse(JSON.stringify(v))] for a [v] other than [undefined]: the
    properties holding [undefined] are dropped, [undefined] elements of an
    array, NaN and the infinities become [null], and -0 becomes 0. *)
Fixpoint json_roundtrip (v : value) : value :=
  match v with
  | VUndef => VUndef
  | VNull => VNull
  | VBool b => VBool b
  | VNum n =>
      if num_is_finite n then (if num_is_zero n then VNum 0%float else VNum n)
      else VNull
  | VStr s => VStr s
  | VObj fs =>
      VObj ((fix props (l : list (string * value)) : list (string * value) :=
               match l with
               | [] => []
               | (k, VUndef) :: r => props r
               | (k, x) :: r => (k, json_roundtrip x) :: props r
               end) fs)
  | VArr xs =>
      VArr ((fix elems (l : list value) : list value :=
               match l with
               | [] => []
               | VUndef :: r => VNull :: elems r
               | x :: r => json_roundtrip x :: elems r
               end) xs)
  end.

(** [s.includes(sub)] *)
Fixpoint includes (s sub : string) : bool :=
  String.prefix sub s
  || match s with
     | EmptyString => false
     | String _ rest => includes rest sub
     end.

(* ================================================================== *)
(** ** The fetch wrapper ([fetchWrapper], @/lib/fetchWrapper) *)
(* ================================================================== *)

Module FetchWrapper.

(** What the wrapper does to the page. *)
Inductive PageEffect : Type :=
| Navigate (href : string)
| DocumentWrite (html : string)
| Alert (msg : string)
| Confirm (msg : string)
| Reload.

(** [confirm(msg)] and, on OK, [window.location.reload()]. *)
Definition confirm_refresh (answer : bool) (msg : string) : list PageEffect :=
  Confirm msg :: (if answer then [Reload] else []).

(** [fetchWrapper(...args)], given how [fetch(...args)] settles and what the
    user answers to a [confirm]: the effects on the page, and the response
    returned, [None] for [undefined]. *)
Definition fetchWrapper (answer : bool) (fetched : completion Http.Response)
  : list PageEffect * option Http.Response :=
  match fetched with
  | Throw _ =>
      (* network failures *)
      (confirm_refresh answer "Cannot connect to backend. Click OK to refresh.", None)
  | Return response =>
      if Http.redirected response then
        ([Navigate (Http.url response)], None)
      else if (Http.status response =? 404)%nat then
        let contentType :=
          match Http.content_type response with
          | Some ct => if String.eqb ct "" then "" else ct
          | None => ""
          end in
        if includes contentType "text/html" then
          ([DocumentWrite (Http.text response)], None)
        else
          ([Alert "Backend returned Endpoint Not Found."], Some response)
      else if (500 <=? Http.status response)%nat then
        (confirm_refresh answer "Backend is not responding. Click OK to refresh.", None)
      else
        ([], Some response)
  end.

End FetchWrapper.

(* ================================================================== *)
(** ** The server route ([POST], [submitTask], [pollTask], route.ts) *)
(* ================================================================== *)

Module Route.

Definition LYZR_TASK_URL : string :=
  "https://agent-prod.studio.lyzr.ai/v3/inference/chat/task".

(** A call of [fetch] to the inference backend. *)
Record Request : Type := {
  target : string;
  method : string;
  payload : value
}.

(** A response made by [NextResponse.json(body, { status })]. *)
Record NextResponse : Type := {
  body : value;
  http_status : nat
}.


Definition NextResponse_json (body : value) (status : nat) : completion NextResponse :=
  if (status <? 200)%nat || (599 <? status)%nat then
    (* the message of Node's fetch: init["status"] must be ... *)
    let dq := String (ascii_of_nat 34) "" in
    Throw (JsError ("init[" ++ dq ++ "status" ++ dq
                    ++ "] must be in the range of 200 to 599, inclusive."))
  else if (status =? 204)%nat || (status =? 205)%nat || (status =? 304)%nat then
    Throw (JsError ("Response constructor: Invalid response status code "
                    ++ nat_to_string status))
  else Return {| body := body; http_status := status |}.

(** A handler's run: the requests it sent to the inference backend, and its
    completion (a rejection of the handler's promise is a [Throw]). *)
Definition Handled : Type := (list Request * completion NextResponse)%type.

(** The [TypeError] of destructuring [null] or [undefined], in the words of
    V8, which names the expression destructured: a variable by its name, a
    call or an [await] as '(intermediate value)'. *)
Definition destructure_type_error (expression : string) (v : value) (k : string) : exn :=
  JsError ("Cannot destructure property '" ++ k ++ "' of '" ++ expression
           ++ "' as it is " ++ (match v with VNull => "null" | _ => "undefined" end)
           ++ ".").

(** [{ success: false, response: { status: 'error', result: {}, message }, error }] *)
Definition failure_body (msg : value) (error : value) : list (string * value) :=
  [("success", VBool false);
   ("response", VObj [("status", VStr "error"); ("result", VObj []); ("message", msg)]);
   ("error", error)].

(** The reply to a submit without message or agent_id. *)
Definition validation_failure : NextResponse :=
  {| body :=
       VObj (failure_body (VStr "message and agent_id are required")
                                (VStr "message and agent_id are required"));
     http_status := 400 |}.

(** The request [pollTask] sends for the task [tid]. *)
Definition poll_request (tid : string) : Request :=
  {| target := LYZR_TASK_URL ++ "/" ++ tid;
     method := "GET"; payload := VUndef |}.


Section route.
Variable NumberToString : float -> string.
Variable StringToNumber : string -> float.
(** [parseLLMJson] of [@/lib/jsonParser] and [JSON.stringify] (on a value
    other than [undefined]) are taken as given. *)
Variable parseLLMJson : value -> completion value.
Variable JSON_stringify : value -> string.
(** [process.env.LYZR_API_KEY || ''] *)
Variable LYZR_API_KEY : string.
(** What the two calls of [generateUUID()] return, and
    [new Date().toISOString()]. *)
Variables uuid_user uuid_session : string.
Variable now_iso : string.
(** How a [fetch] to the inference backend settles. *)
Variable backend : Request -> completion Http.Response.

(** [a?.k] *)
#[local] Abbreviation opt := get_opt.

(** Submit a new async task to Lyzr. *)
Definition submitTask (body : value) : Handled :=
  if is_nullish body then ([], Throw (destructure_type_error "body" body "message")) else
  let message := get "message" body in
  let agent_id := get "agent_id" body in
  let user_id := get "user_id" body in
  let session_id := get "session_id" body in
  let assets := get "assets" body in
  if negb (truthy message) || negb (truthy agent_id) then
    ([], Return {| body := VObj (failure_body (VStr "message and agent_id are required")
                                              (VStr "message and agent_id are required"));
                   http_status := 400 |})
  else
    let finalUserId := js_or user_id (VStr ("user-" ++ uuid_user)) in
    (* session_id || `${agent_id}-${generateUUID().substring(0, 12)}` *)
    match (if truthy session_id then Return session_id
           else id <- ToString NumberToString agent_id ;;
                Return (VStr (id ++ "-" ++ substring 0 12 uuid_session))) with
    | Throw e => ([], Throw e)
    | Return finalSessionId =>
    let payload0 :=
      [("message", message); ("agent_id", agent_id);
       ("user_id", finalUserId); ("session_id", finalSessionId)] in
    (* assets && assets.length > 0 *)
    match (if truthy assets then length_gt NumberToString StringToNumber assets 0
           else Return false) with
    | Throw e => ([], Throw e)
    | Return with_assets =>
    let payload1 :=
      if with_assets : bool then obj_extend payload0 [("assets", assets)] else payload0 in
    let request := {| target := LYZR_TASK_URL; method := "POST"; payload := VObj payload1 |} in
    match backend request with
    | Throw e => ([request], Throw e)
    | Return submitRes =>
        if negb (Http.ok submitRes) then
          let submitText := Http.text submitRes in
          let errorMsg0 :=
            VStr ("Task submit failed with status " ++ nat_to_string (Http.status submitRes)) in
          let errorMsg :=
            match Http.json submitRes with
            | Return errorData =>
                js_or (js_or (js_or (opt errorData "detail") (opt errorData "error"))
                             (opt errorData "message")) errorMsg0
            | Throw _ =>
                match parseLLMJson (VStr submitText) with
                | Return errorData =>
                    js_or (js_or (opt errorData "error") (opt errorData "message")) errorMsg0
                | Throw _ => errorMsg0
                end
            end in
          ([request],
           NextResponse_json
             (VObj (failure_body errorMsg errorMsg
                    ++ [("raw_response", VStr submitText)])%list)
             (Http.status submitRes))
        else
          match Http.json submitRes with
          | Throw e => ([request], Throw e)
          | Return data =>
              if is_nullish data then
                ([request],
                 Throw (destructure_type_error "(intermediate value)" data "task_id"))
              else
                ([request],
                 Return {| body := VObj [("task_id", get "task_id" data);
                                         ("agent_id", agent_id);
                                         ("user_id", finalUserId);
                                         ("session_id", finalSessionId)];
                           http_status := 200 |})
          end
    end
    end
    end.

(** Poll a task by ID: a single request proxy with the API key. *)
Definition pollTask (task_id : value) : Handled :=
  (* `${LYZR_TASK_URL}/${task_id}` *)
  match ToString NumberToString task_id with
  | Throw e => ([], Throw e)
  | Return id =>
  let request :=
    {| target := LYZR_TASK_URL ++ "/" ++ id;
       method := "GET"; payload := VUndef |} in
  match backend request with
  | Throw e => ([request], Throw e)
  | Return pollRes =>
      if negb (Http.ok pollRes) then
        let pollText := Http.text pollRes in
        let msg :=
          if (Http.status pollRes =? 404)%nat then "Task expired or not found"
          else "Poll failed with status " ++ nat_to_string (Http.status pollRes) in
        ([request],
         NextResponse_json
           (VObj [("success", VBool false);
                  ("status", VStr "failed");
                  ("error", VStr msg);
                  ("raw_response", VStr pollText)])
           (Http.status pollRes))
      else
        match Http.json pollRes with
        | Throw e => ([request], Throw e)
        | Return task =>
            match get_prop task "status" with
            | Throw e => ([request], Throw e)
            | Return st =>
                if is_str_lit st "processing" then
                  (* still processing *)
                  ([request],
                   Return {| body := VObj [("status", VStr "processing")];
                             http_status := 200 |})
                else if is_str_lit st "failed" then
                  (* task failed *)
                  let err := js_or (get "error" task) (VStr "Agent task failed") in
                  ([request],
                   Return {| body := VObj [("success", VBool false);
                                           ("status", VStr "failed");
                                           ("response",
                                            VObj [("status", VStr "error");
                                                  ("result", VObj []);
                                                  ("message", err)]);
                                           ("error", err)];
                             http_status := 500 |})
                else
                  (* task completed: envelope extraction, parseLLMJson,
                     normalizeResponse *)
                  let response := get "response" task in
                  let rawText :=
                    match response with
                    | VUndef => VUndef
                    | _ => VStr (JSON_stringify response)
                    end in
                  let envelope := json_roundtrip response in
                  let enveloped :=
                    negb (is_nullish response)
                    && truthy envelope && is_object envelope
                    && has_key "response" envelope in
                  let moduleOutputs :=
                    if enveloped then get "module_outputs" envelope else VUndef in
                  let agentResponseRaw :=
                    if enveloped then get "response" envelope else rawText in
                  match parseLLMJson agentResponseRaw with
                  | Throw e => ([request], Throw e)
                  | Return parsed =>
                      let toNormalize :=
                        if truthy parsed && is_object parsed
                           && is_false (get "success" parsed)
                           && is_null (get "data" parsed)
                        then agentResponseRaw else parsed in
                      let normalized := normalizeResponse NumberToString toNormalize in
                      ([request],
                       Return {| body := VObj [("success", VBool true);
                                               ("status", VStr "completed");
                                               ("response", response_object normalized);
                                               ("module_outputs", moduleOutputs);
                                               ("timestamp", VStr now_iso);
                                               ("raw_response", rawText)];
                                 http_status := 200 |})
                  end
            end
        end
  end
  end.

(** The [catch] of [POST]:
    [error instanceof Error ? error.message : 'Server error'], status 500. *)
Definition server_error (e : exn) : NextResponse :=
  let errorMsg := match e with JsError msg => msg | JsOther _ => "Server error" end in
  {| body := VObj (failure_body (VStr errorMsg) (VStr errorMsg)); http_status := 500 |}.

(** [POST /api/agent], given how [request.json()] settles.  Only the reads
    before the two [return]s are inside what the [catch] sees awaited: the
    promises of [pollTask] and [submitTask] are returned, not awaited, and a
    rejection of theirs is the rejection of the handler. *)
Definition POST (request_json : completion value) : Handled :=
  match request_json with
  | Throw e => ([], Return (server_error e))
  | Return body =>
      if String.eqb LYZR_API_KEY "" then
        ([], Return {| body := VObj (failure_body (VStr "LYZR_API_KEY not configured")
                                       (VStr "LYZR_API_KEY not configured on server"));
                       http_status := 500 |})
      else
        match get_prop body "task_id" with
        | Throw e => ([], Return (server_error e))
        | Return task_id =>
            if truthy task_id then pollTask task_id   (* poll mode *)
            else submitTask body                      (* submit mode *)
        end
  end.

(** The HTTP response the browser receives for a run of the handler: the
    JSON reply, or the framework's own status 500 when the handler rejects. *)
Definition served (h : Handled) : Http.Response :=
  match snd h with
  | Return r =>
      {| Http.status := http_status r;
         Http.redirected := false;
         Http.url := "/api/agent";
         Http.content_type := Some "application/json";
         Http.text := JSON_stringify (body r);
         Http.json := Return (json_roundtrip (body r)) |}
  | Throw _ =>
      {| Http.status := 500;
         Http.redirected := false;
         Http.url := "/api/agent";
         Http.content_type := None;
         Http.text := "Internal Server Error";
         Http.json :=
           (* the SyntaxError of V8 on that text *)
           let dq := String (ascii_of_nat 34) "" in
           Throw (JsError ("Unexpected token 'I', " ++ dq ++ "Internal S" ++ dq
                           ++ "... is not valid JSON")) |}
  end.
End route.

End Route.

(* ================================================================== *)
(** ** The client against the route *)
(* ================================================================== *)

Module Deployment.

(** The server side of a deployment and the network between the browser
    and the route. *)
Record Server : Type := {
  NumberToString : float -> string;
  StringToNumber : string -> float;
  parseLLMJson : value -> completion value;
  JSON_stringify : value -> string;
  LYZR_API_KEY : string;
  uuid_user : nat -> string;
  uuid_session : nat -> string;
  now_iso : nat -> string;
  (** how the fetch of the route to the inference backend settles, during
      the n-th request of the client *)
  backend : nat -> Route.Request -> completion Http.Response;
  (** whether the n-th request of the client reaches the route *)
  online : nat -> bool;
  (** the user's answer to a [confirm] during the n-th request *)
  answer : nat -> bool;
  (** the readings of the browser's clock *)
  clock : nat -> Z
}.

Section deployment.
Variable s : Server.

(** The route handling the n-th request of the client, whose body arrives
    as [JSON.parse(JSON.stringify(body))]. *)
Definition handle (n : nat) (body : value) : Route.Handled :=
  Route.POST (NumberToString s) (StringToNumber s) (parseLLMJson s) (JSON_stringify s)
             (LYZR_API_KEY s) (uuid_user s n) (uuid_session s n) (now_iso s n)
             (backend s n) (Return (json_roundtrip body)).

(** [fetch('/api/agent', { method: 'POST', body })] in the browser. *)
Definition browser_fetch (n : nat) (body : value) : completion Http.Response :=
  if online s n then Return (Route.served (JSON_stringify s) (handle n body))
  else Throw (JsError "Failed to fetch").

Definition world : AiAgent.World :=
  {| AiAgent.now := clock s;
     AiAgent.fetchWrapper := fun n body =>
       match snd (FetchWrapper.fetchWrapper (answer s n) (browser_fetch n body)) with
       | Some response => AiAgent.Response (Http.json response)
       | None => AiAgent.Undefined
       end |}.

(** The requests the route sends to the inference backend while it handles
    the n-th request of the client. *)
Definition backend_requests (n : nat) (body : value) : list Route.Request :=
  if online s n then fst (handle n body) else [].
End deployment.

End Deployment.

(** ** Sample worlds *)

Module Samples.

(** A backend that accepts a task and reports it as processing for ever,
    under a clock that advances by 100 seconds per reading. *)
Definition slow_world : AiAgent.World :=
  {| AiAgent.now := fun k => (Z.of_nat k * 100000)%Z;
     AiAgent.fetchWrapper := fun n _ =>
       match n with
       | O => AiAgent.Response (Return (VObj [("task_id", VStr "T1")]))
       | S _ => AiAgent.Response (Return (VObj [("status", VStr "processing")]))
       end |}.

(** A submit reply without [task_id]. *)
Definition no_task_world : AiAgent.World :=
  {| AiAgent.now := fun _ => 0%Z;
     AiAgent.fetchWrapper := fun _ _ =>
       AiAgent.Response (Return (VObj [("agent_id", VStr "A1")])) |}.


Definition http_reply (st : nat) (txt : string) (j : completion value) : Http.Response :=
  {| Http.status := st; Http.redirected := false; Http.url := "";
     Http.content_type := Some "application/json"; Http.text := txt; Http.json := j |}.

(** A deployment with a configured key, whose backend accepts the task as
    T1, reports it as processing once and then answers 404. *)
Definition expiring_server : Deployment.Server :=
  {| Deployment.NumberToString := fun _ => "";
     Deployment.StringToNumber := fun _ => nan;
     Deployment.parseLLMJson := fun v => Return v;
     Deployment.JSON_stringify := fun _ => "";
     Deployment.LYZR_API_KEY := "sk-test";
     Deployment.uuid_user := fun _ => "00000000-0000-4000-8000-000000000000";
     Deployment.uuid_session := fun _ => "11111111-1111-4111-8111-111111111111";
     Deployment.now_iso := fun _ => "2025-01-01T00:00:00.000Z";
     Deployment.backend := fun n _ =>
       match n with
       | 0%nat => Return (http_reply 200 "" (Return (VObj [("task_id", VStr "T1")])))
       | 1%nat => Return (http_reply 200 "" (Return (VObj [("status", VStr "processing")])))
       | _ => Return (http_reply 404 "Not Found" (Throw (JsError "Unexpected token N")))
       end;
     Deployment.online := fun _ => true;
     Deployment.answer := fun _ => false;
     Deployment.clock := fun k => (Z.of_nat k * 1000)%Z |}.

End Samples.

(* ================================================================== *)
(** ** Further definitions: the rest of the client, the route and the
       interceptor *)
(* ================================================================== *)




(** A run of the client that ended outside the loop, in the loop, or at
    the reading of the clock that ends the loop, after [k] rounds. *)
Definition rounds (w : AiAgent.World) (submit tid : value) (k : nat)
  : list AiAgent.Event :=
  ([AiAgent.Post submit; AiAgent.Clock (AiAgent.now w 0)]
   ++ flat_map (AiAgent.iteration w tid) (seq 0 k))%list.

Module Samples2.

(** A deployment whose backend accepts the task as T1 and then reports it
    as failed at every poll, under a clock of 100 seconds per reading. *)
Definition failing_server : Deployment.Server :=
  {| Deployment.NumberToString := fun _ => "";
     Deployment.StringToNumber := fun _ => nan;
     Deployment.parseLLMJson := fun v => Return v;
     Deployment.JSON_stringify := fun _ => "";
     Deployment.LYZR_API_KEY := "sk-test";
     Deployment.uuid_user := fun _ => "00000000-0000-4000-8000-000000000000";
     Deployment.uuid_session := fun _ => "11111111-1111-4111-8111-111111111111";
     Deployment.now_iso := fun _ => "2025-01-01T00:00:00.000Z";
     Deployment.backend := fun n _ =>
       match n with
       | 0%nat => Return (Samples.http_reply 200 "" (Return (VObj [("task_id", VStr "T1")])))
       | _ => Return (Samples.http_reply 200 ""
                        (Return (VObj [("status", VStr "failed");
                                       ("error", VStr "model overloaded")])))
       end;
     Deployment.online := fun _ => true;
     Deployment.answer := fun _ => false;
     Deployment.clock := fun k => (Z.of_nat k * 100000)%Z |}.

(** The same deployment without an API key. *)
Definition keyless_server : Deployment.Server :=
  {| Deployment.NumberToString := fun _ => "";
     Deployment.StringToNumber := fun _ => nan;
     Deployment.parseLLMJson := fun v => Return v;
     Deployment.JSON_stringify := fun _ => "";
     Deployment.LYZR_API_KEY := "";
     Deployment.uuid_user := fun _ => "00000000-0000-4000-8000-000000000000";
     Deployment.uuid_session := fun _ => "11111111-1111-4111-8111-111111111111";
     Deployment.now_iso := fun _ => "2025-01-01T00:00:00.000Z";
     Deployment.backend := fun _ _ =>
       Return (Samples.http_reply 200 "" (Return (VObj [("task_id", VStr "T1")])));
     Deployment.online := fun _ => true;
     Deployment.answer := fun _ => false;
     Deployment.clock := fun k => (Z.of_nat k * 100000)%Z |}.

Definition hi_submit : value := AiAgent.submit_body (VStr "hi") (VStr "A1") VUndef.

(** The run of the client against [Samples.slow_world]. *)
Definition slow_trace : list AiAgent.Event :=
  [AiAgent.Post hi_submit; AiAgent.Clock 0;
   AiAgent.Clock 100000; AiAgent.Sleep (AiAgent.delay 0);
   AiAgent.Post (VObj [("task_id", VStr "T1")]);
   AiAgent.Clock 200000; AiAgent.Sleep (AiAgent.delay 1);
   AiAgent.Post (VObj [("task_id", VStr "T1")]);
   AiAgent.Clock 300000].

(** The reply of the route to the submit of [hi_submit], as the client of
    [Samples.expiring_server] receives it. *)
Definition hi_submit_reply : value :=
  VObj [("task_id", VStr "T1"); ("agent_id", VStr "A1");
        ("user_id", VStr "user-00000000-0000-4000-8000-000000000000");
        ("session_id", VStr "A1-11111111-111")].

(** The reply to a poll the backend answered 404 with the text Not Found. *)
Definition expired_reply : list (string * value) :=
  [("success", VBool false); ("status", VStr "failed");
   ("error", VStr "Task expired or not found");
   ("raw_response", VStr "Not Found")].

End Samples2.

(** The user and session identifiers [submitTask] settles on:
    [user_id || `user-${generateUUID()}`] and
    [session_id || `${agent_id}-${generateUUID().substring(0, 12)}`]. *)
Definition final_user_id (body : value) (uuid : string) : value :=
  js_or (get "user_id" body) (VStr ("user-" ++ uuid)).

Definition final_session_id (nts : float -> string) (body : value) (uuid : string)
  : completion value :=
  if truthy (get "session_id" body) then Return (get "session_id" body)
  else id <- ToString nts (get "agent_id" body) ;;
       Return (VStr (id ++ "-" ++ substring 0 12 uuid)).

(** [assets && assets.length > 0] *)
Definition with_assets (nts : float -> string) (stn : string -> float) (body : value)
  : completion bool :=
  if truthy (get "assets" body) then length_gt nts stn (get "assets" body) 0
  else Return false.

(** A submit body whose [agent_id] cannot be converted to a string. *)
Definition unconvertible_agent : value :=
  VObj [("message", VStr "hi"); ("agent_id", VObj [("toString", VNum 1%float)])].


(** A backend that settles every request in the same way. *)
Definition always (c : completion Http.Response)
  : Route.Request -> completion Http.Response := fun _ => c.

(** A submit body, and replies of the backend, for examples. *)
Definition sample_submit : value :=
  VObj [("message", VStr "hi"); ("agent_id", VStr "A1");
        ("session_id", VStr "S9"); ("assets", VArr [VStr "asset-1"])].

Definition accepted : Http.Response :=
  Samples.http_reply 200 "" (Return (VObj [("task_id", VStr "T1")])).


Definition completed_task : Http.Response :=
  Samples.http_reply 200 ""
    (Return (VObj [("status", VStr "completed");
                   ("response", VObj [("response", VStr "Hello back");
                                      ("module_outputs", VObj [])])])).

(* ================================================================== *)
(** ** More on the normalizer and [extractText] *)
(* ================================================================== *)

(** The candidate is an object with a [status] property, or the recursive
    case of the normalizer unwraps it down to one. *)
Inductive carries_status : value -> Prop :=
| cs_here : forall v,
    truthy v = true -> is_object v = true -> has_key "status" v = true ->
    carries_status v
| cs_inner : forall v,
    unwraps v = true -> carries_status (get "response" v) -> carries_status v.

Definition string_or_undefined (v : value) : bool :=
  match v with VStr _ | VUndef => true | _ => false end.

(** [extractText] of the client: the first of [message], [result.text],
    [result.message], [result.response], [result.answer],
    [result.answer_text], [result.summary], [result.content] that is truthy,
    else [result] when it is a string, else the empty string. *)
Definition extractText (response : NormalizedAgentResponse) : value :=
  let r := result response in
  if truthy (message response) then message response
  else if truthy (get_opt r "text") then get_opt r "text"
  else if truthy (get_opt r "message") then get_opt r "message"
  else if truthy (get_opt r "response") then get_opt r "response"
  else if truthy (get_opt r "answer") then get_opt r "answer"
  else if truthy (get_opt r "answer_text") then get_opt r "answer_text"
  else if truthy (get_opt r "summary") then get_opt r "summary"
  else if truthy (get_opt r "content") then get_opt r "content"
  else if is_string r then r
  else VStr "".

(* ================================================================== *)
(** ** [generateUUID] (the route) *)
(* ================================================================== *)

Module Uuid.

Definition template : string := "xxxxxxxx-xxxx-4xxx-yxxx-xxxxxxxxxxxx".

(** [v.toString(16)] for a non-negative integer [v]. *)
Definition toString16 (v : N) : string :=
  match v with
  | N0 => "0"
  | Npos p => HexString.Raw.of_pos p ""
  end.

(** The callback of [replace]: with [r = (Math.random() * 16) | 0],
    [v = c === 'x' ? r : (r & 0x3) | 0x8] and the result [v.toString(16)]. *)
Definition replacement (c : ascii) (r : N) : string :=
  toString16 (if Ascii.eqb c "x" then r else N.lor (N.land r 3) 8).

(** [tpl.replace(/[xy]/g, callback)]: the matches are replaced from left to
    right, the k-th one with the k-th draw [random k] of
    [(Math.random() * 16) | 0]. *)
Fixpoint replace_xy (tpl : string) (random : nat -> N) (k : nat) : string :=
  match tpl with
  | EmptyString => EmptyString
  | String c rest =>
      if Ascii.eqb c "x" || Ascii.eqb c "y"
      then replacement c (random k) ++ replace_xy rest random (S k)
      else String c (replace_xy rest random k)
  end.

Definition generateUUID (random : nat -> N) : string :=
  replace_xy template random 0.

(** The hexadecimal digit of a number below 16. *)
Definition hex_char (r : N) : ascii :=
  nth (N.to_nat r)
      ["0"; "1"; "2"; "3"; "4"; "5"; "6"; "7"; "8"; "9"; "a"; "b"; "c"; "d"; "e"; "f"]%char
      "0"%char.

Definition is_hex (c : ascii) : bool :=
  existsb (Ascii.eqb c)
    ["0"; "1"; "2"; "3"; "4"; "5"; "6"; "7"; "8"; "9"; "a"; "b"; "c"; "d"; "e"; "f"]%char.

Definition is_variant (c : ascii) : bool :=
  existsb (Ascii.eqb c) ["8"; "9"; "a"; "b"]%char.

(** A string matches a pattern in which [h] stands for a hexadecimal digit,
    [v] for one of 8, 9, a, b, and any other character for itself. *)
Fixpoint matches (pat s : string) : bool :=
  match pat, s with
  | EmptyString, EmptyString => true
  | String p pat', String c s' =>
      (if Ascii.eqb p "h" then is_hex c
       else if Ascii.eqb p "v" then is_variant c
       else Ascii.eqb p c)
      && matches pat' s'
  | _, _ => false
  end.

(** The textual form of a version 4, variant 1 UUID. *)
Definition is_uuid_v4 (s : string) : bool :=
  matches "hhhhhhhh-hhhh-4hhh-vhhh-hhhhhhhhhhhh" s.

(** Draws for examples. *)
Definition sample_draws (k : nat) : N := N.of_nat (k mod 16).

End Uuid.

(* ================================================================== *)
(** ** [uploadFiles] (the client) *)
(* ================================================================== *)

Module Upload.

(** What the code reads of a [File]. *)
Record File : Type := { name : string }.

(** The argument [files: File | File[]]. *)
Inductive Files : Type :=
| One (f : File)
| Many (fs : list File).

(** [Array.isArray(files) ? files : [files]] *)
Definition fileArray (files : Files) : list File :=
  match files with
  | One f => [f]
  | Many fs => fs
  end.

(** An [UploadResponse] built by the client itself. *)
Record UploadResponse : Type := {
  success : bool;
  asset_ids : list string;
  files : list value;
  total_files : nat;
  successful_uploads : nat;
  failed_uploads : nat;
  message : string;
  timestamp : string;
  error : string
}.

(** What [uploadFiles] returns: a response built here, or the JSON of the
    server, returned as it is. *)
Inductive Outcome : Type :=
| Built (r : UploadResponse)
| Served (data : value).

Section upload.
Variable NumberToString : float -> string.
(** [new Date().toISOString()] *)
Variable now_iso : string.
(** [fetchWrapper('/api/upload', { method: 'POST', body: formData })], the
    form holding the files in the order they were appended. *)
Variable fetchWrapper : list File -> AiAgent.FetchResult.

(** [error instanceof Error ? error.message : String(error)]; the
    conversion of a thrown value that is no [Error] can throw in its turn. *)
Definition error_text (e : exn) : completion string :=
  match e with
  | JsError msg => Return msg
  | JsOther v => ToString NumberToString v
  end.

(** The [catch] block: the response built from the error caught.  An error
    of the conversion leaves the block. *)
Definition network_failure (n : nat) (e : exn) : completion Outcome :=
  text <- error_text e ;;
  Return (Built {| success := false;
                   asset_ids := [];
                   files := [];
                   total_files := n;
                   successful_uploads := 0;
                   failed_uploads := n;
                   message := "Network error during upload";
                   timestamp := now_iso;
                   error := text |}).

(** The forms posted, and how the call settles. *)
Definition uploadFiles (input : Files) : list (list File) * completion Outcome :=
  let fileArray := fileArray input in
  if (List.length fileArray =? 0)%nat then
    ([], Return (Built {| success := false;
                          asset_ids := [];
                          files := [];
                          total_files := 0;
                          successful_uploads := 0;
                          failed_uploads := 0;
                          message := "No files provided";
                          timestamp := now_iso;
                          error := "No files provided" |}))
  else
    let n := List.length fileArray in
    ([fileArray],
     match fetchWrapper fileArray with
     | AiAgent.Rejects e => network_failure n e
     | AiAgent.Undefined =>
         (* response.json() on undefined *)
         network_failure n (read_type_error VUndef "json")
     | AiAgent.Response (Throw e) => network_failure n e
     | AiAgent.Response (Return data) => Return (Served data)
     end).
End upload.

End Upload.

(* ================================================================== *)
(** ** The interceptor's state, [interceptedFetch] and the fix request *)
(* ================================================================== *)

Module Interceptor.
Import AgentInterceptor.

(** [interface PendingError] *)
Record PendingError : Type := {
  pending_error : ErrorDetails;
  fullResponse : value
}.

(** What [window.fetch] is bound to: the fetch captured when the module was
    loaded, the interceptor, or a function some other code installed. *)
Inductive Fetcher : Type :=
| OriginalFetch
| InterceptedFetch
| ForeignFetch (id : nat).

(** The payload of a fix request posted to the parent window, with type
    'FIX_ERROR_REQUEST' and source 'architect-child-app':
    [{ ...error, action, fixPrompt, fullResponse }]. *)
Record FixRequest : Type := {
  details : ErrorDetails;
  action : string;
  fixPrompt : string;
  fullResponseText : string
}.

(** The state of the module ([interceptorInstalled], [pendingError],
    [modalCallback]) and what it changes outside: [window.fetch], the calls
    made to the registered callback, the messages posted to the parent. *)
Record State : Type := {
  interceptorInstalled : bool;
  window_fetch : Fetcher;
  pendingError : option PendingError;
  modalCallback : option nat;
  notified : list (nat * option PendingError);
  posted : list FixRequest
}.

Definition with_fetch (st : State) (installed : bool) (f : Fetcher) : State :=
  {| interceptorInstalled := installed;
     window_fetch := f;
     pendingError := pendingError st;
     modalCallback := modalCallback st;
     notified := notified st;
     posted := posted st |}.

(** Assign [pendingError] and call the callback, if any, with it. *)
Definition with_pending (st : State) (p : option PendingError) : State :=
  {| interceptorInstalled := interceptorInstalled st;
     window_fetch := window_fetch st;
     pendingError := p;
     modalCallback := modalCallback st;
     notified := match modalCallback st with
                 | Some cb => (notified st ++ [(cb, p)])%list
                 | None => notified st
                 end;
     posted := posted st |}.

Definition with_posted (st : State) (m : FixRequest) : State :=
  {| interceptorInstalled := interceptorInstalled st;
     window_fetch := window_fetch st;
     pendingError := pendingError st;
     modalCallback := modalCallback st;
     notified := notified st;
     posted := (posted st ++ [m])%list |}.

Definition onInterceptorError (callback : nat) (st : State) : State :=
  {| interceptorInstalled := interceptorInstalled st;
     window_fetch := window_fetch st;
     pendingError := pendingError st;
     modalCallback := Some callback;
     notified := notified st;
     posted := posted st |}.

Definition getPendingError (st : State) : option PendingError := pendingError st.

Definition clearPendingError (st : State) : State := with_pending st None.

Definition setPendingError (e : ErrorDetails) (full : value) (st : State) : State :=
  with_pending st (Some {| pending_error := e; fullResponse := full |}).

Definition isInterceptorInstalled (st : State) : bool := interceptorInstalled st.

Section interceptor.
(** [typeof window !== 'undefined']; [originalFetch] is [null] exactly when
    it does not hold. *)
Variable in_browser : bool.
(** [isInIframe()] *)
Variable inIframe : bool.
Variable NumberToString : float -> string.
Variable StringToNumber : string -> float.
Variable JSON_stringify : value -> string.
Variable browser : Browser.

Definition installAgentInterceptor (st : State) : State :=
  if negb in_browser then st
  else if interceptorInstalled st then st
  else with_fetch st true InterceptedFetch.

Definition uninstallAgentInterceptor (st : State) : State :=
  if negb in_browser then st
  else if negb (interceptorInstalled st) then st
  else with_fetch st false OriginalFetch.

Definition type_name (t : ErrorType) : string :=
  match t with
  | react_error => "react_error"
  | api_error => "api_error"
  | parse_error => "parse_error"
  | network_error => "network_error"
  | unknown => "unknown"
  end.

Definition nl : string := String (ascii_of_nat 10) "".

(** [s?.substring(0, n)]: [undefined] on [null] and [undefined], a
    [TypeError] on a value that has no [substring]. *)
Definition opt_substring (v : value) (n : nat) : completion value :=
  match v with
  | VUndef | VNull => Return VUndef
  | VStr s => Return (VStr (substring 0 n s))
  | _ => Throw (JsError "error.raw_response?.substring is not a function")
  end.

Definition generateFixPrompt (error : ErrorDetails) : completion string :=
  message_text <- ToString NumberToString (message error) ;;
  raw <- opt_substring (raw_response error) 800 ;;
  raw_text <- ToString NumberToString raw ;;
  Return
    ("The child app received a valid agent response but failed to display it properly."
     ++ nl ++ nl
     ++ "**Error Type:** " ++ type_name (type error) ++ nl
     ++ "**Error Message:** " ++ message_text ++ nl ++ nl
     ++ "**The raw_response contains valid data:**" ++ nl ++ "```json" ++ nl
     ++ raw_text ++ nl ++ "```" ++ nl ++ nl
     ++ "**Fix needed:** Update the UI code (src/pages/Home.tsx) to properly extract and display the agent's response."
     ++ nl
     ++ "Use the extractAgentMessage pattern or access response.result.answer / response.result.message directly."
     ++ nl
     ++ "The data IS there - the UI just isn't reading it correctly.").

(** [JSON.stringify(fullResponse).substring(0, 2000)] *)
Definition full_response_text (full : value) : completion string :=
  match full with
  | VUndef => Throw (read_type_error VUndef "substring")
  | _ => Return (substring 0 2000 (JSON_stringify full))
  end.

(** [sendFixRequestToParent()], given whether [postMessage] throws. *)
Definition sendFixRequestToParent (post_throws : bool) (st : State) : State :=
  match pendingError st with
  | None => st
  | Some p =>
      if negb inIframe then st
      else
        match generateFixPrompt (pending_error p) with
        | Throw _ => st
        | Return prompt =>
            match full_response_text (fullResponse p) with
            | Throw _ => st
            | Return text =>
                if post_throws then st
                else
                  clearPendingError
                    (with_posted st {| details := pending_error p;
                                       action := "user_requested_fix";
                                       fixPrompt := prompt;
                                       fullResponseText := text |})
            end
        end
  end.

(** The record [interceptedFetch] makes of a network error. *)
Definition network_error_details (e : exn) : ErrorDetails :=
  {| type := network_error;
     message := VStr (match e with
                      | JsError msg => msg
                      | JsOther _ => "Network request failed"
                      end);
     raw_response := VUndef;
     endpoint := "/api/agent";
     timestamp := now_iso browser;
     userAgent := navigator_userAgent browser;
     url := location_href browser |}.

(** [interceptedFetch(input, init)], given the URL of the request and how
    [originalFetch(input, init)] settles: the new state, and how the call
    settles. *)
Definition interceptedFetch (st : State) (request_url : string)
    (fetched : completion Http.Response) : State * completion Http.Response :=
  if negb in_browser then (st, Throw (JsError "Fetch not available"))
  else if negb (includes request_url "agent-prod.studio.lyzr.ai") then (st, fetched)
  else
    match fetched with
    | Return response =>
        (match Http.json response with
         | Return data =>
             match detectResponseIssue NumberToString StringToNumber browser data with
             | Return d =>
                 match hasIssue d, error d with
                 | true, Some e => setPendingError e data st
                 | _, _ => st
                 end
             | Throw _ => st
             end
         | Throw _ => st
         end,
         Return response)
    | Throw networkError =>
        (if inIframe then setPendingError (network_error_details networkError) VNull st
         else st,
         Throw networkError)
    end.
End interceptor.

(** A state for examples: nothing installed, a pending parse error, a
    callback registered. *)
Definition sample_browser : Browser :=
  {| now_iso := "2025-01-01T00:00:00.000Z";
     navigator_userAgent := "Mozilla/5.0";
     location_href := "https://app.example/" |}.

Definition sample_details : ErrorDetails :=
  {| type := parse_error;
     message := VStr "bad json";
     raw_response := VStr "{'answer': 'forty2'}.";
     endpoint := LYZR_API_URL;
     timestamp := "2025-01-01T00:00:00.000Z";
     userAgent := "Mozilla/5.0";
     url := "https://app.example/" |}.

Definition sample_state : State :=
  {| interceptorInstalled := false;
     window_fetch := OriginalFetch;
     pendingError := Some {| pending_error := sample_details;
                             fullResponse := nested_failure |};
     modalCallback := Some 7%nat;
     notified := [];
     posted := [] |}.

Definition lyzr_reply : Http.Response :=
  Samples.http_reply 200 "" (Return nested_failure).

End Interceptor.

(* ================================================================== *)
(** ** Error reporting to the parent window (@/components/ErrorBoundary) *)
(* ================================================================== *)

Module ErrorBoundary.

(** What the reporting code reads of its surroundings:
    [new Date().toISOString()], [navigator.userAgent] and
    [window.location.href] where [navigator] and [window] are defined,
    [isInIframe()], whether [window.parent.postMessage] throws, and whether
    a global error callback is registered. *)
Record Env : Type := {
  now_iso : string;
  navigator_userAgent : option string;
  location_href : option string;
  inIframe : bool;
  post_throws : bool;
  globalErrorCallback : bool
}.

(** What the reporting code does to its surroundings: a 'CHILD_APP_ERROR'
    message posted to the parent, a call of the global error callback, a
    call of the [onError] option. *)
Inductive Effect : Type :=
| ChildAppError (e : AgentInterceptor.ErrorDetails)
| GlobalError (e : AgentInterceptor.ErrorDetails)
| OnError (e : AgentInterceptor.ErrorDetails).

Definition or_unknown (s : option string) : string :=
  match s with Some x => x | None => "unknown" end.

(** [sendErrorToParent(error)]: a failure of [postMessage] is caught. *)
Definition sendErrorToParent (env : Env) (e : AgentInterceptor.ErrorDetails)
    : list Effect :=
  if negb (inIframe env) then []
  else if post_throws env then [] else [ChildAppError e].

(** [handleApiError(response, endpoint)]: the effects, and the details
    returned ([None] is [null]).  An absent [endpoint] is the empty string
    here. *)
Definition handleApiError (env : Env) (response : value) (endpoint : string)
    : list Effect * option AgentInterceptor.ErrorDetails :=
  let inner := get_opt response "response" in
  (* the response indicates a parsing failure *)
  if is_false (get_opt inner "success") && truthy (get_opt inner "error") then
    let errorDetails :=
      {| AgentInterceptor.type := AgentInterceptor.parse_error;
         AgentInterceptor.message := get "error" inner;
         AgentInterceptor.raw_response :=
           js_or (get "raw_response" response) (get "raw_response" inner);
         AgentInterceptor.endpoint := endpoint;
         AgentInterceptor.timestamp := now_iso env;
         AgentInterceptor.userAgent := or_unknown (navigator_userAgent env);
         AgentInterceptor.url := or_unknown (location_href env) |} in
    (if inIframe env then sendErrorToParent env errorDetails else [],
     Some errorDetails)
  (* API error *)
  else if is_false (get_opt response "success") && truthy (get_opt response "error") then
    let errorDetails :=
      {| AgentInterceptor.type := AgentInterceptor.api_error;
         AgentInterceptor.message := get "error" response;
         AgentInterceptor.raw_response := get "details" response;
         AgentInterceptor.endpoint := endpoint;
         AgentInterceptor.timestamp := now_iso env;
         AgentInterceptor.userAgent := or_unknown (navigator_userAgent env);
         AgentInterceptor.url := or_unknown (location_href env) |} in
    (if inIframe env then sendErrorToParent env errorDetails else [],
     Some errorDetails)
  else ([], None).

(** [response.response.success === false && response.response.error], the
    first test of [handleApiError]. *)
Definition nested_failed (response : value) : bool :=
  is_false (get_opt (get_opt response "response") "success")
  && truthy (get_opt (get_opt response "response") "error").

Definition sample_env : Env :=
  {| now_iso := "2025-01-01T00:00:00.000Z";
     navigator_userAgent := Some "Mozilla/5.0";
     location_href := Some "https://app.example/";
     inIframe := true;
     post_throws := false;
     globalErrorCallback := true |}.

(** A payload that is an API failure whose nested response failed too. *)
Definition failed_twice : value :=
  VObj [("success", VBool false); ("error", VStr "upstream 502");
        ("details", VStr "Bad Gateway");
        ("response", VObj [("success", VBool false); ("error", VStr "bad json")])].

End ErrorBoundary.

(* ================================================================== *)
(** ** The wrappers of the client ([useAgent], [callAgentAPI]) *)
(* ================================================================== *)

Module UseAgent.
Import ErrorBoundary.

(** [interface UseAgentResult]; [error] is absent on success. *)
Record UseAgentResult : Type := {
  success : bool;
  response : value;
  raw_response : value;
  error : option AgentInterceptor.ErrorDetails
}.

(** [createErrorDetails(type, message, raw_response)] *)
Definition createErrorDetails (env : Env) (t : AgentInterceptor.ErrorType)
    (msg raw : value) : AgentInterceptor.ErrorDetails :=
  {| AgentInterceptor.type := t;
     AgentInterceptor.message := msg;
     AgentInterceptor.raw_response := raw;
     AgentInterceptor.endpoint := "https://agent-prod.studio.lyzr.ai/v3/inference/chat";
     AgentInterceptor.timestamp := now_iso env;
     AgentInterceptor.userAgent := or_unknown (navigator_userAgent env);
     AgentInterceptor.url := or_unknown (location_href env) |}.

(** [networkError instanceof Error ? networkError.message : 'Network request failed'] *)
Definition network_message (e : exn) : string :=
  match e with
  | JsError msg => msg
  | JsOther _ => "Network request failed"
  end.

(** [{ status: 'error', result: {}, message }] *)
Definition error_response (msg : value) : value :=
  VObj [("status", VStr "error"); ("result", VObj []); ("message", msg)].

Definition call_global (env : Env) (e : AgentInterceptor.ErrorDetails) : list Effect :=
  if globalErrorCallback env then [GlobalError e] else [].

(** The options the wrappers pass to [callAIAgent]. *)
Definition client_options (userId sessionId : value) : value :=
  VObj [("user_id", userId); ("session_id", sessionId)].

(* ------------------------------------------------------------------ *)
(** *** [callAgentAPI] *)

(** The [try] block of [callAgentAPI], from the value [callAIAgent]
    resolved with. *)
Definition callAgentAPI_try (env : Env) (result : value)
    : completion (list Effect * UseAgentResult) :=
  s <- get_prop result "success" ;;
  failed <- (if negb (truthy s) then Return true
             else st <- get_prop (get "response" result) "status" ;;
                  Return (is_str_lit st "error")) ;;
  if failed : bool then
    msg <- (if truthy (get "error" result) then Return (get "error" result)
            else m <- get_prop (get "response" result) "message" ;;
                 Return (js_or m (VStr "Agent call failed"))) ;;
    let errorDetails :=
      createErrorDetails env AgentInterceptor.api_error msg (get "raw_response" result) in
    Return ((if inIframe env
             then sendErrorToParent env errorDetails ++ call_global env errorDetails
             else [])%list,
            {| success := false;
               response := get "response" result;
               raw_response := get "raw_response" result;
               error := Some errorDetails |})
  else
    Return ([],
            {| success := true;
               response := get "response" result;
               raw_response := get "raw_response" result;
               error := None |}).

(** The [catch] block of [callAgentAPI]. *)
Definition callAgentAPI_catch (env : Env) (networkError : exn)
    : list Effect * UseAgentResult :=
  let err := createErrorDetails env AgentInterceptor.network_error
               (VStr (network_message networkError)) VUndef in
  ((if inIframe env then sendErrorToParent env err ++ call_global env err else [])%list,
   {| success := false;
      response := error_response (AgentInterceptor.message err);
      raw_response := VUndef;
      error := Some err |}).

(** [callAgentAPI], from the way the call of [callAIAgent] settled. *)
Definition callAgentAPI_settle (env : Env) (c : completion value)
    : list Effect * UseAgentResult :=
  match (result <- c ;; callAgentAPI_try env result) with
  | Return r => r
  | Throw e => callAgentAPI_catch env e
  end.

(** [callAgentAPI(message, agentId, options)] over the client: the events of
    the client, then the effects and the result of the wrapper. *)
Definition callAgentAPI (env : Env) (w : AiAgent.World)
    (message agentId options : value) (fuel : nat)
    : option (list AiAgent.Event * (list Effect * UseAgentResult)) :=
  match AiAgent.callAIAgent w message agentId
          (client_options (get_opt options "userId") (get_opt options "sessionId"))
          fuel with
  | None => None
  | Some (trace, c) => Some (trace, callAgentAPI_settle env c)
  end.

(* ------------------------------------------------------------------ *)
(** *** The hook [useAgent] *)

(** [interface UseAgentOptions]; [onError] is whether the option is given. *)
Record UseAgentOptions : Type := {
  options_agentId : value;
  onError : bool;
  showErrorModal : value
}.

(** [interface AgentCallOptions] *)
Record AgentCallOptions : Type := {
  message : value;
  agentId : value;
  userId : value;
  sessionId : value
}.

(** The state of the hook. *)
Record HookState : Type := {
  loading : bool;
  hook_error : option AgentInterceptor.ErrorDetails;
  hook_response : value;
  lastResult : value
}.

Definition initial : HookState :=
  {| loading := false; hook_error := None; hook_response := VNull; lastResult := VNull |}.

Definition setLoading (b : bool) (st : HookState) : HookState :=
  {| loading := b; hook_error := hook_error st;
     hook_response := hook_response st; lastResult := lastResult st |}.
Definition setError (e : option AgentInterceptor.ErrorDetails) (st : HookState) : HookState :=
  {| loading := loading st; hook_error := e;
     hook_response := hook_response st; lastResult := lastResult st |}.
Definition setResponse (v : value) (st : HookState) : HookState :=
  {| loading := loading st; hook_error := hook_error st;
     hook_response := v; lastResult := lastResult st |}.
Definition setLastResult (v : value) (st : HookState) : HookState :=
  {| loading := loading st; hook_error := hook_error st;
     hook_response := hook_response st; lastResult := v |}.

Definition call_onError (options : UseAgentOptions) (e : AgentInterceptor.ErrorDetails)
    : list Effect :=
  if onError options then [OnError e] else [].

(** [agentId || options.agentId || process.env.NEXT_PUBLIC_AGENT_ID] *)
Definition finalAgentId (options : UseAgentOptions) (NEXT_PUBLIC_AGENT_ID : value)
    (callOptions : AgentCallOptions) : value :=
  js_or (js_or (agentId callOptions) (options_agentId options)) NEXT_PUBLIC_AGENT_ID.

(** The [try] block of [callAgent], from the value [callAIAgent] resolved
    with: the state and the effects at the point where the block returns
    or throws. *)
Definition callAgent_try (env : Env) (options : UseAgentOptions) (st : HookState)
    (result : value) : HookState * list Effect * completion UseAgentResult :=
  let st := setLastResult result st in
  match get_prop result "response" with
  | Throw e => (st, [], Throw e)
  | Return resp =>
      let st := setResponse resp st in
      if negb (truthy (get "success" result)) then
        let errorDetails :=
          createErrorDetails env AgentInterceptor.api_error
            (js_or (get "error" result) (VStr "Agent call failed"))
            (get "raw_response" result) in
        (setError (Some errorDetails) st,
         ((if inIframe env
           then sendErrorToParent env errorDetails
                ++ (if globalErrorCallback env && negb (is_false (showErrorModal options))
                    then [GlobalError errorDetails] else [])
           else [])
          ++ call_onError options errorDetails)%list,
         Return {| success := false;
                   response := resp;
                   raw_response := get "raw_response" result;
                   error := Some errorDetails |})
      else
        (* agent-level error (status: 'error') *)
        match get_prop resp "status" with
        | Throw e => (st, [], Throw e)
        | Return status =>
            let errorDetails :=
              createErrorDetails env AgentInterceptor.api_error
                (js_or (get "message" resp) (VStr "Agent returned error status"))
                (get "raw_response" result) in
            (st,
             if is_str_lit status "error" then
               ((if inIframe env && negb (is_false (showErrorModal options))
                 then sendErrorToParent env errorDetails ++ call_global env errorDetails
                 else [])
                ++ call_onError options errorDetails)%list
             else [],
             Return {| success := true;
                       response := resp;
                       raw_response := get "raw_response" result;
                       error := None |})
        end
  end.

(** The [catch] block of [callAgent]. *)
Definition callAgent_catch (env : Env) (options : UseAgentOptions) (st : HookState)
    (networkError : exn) : HookState * list Effect * UseAgentResult :=
  let err := createErrorDetails env AgentInterceptor.network_error
               (VStr (network_message networkError)) VUndef in
  (setResponse (error_response (AgentInterceptor.message err)) (setError (Some err) st),
   ((if inIframe env
     then sendErrorToParent env err
          ++ (if globalErrorCallback env && negb (is_false (showErrorModal options))
              then [GlobalError err] else [])
     else [])
    ++ call_onError options err)%list,
   {| success := false;
      response := error_response (AgentInterceptor.message err);
      raw_response := VUndef;
      error := Some err |}).

(** [callAgent] from [setLoading(true)] on, given the way the call of
    [callAIAgent] settled; the [finally] block runs last. *)
Definition callAgent_settle (env : Env) (options : UseAgentOptions) (st : HookState)
    (c : completion value) : HookState * list Effect * UseAgentResult :=
  let st := setError None (setLoading true st) in
  let '(st, effects, r) :=
    match c with
    | Throw e => callAgent_catch env options st e
    | Return result =>
        match callAgent_try env options st result with
        | (st, effects, Return r) => (st, effects, r)
        | (st, effects, Throw e) =>
            let '(st, more, r) := callAgent_catch env options st e in
            (st, (effects ++ more)%list, r)
        end
    end in
  (setLoading false st, effects, r).

(** [callAgent(callOptions)] over the client. *)
Definition callAgent (env : Env) (options : UseAgentOptions)
    (NEXT_PUBLIC_AGENT_ID : value) (w : AiAgent.World) (st : HookState)
    (callOptions : AgentCallOptions) (fuel : nat)
    : option (list AiAgent.Event * (HookState * list Effect * UseAgentResult)) :=
  let id := finalAgentId options NEXT_PUBLIC_AGENT_ID callOptions in
  if negb (truthy id) then
    let err := createErrorDetails env AgentInterceptor.api_error
                 (VStr "No agent_id provided") VUndef in
    Some ([], (setError (Some err) st, [],
               {| success := false;
                  response := error_response (VStr "No agent_id provided");
                  raw_response := VUndef;
                  error := Some err |}))
  else
    match AiAgent.callAIAgent w (message callOptions) id
            (client_options (userId callOptions) (sessionId callOptions)) fuel with
    | None => None
    | Some (trace, c) => Some (trace, callAgent_settle env options st c)
    end.

(** A result that succeeded at the transport level while the agent reports
    an error. *)
Definition agent_level_error : value :=
  VObj [("success", VBool true);
        ("response", VObj [("status", VStr "error"); ("result", VObj []);
                           ("message", VStr "quota exceeded")])].

Definition sample_options : UseAgentOptions :=
  {| options_agentId := VStr "A1"; onError := true; showErrorModal := VUndef |}.

Definition sample_call : AgentCallOptions :=
  {| message := VStr "hi"; agentId := VUndef; userId := VUndef; sessionId := VUndef |}.

End UseAgent.

(* ================================================================== *)
(** ** The page's reading of an agent result ([parseAgentResult]) *)
(* ================================================================== *)

Module Page.

(** [obj.jobs || obj.opportunities || obj.digest_date] *)
Definition has_payload (obj : value) : bool :=
  truthy (get "jobs" obj) || truthy (get "opportunities" obj)
  || truthy (get "digest_date" obj).

(** The number of nodes of a value, a string counting one more than its
    length. *)
Fixpoint size (v : value) : nat :=
  match v with
  | VStr s => S (String.length s)
  | VObj fs =>
      S ((fix fields (l : list (string * value)) : nat :=
            match l with
            | [] => 0%nat
            | (_, x) :: rest => (size x + fields rest)%nat
            end) fs)
  | VArr xs =>
      S ((fix items (l : list value) : nat :=
            match l with
            | [] => 0%nat
            | x :: rest => (size x + items rest)%nat
            end) xs)
  | _ => 1%nat
  end.

Section parse.
(** [JSON.parse] is taken as given. *)
Variable JSON_parse : string -> completion value.

(** [parseAgentResult(rawResult)].  The recursion goes through properties
    and through parsed strings; the fuel bounds its depth, [None] is fuel
    exhausted. *)
Fixpoint parseAgentResult (fuel : nat) (rawResult : value) : option value :=
  match fuel with
  | O => None
  | S fuel =>
      if negb (truthy rawResult) then Some (VObj [])
      else
        match rawResult with
        | VObj _ =>
            if has_payload rawResult then Some rawResult
            else if truthy (get "result" rawResult) then
              parseAgentResult fuel (get "result" rawResult)
            else if truthy (get "response" rawResult) then
              parseAgentResult fuel (get "response" rawResult)
            else Some rawResult
        | VStr s =>
            match JSON_parse s with
            | Return parsed => parseAgentResult fuel parsed
            | Throw _ => Some (VObj [("text", rawResult)])
            end
        | _ => Some (VObj [])
        end
  end.
End parse.

(** An object from which the page has nothing left to unwrap: it carries a
    payload, or neither a truthy [result] nor a truthy [response]. *)
Definition unwrapped (r : value) : bool :=
  match r with
  | VObj _ =>
      has_payload r
      || negb (truthy (get "result" r) || truthy (get "response" r))
  | _ => false
  end.

(** The text [{"jobs":[1]}]. *)
Definition jobs_text : string :=
  let dq := String (ascii_of_nat 34) "" in
  "{" ++ dq ++ "jobs" ++ dq ++ ":[1]}".

(** A parser for examples: it reads the text of the empty object and of one
    job list, and rejects every other text. *)
Definition sample_parse (s : string) : completion value :=
  if String.eqb s "{}" then Return (VObj [])
  else if String.eqb s jobs_text then Return (VObj [("jobs", VArr [VNum 1%float])])
  else Throw (JsError "Unexpected token").

Definition wrapped_jobs : value :=
  VObj [("result", VObj [("response", VStr jobs_text)])].

End Page.

(* ================================================================== *)
(** ** The hooks of the client ([useAIAgent], [useFileUpload]) *)
(* ================================================================== *)

Module Hooks.

(** The state of [useAIAgent]: [loading], [error] (a string or [null]) and
    [response] (a response or [null]). *)
Record AgentState : Type := {
  loading : bool;
  error : value;
  response : value
}.

(** [callAgent] of [useAIAgent], from the way the call of [callAIAgent]
    settled: the state when [callAgent] settles, and how it settles.  There
    is no [try] here: when the call throws, or the read of [result.success]
    does, the state stays as the three setters at the start left it. *)
Definition callAgent_settle (c : completion value) : AgentState * completion value :=
  let started := {| loading := true; error := VNull; response := VNull |} in
  match (result <- c ;; s <- get_prop result "success" ;; Return (result, s)) with
  | Throw e => (started, Throw e)
  | Return (result, s) =>
      (if truthy s then
         {| loading := false; error := VNull; response := get "response" result |}
       else
         {| loading := false;
            error := js_or (get "error" result) (VStr "Unknown error");
            response := get "response" result |},
       Return result)
  end.

(** [callAgent(message, agent_id, options)] over the client. *)
Definition callAgent (w : AiAgent.World) (message agent_id options : value)
    (fuel : nat) : option (list AiAgent.Event * (AgentState * completion value)) :=
  match AiAgent.callAIAgent w message agent_id options fuel with
  | None => None
  | Some (trace, c) => Some (trace, callAgent_settle c)
  end.

(** The state of [useFileUpload]. *)
Record UploadState : Type := {
  uploading : bool;
  upload_error : value;
  result : option Upload.Outcome
}.

(** [upload(files)] of [useFileUpload], from the way the call of
    [uploadFiles] settled. *)
Definition upload_settle (uploaded : completion Upload.Outcome)
    : UploadState * completion Upload.Outcome :=
  let started := {| uploading := true; upload_error := VNull; result := None |} in
  match uploaded with
  | Throw e => (started, Throw e)
  | Return uploadResult =>
  match uploadResult with
  | Upload.Built r =>
      (if Upload.success r then
         {| uploading := false; upload_error := VNull; result := Some uploadResult |}
       else
         {| uploading := false;
            upload_error := js_or (VStr (Upload.error r)) (VStr "Upload failed");
            result := Some uploadResult |},
       Return uploadResult)
  | Upload.Served data =>
      match get_prop data "success" with
      | Throw e => (started, Throw e)
      | Return s =>
          (if truthy s then
             {| uploading := false; upload_error := VNull; result := Some uploadResult |}
           else
             {| uploading := false;
                upload_error := js_or (get "error" data) (VStr "Upload failed");
                result := Some uploadResult |},
           Return uploadResult)
      end
  end
  end.

(** [upload(files)] over [uploadFiles]: the forms posted, then the state and
    how the call settles. *)
Definition upload (NumberToString : float -> string) (now_iso : string)
    (fetchWrapper : list Upload.File -> AiAgent.FetchResult) (input : Upload.Files)
    : list (list Upload.File) * (UploadState * completion Upload.Outcome) :=
  let run := Upload.uploadFiles NumberToString now_iso fetchWrapper input in
  (fst run, upload_settle (snd run)).

End Hooks.

(* ================================================================== *)
(** * Properties *)
(* ================================================================== *)

Unset Implicit Arguments.

(** ** Property reads *)

Lemma lookup_with_lookup (A : Type) (f : value -> A) k fs :
  lookup_with f k fs = option_map f (lookup k fs).
Proof.
  induction fs as [|[k' x] rest IH]; simpl; [reflexivity|].
  destruct (String.eqb k k'); [reflexivity|exact IH].
Qed.

Lemma lookup_in (A : Type) k (fs : list (string * A)) x :
  lookup k fs = Some x -> In (k, x) fs.
Proof.
  induction fs as [|[k' y] rest IH]; simpl; [discriminate|].
  destruct (String.eqb_spec k k') as [->|_].
  - intros [= ->]. now left.
  - intros H. right. now apply IH.
Qed.

Lemma nat_to_string_digit n : starts_with_digit (nat_to_string n) = true.
Proof.
  unfold nat_to_string. destruct (Nat.to_uint n); reflexivity.
Qed.

Lemma lookup_indexed_none k xs :
  starts_with_digit k = false -> lookup k (indexed xs) = None.
Proof.
  intros Hk. destruct (lookup k (indexed xs)) as [x|] eqn:E; [|reflexivity].
  apply lookup_in in E. unfold indexed in E.
  apply in_combine_l in E. apply in_map_iff in E.
  destruct E as [n [E _]]. rewrite <- E, nat_to_string_digit in Hk.
  discriminate Hk.
Qed.

Lemma has_key_array k xs :
  starts_with_digit k = false -> String.eqb k "length" = false ->
  has_key k (VArr xs) = false.
Proof.
  intros Hd Hl. unfold has_key. now rewrite Hl, lookup_indexed_none.
Qed.

Lemma get_object_in k fs :
  has_key k (VObj fs) = true -> In (k, get k (VObj fs)) fs.
Proof.
  simpl. destruct (lookup k fs) as [x|] eqn:E; [|discriminate].
  intros _. now apply lookup_in.
Qed.

Lemma truthy_is_not_nullish v : truthy v = true -> is_nullish v = false.
Proof. destruct v; simpl; congruence. Qed.

(** ** The normalizer *)

Section normalizer_facts.
Variable NumberToString : float -> string.
#[local] Abbreviation normalize := (normalizeResponse NumberToString).

(** The recursive case is [normalizeResponse(parsed.response)]. *)
Lemma normalizeResponse_unwrap parsed :
  unwraps parsed = true ->
  normalize parsed = normalize (get "response" parsed).
Proof.
  unfold unwraps. intros H.
  repeat (apply andb_prop in H; destruct H as [H ?]).
  destruct parsed as [| |b|n|s|fs|xs]; try discriminate.
  - simpl in *.
    destruct (lookup "status" fs); [discriminate|].
    destruct (lookup "result" fs); [discriminate|]. simpl.
    assert (Hm : (match lookup "message" fs with Some _ => true | None => false end
                  && is_string (match lookup "message" fs with
                                | Some x => x | None => VUndef end)) = false).
    { now apply negb_true_iff. }
    rewrite Hm. rewrite lookup_with_lookup.
    destruct (lookup "response" fs); [reflexivity|discriminate].
  - rewrite has_key_array in * by reflexivity. discriminate.
Qed.

(** An array has none of the properties the cases test: it falls through. *)
Lemma normalizeResponse_array xs :
  normalize (VArr xs) =
  {| status := success; result := VArr xs; message := VUndef; metadata := VUndef |}.
Proof.
  cbn -[has_key]. now rewrite !has_key_array by reflexivity.
Qed.

Lemma unwraps_not_object v : is_object v = false -> unwraps v = false.
Proof.
  unfold unwraps. intros ->. now rewrite andb_false_r.
Qed.

(** Reasoning by cases on the normalizer: a property holds of every
    candidate when it holds of those no recursion is taken on, and passes
    from [parsed.response] to [parsed] where the recursive case applies. *)
Lemma normalizeResponse_cases (P : value -> Prop) :
  (forall v, unwraps v = false -> P v) ->
  (forall v, unwraps v = true -> P (get "response" v) -> P v) ->
  forall v, P v.
Proof.
  intros Hflat Hrec.
  induction v as [| |b|n|s|fs IH|xs IH] using value_nested_ind;
    try (apply Hflat; apply unwraps_not_object; reflexivity).
  - apply Hflat. reflexivity.
  - destruct (unwraps (VObj fs)) eqn:U; [|now apply Hflat].
    apply Hrec; [exact U|].
    assert (Hk : has_key "response" (VObj fs) = true).
    { unfold unwraps in U. now apply andb_prop in U. }
    apply get_object_in in Hk.
    rewrite Forall_forall in IH. exact (IH _ Hk).
  - apply Hflat. unfold unwraps.
    rewrite (@has_key_array "response") by reflexivity. now rewrite andb_false_r.
Qed.

Lemma coalesce_chain_returns (a b c d e f : value) :
  (if negb (is_nullish a) then Return a else
   if negb (is_nullish b) then Return b else
   if negb (is_nullish c) then Return c else
   if negb (is_nullish d) then Return d else
   if negb (is_nullish e) then Return e else Return f)
  = Return (js_coalesce (js_coalesce (js_coalesce (js_coalesce (js_coalesce a b) c) d) e) f).
Proof.
  unfold js_coalesce.
  repeat (match goal with
          | H : is_nullish ?x = _ |- context [is_nullish ?x] => rewrite H
          | |- context [is_nullish ?x] => is_var x; destruct (is_nullish x) eqn:?
          end; cbn [negb]).
  all: reflexivity.
Qed.

(** The normalizer never throws: with every read evaluated as the language
    does, it returns, and what it returns is [normalizeResponse]. *)
Lemma normalizeResponse_checked_returns v :
  normalizeResponse_checked NumberToString v = Return (normalize v).
Proof.
  induction v as [| |b|n|s|fs IH|xs IH] using value_nested_ind; try reflexivity.
  - now destruct b.
  - cbn. match goal with |- context [if ?c then _ else _] => now destruct c end.
  - cbn. match goal with |- context [if ?c then _ else _] => now destruct c end.
  - cbn -[has_key get lookup_with]. unfold and_then, get_prop.
    cbn -[has_key get lookup_with].
    destruct (has_key "status" (VObj fs)) eqn:Hs;
      destruct (has_key "result" (VObj fs)) eqn:Hr; cbn -[has_key get lookup_with];
      try reflexivity.
    + (* result without status *)
      set (r := get "result" (VObj fs)).
      set (m := get "message" (VObj fs)).
      destruct (is_nullish (js_coalesce m (if is_string r then r else VNull))) eqn:Hc.
      * destruct (truthy r && is_object r) eqn:Ho.
        -- apply andb_prop in Ho. destruct Ho as [Tr _].
           rewrite (truthy_is_not_nullish r Tr). cbn -[has_key get lookup_with].
           rewrite coalesce_chain_returns. reflexivity.
        -- reflexivity.
      * cbn [bindc].
        set (X := js_coalesce m (if is_string r then r else VNull)) in *.
        unfold js_coalesce. rewrite Hc. reflexivity.
    + (* neither status nor result *)
      destruct (has_key "message" (VObj fs)) eqn:Hm; cbn -[has_key get lookup_with].
      * destruct (is_string (get "message" (VObj fs))); cbn -[has_key get lookup_with];
          [reflexivity|].
        destruct (has_key "response" (VObj fs)) eqn:Hp; [|reflexivity].
        rewrite !lookup_with_lookup.
        destruct (lookup "response" fs) as [x|] eqn:L; [|reflexivity].
        cbn. apply lookup_in in L. rewrite Forall_forall in IH. exact (IH _ L).
      * destruct (has_key "response" (VObj fs)) eqn:Hp; [|reflexivity].
        rewrite !lookup_with_lookup.
        destruct (lookup "response" fs) as [x|] eqn:L; [|reflexivity].
        cbn. apply lookup_in in L. rewrite Forall_forall in IH. exact (IH _ L).
  - rewrite normalizeResponse_array.
    cbn -[has_key get]. unfold and_then. cbn -[has_key get].
    rewrite !has_key_array by reflexivity. reflexivity.
Qed.

(** Where no recursion is taken, the status is [error] exactly for an empty
    candidate and for an object whose [status] property is 'error'. *)
Lemma normalizeResponse_status_flat v :
  unwraps v = false ->
  status (normalize v) = if empty_or_status_error v then error else success.
Proof.
  intros U. destruct v as [| |b|n|s|fs|xs]; try reflexivity.
  - now destruct b.
  - unfold empty_or_status_error. simpl.
    destruct (negb (num_is_zero n || num_is_nan n)); reflexivity.
  - unfold empty_or_status_error. simpl.
    destruct (negb (s =? "")); reflexivity.
  - unfold unwraps, empty_or_status_error in *. simpl in *.
    destruct (lookup "status" fs) as [st|]; simpl.
    + destruct (lookup "result" fs); simpl; destruct (is_str_lit st "error"); reflexivity.
    + destruct (lookup "result" fs); simpl; [reflexivity|].
      destruct (match lookup "message" fs with Some _ => true | None => false end
                && is_string (match lookup "message" fs with
                              | Some x => x | None => VUndef end));
        simpl in *; [reflexivity|].
      destruct (lookup "response" fs); [discriminate U|reflexivity].
  - rewrite normalizeResponse_array. unfold empty_or_status_error.
    simpl is_object. simpl truthy. now rewrite has_key_array by reflexivity.
Qed.

(** C1, as amended: [normalizeResponse] is total, it returns a normalized
    response for every candidate and none of its reads throws; the status of
    its answer is [error] exactly for the candidates of [signals_error]: the
    falsy ones (undefined, null, false, 0, NaN, the empty string), the
    objects whose [status] property is the string 'error', and the objects
    the recursive case unwraps whose [response] property is, in turn, such a
    candidate.  The status of every other candidate is [success]. *)
Theorem normalizeResponse_status_error :
  forall v,
    normalizeResponse_checked NumberToString v = Return (normalize v)
    /\ (status (normalize v) = error <-> signals_error v)
    /\ (status (normalize v) = success <-> ~ signals_error v).
Proof.
  assert (Herr : forall v, status (normalize v) = error <-> signals_error v).
  { intros v. split.
    - revert v. apply (@normalizeResponse_cases (fun v =>
        status (normalize v) = error -> signals_error v)).
      + intros v U. rewrite (normalizeResponse_status_flat v U).
        destruct (empty_or_status_error v) eqn:E; [intros _|discriminate].
        unfold empty_or_status_error in E.
        apply orb_prop in E. destruct E as [E|E].
        * apply se_empty. now apply negb_true_iff.
        * destruct (truthy v) eqn:T; [|now apply se_empty].
          repeat (apply andb_prop in E; destruct E as [E ?]).
          now apply se_status.
      + intros v U IH H. apply se_unwrap; [exact U|].
        apply IH. now rewrite <- (normalizeResponse_unwrap v U).
    - induction 1 as [v T|v T O K S|v U _ IH].
      + destruct v as [| |[|]|n|s|fs|xs]; try discriminate T; try reflexivity.
        * simpl in *. now rewrite T.
        * simpl in *. now rewrite T.
      + rewrite normalizeResponse_status_flat.
        * unfold empty_or_status_error. now rewrite T, O, K, S.
        * unfold unwraps. now rewrite K, !andb_false_r.
      + now rewrite (normalizeResponse_unwrap v U). }
  intros v. split; [apply normalizeResponse_checked_returns|].
  split; [apply Herr|].
  rewrite <- Herr. destruct (status (normalize v)); split; congruence.
Qed.

(** The [result] of a normalized response is never falsy. *)
Lemma normalizeResponse_result_truthy v : truthy (result (normalize v)) = true.
Proof.
  revert v. apply normalizeResponse_cases.
  - intros v U. destruct v as [| |b|n|s|fs|xs]; try reflexivity.
    + now destruct b.
    + simpl. destruct (negb (num_is_zero n || num_is_nan n)); reflexivity.
    + simpl. destruct (negb (s =? "")); reflexivity.
    + unfold unwraps in U. simpl in *.
      destruct (lookup "status" fs) as [st|]; simpl.
      * destruct (lookup "result" fs) as [r|]; simpl.
        -- unfold js_or. destruct (truthy r) eqn:T; [exact T|reflexivity].
        -- now destruct (0 <? _)%nat.
      * destruct (lookup "result" fs) as [r|]; simpl.
        -- destruct (is_string r); [reflexivity|].
           unfold js_or. destruct (truthy r) eqn:T; [exact T|reflexivity].
        -- destruct (match lookup "message" fs with Some _ => true | None => false end
                     && is_string (match lookup "message" fs with
                                   | Some x => x | None => VUndef end));
             simpl in *; [reflexivity|].
           destruct (lookup "response" fs); [discriminate U|reflexivity].
    + now rewrite normalizeResponse_array.
  - intros v U IH. now rewrite (normalizeResponse_unwrap v U).
Qed.

(** Case 4 on a record that is already normalized. *)
Lemma normalizeResponse_response_object r :
  truthy (result r) = true -> normalize (response_object r) = r.
Proof.
  intros T. destruct r as [st res msg meta]. simpl in *.
  unfold js_or. rewrite T. now destruct st.
Qed.

(** C6, as amended: for every number or boolean that is truthy (the boolean
    true, and every number other than 0, -0 and NaN), [normalizeResponse]
    answers with status [success], result [{value: input}] and message
    [String(input)]. *)
Theorem normalizeResponse_truthy_scalar :
  forall v, is_scalar v = true -> truthy v = true ->
    normalize v =
    {| status := success;
       result := VObj [("value", v)];
       message := VStr (string_of NumberToString v);
       metadata := VUndef |}
    /\ ToString NumberToString v = Return (string_of NumberToString v).
Proof.
  intros v S T. destruct v as [| |b|n|s|fs|xs]; try discriminate S.
  - destruct b; [split; reflexivity|discriminate T].
  - simpl in *. rewrite T. split; reflexivity.
Qed.

(** An object that reads as a normalized response with a truthy result is
    normalized to that very response. *)
Lemma normalizeResponse_as_response v r :
  as_response v = Some r -> truthy (result r) = true -> normalize v = r.
Proof.
  destruct v as [| |b|n|s|fs|xs]; try discriminate.
  unfold as_response. cbn -[has_key get].
  destruct (has_key "status" (VObj fs) && has_key "result" (VObj fs));
    [|discriminate].
  destruct (get "status" (VObj fs)) as [| |b|n|s|fs'|xs]; try discriminate.
  cbn [is_str_lit].
  destruct (String.eqb_spec s "success") as [->|_].
  - intros [= <-] T. cbn in *. unfold js_or. now rewrite T.
  - destruct (String.eqb_spec s "error") as [->|_]; [|discriminate].
    intros [= <-] T. cbn in *. unfold js_or. now rewrite T.
Qed.

(** C7: an already-normalized object, one with a status that is 'success'
    or 'error', an object-valued result and optional message and metadata,
    is normalized to itself; so is the object of any such record; hence
    normalizing twice is the same as normalizing once, for every
    candidate. *)
Theorem normalizeResponse_idempotent :
  (forall v r, as_response v = Some r ->
     truthy (result r) = true -> is_object (result r) = true ->
     normalize v = r)
  /\ (forall r, truthy (result r) = true -> is_object (result r) = true ->
        normalize (response_object r) = r)
  /\ (forall c, normalize (response_object (normalize c)) = normalize c).
Proof.
  repeat apply conj.
  - intros v r A T _. now apply normalizeResponse_as_response.
  - intros r T _. now apply normalizeResponse_response_object.
  - intros c. apply normalizeResponse_response_object.
    apply normalizeResponse_result_truthy.
Qed.
End normalizer_facts.

(** The scenarios of the specification on the normalizer. *)
Example normalizeResponse_plain_string :
  forall nts, normalizeResponse nts (VStr "Hello back") = hello_response.
Proof. reflexivity. Qed.

Example normalizeResponse_result_answer :
  forall nts,
    normalizeResponse nts (VObj [("result", VObj [("answer", VStr "42")])])
    = {| status := success;
         result := VObj [("answer", VStr "42")];
         message := VStr "42";
         metadata := VUndef |}.
Proof. reflexivity. Qed.

Example normalizeResponse_status_only :
  forall nts,
    normalizeResponse nts
      (VObj [("status", VStr "ok"); ("jobs", VArr [VNum 1%float]); ("message", VStr "found")])
    = {| status := success;
         result := VObj [("jobs", VArr [VNum 1%float])];
         message := VStr "found";
         metadata := VUndef |}.
Proof. reflexivity. Qed.

Example normalizeResponse_unwraps_response :
  forall nts,
    normalizeResponse nts (VObj [("response", VObj [("answer", VStr "42")])])
    = {| status := success;
         result := VObj [("answer", VStr "42")];
         message := VUndef;
         metadata := VUndef |}.
Proof. reflexivity. Qed.

(** C1, the claim as stated fails: the object [{response: null}] is not
    empty and carries no [status] property, and the object
    [{response: {status: 'error', result: {}}}] carries none either, yet
    both normalize to status [error]. *)
Lemma normalizeResponse_wrapped_error :
  empty_or_status_error wrapped_null = false
  /\ empty_or_status_error wrapped_error = false
  /\ (forall nts, status (normalizeResponse nts wrapped_null) = error)
  /\ (forall nts, status (normalizeResponse nts wrapped_error) = error).
Proof. repeat split. Qed.

(** C6, the claim as stated fails: 0, NaN and false are scalars, and each
    normalizes to the empty-response error, not to [{value: input}]. *)
Lemma normalizeResponse_falsy_scalar :
  is_scalar (VNum 0%float) = true
  /\ is_scalar (VNum nan) = true
  /\ is_scalar (VBool false) = true
  /\ (forall nts, normalizeResponse nts (VNum 0%float) = empty_response)
  /\ (forall nts, normalizeResponse nts (VNum nan) = empty_response)
  /\ (forall nts, normalizeResponse nts (VBool false) = empty_response)
  /\ status empty_response = error
  /\ message empty_response = VStr "Empty response from agent".
Proof. repeat split. Qed.

Lemma normalizeResponse_truthy_scalar_witness :
  is_scalar (VNum 42%float) = true
  /\ truthy (VNum 42%float) = true
  /\ forall nts,
       normalizeResponse nts (VNum 42%float) =
       {| status := success;
          result := VObj [("value", VNum 42%float)];
          message := VStr (nts 42%float);
          metadata := VUndef |}.
Proof.
  split; [reflexivity|]. split; [reflexivity|].
  intros nts.
  apply (normalizeResponse_truthy_scalar nts (VNum 42%float)); reflexivity.
Defined.

Lemma normalizeResponse_idempotent_witness :
  truthy (result hello_response) = true
  /\ is_object (result hello_response) = true
  /\ forall nts,
       normalizeResponse nts (response_object hello_response) = hello_response.
Proof.
  split; [reflexivity|]. split; [reflexivity|].
  intros nts.
  apply (proj1 (proj2 (normalizeResponse_idempotent nts)) hello_response); reflexivity.
Defined.

(** ** The error classifier *)

Section classifier_facts.
Import AgentInterceptor.
Variable NumberToString : float -> string.
Variable StringToNumber : string -> float.
Variable browser : Browser.
#[local] Abbreviation detect := (detectResponseIssue NumberToString StringToNumber browser).
#[local] Abbreviation parse_signal := (signals_parse_failure NumberToString StringToNumber).

(** On a string, the raw-text heuristic is the length threshold: more than
    20 code units. *)
Lemma hasValidRaw_string s :
  hasValidRaw NumberToString StringToNumber (VStr s)
  = Return (20 <? String.length s)%nat.
Proof.
  unfold hasValidRaw. simpl.
  destruct s as [|c s']; reflexivity.
Qed.

(** The comparison of the length throws only on the conversion of a
    [length] property to a number. *)
Lemma hasValidRaw_throws raw e :
  hasValidRaw NumberToString StringToNumber raw = Throw e ->
  truthy raw = true
  /\ ToNumber NumberToString StringToNumber (get "length" raw) = Throw e.
Proof.
  unfold hasValidRaw. destruct (truthy raw); [|discriminate].
  intros H. split; [reflexivity|].
  destruct raw; try discriminate H; unfold length_gt, js_gt in H;
    match type of H with
    | bindc ?c _ = _ => destruct c; [discriminate H | cbn in H; congruence]
    end.
Qed.

(** C9, as amended: on a payload that is not null, the classifier returns
    a record of kind [api_error] exactly when the top-level payload has
    [success === false] with a truthy [error]; a record of kind
    [parse_error] exactly when that is not so and the payload signals a
    parse failure over valid data (the flags [_parse_succeeded === false]
    and [_has_valid_data === true], or a nested response with
    [success === false] and a truthy [error] beside a raw response longer
    than 20); and no record in every other case.  No other kind is
    produced, and [hasIssue] tells whether there is a record.  The
    classifier returns whenever the payload is an API failure or the parse
    signal can be computed; it throws only in the third case, the payload
    being neither an API failure nor flagged and its nested response having
    failed, when the [length] of a truthy raw response cannot be converted
    to a number to be compared with 20.  It returns on every payload whose
    raw response is a string or an array, or is absent. *)
Theorem detectResponseIssue_kinds :
  forall data, is_nullish data = false ->
  match detect data with
  | Return d =>
      (kind_of d = Some api_error <-> api_failure data = true)
      /\ (kind_of d = Some parse_error <->
          api_failure data = false /\ parse_signal data = Return true)
      /\ (kind_of d = None <->
          api_failure data = false /\ parse_signal data = Return false)
      /\ hasIssue d = match kind_of d with Some _ => true | None => false end
  | Throw e =>
      api_failure data = false
      /\ flagged_parse_failure data = false
      /\ nested_response_failed data = true
      /\ truthy (get "raw_response" data) = true
      /\ parse_signal data = Throw e
      /\ ToNumber NumberToString StringToNumber
           (get "length" (get "raw_response" data)) = Throw e
  end
  /\ ((exists d, detect data = Return d) <->
      api_failure data = true \/ exists b, parse_signal data = Return b)
  /\ (match get "raw_response" data with
      | VUndef | VNull | VStr _ | VArr _ => exists d, detect data = Return d
      | _ => True
      end).
Proof.
  intros data N.
  unfold detectResponseIssue, get_prop. rewrite N. cbn [bindc].
  unfold signals_parse_failure, nested_parse_failure, nested_response_failed,
    flagged_parse_failure, api_failure.
  destruct (is_false (get "success" data) && truthy (get "error" data)).
  { split; [cbn; intuition congruence|]. split.
    - split; eauto.
    - destruct (get "raw_response" data); eauto. }
  destruct (is_false (get "_parse_succeeded" data) && is_true (get "_has_valid_data" data)).
  { split; [cbn; intuition congruence|]. split.
    - split; eauto.
    - destruct (get "raw_response" data); eauto. }
  destruct (truthy (get "response" data) && is_object (get "response" data));
    cbn [andb].
  2:{ split; [cbn; intuition congruence|]. split.
      - split; eauto.
      - destruct (get "raw_response" data); eauto. }
  destruct (is_false (get "success" (get "response" data))
            && truthy (get "error" (get "response" data))).
  2:{ split; [cbn; intuition congruence|]. split.
      - split; eauto.
      - destruct (get "raw_response" data); eauto. }
  destruct (hasValidRaw NumberToString StringToNumber (get "raw_response" data))
    as [[|]|e] eqn:V; cbn [bindc].
  - split; [cbn; intuition congruence|]. split.
    + split; eauto.
    + destruct (get "raw_response" data); eauto.
  - split; [cbn; intuition congruence|]. split.
    + split; eauto.
    + destruct (get "raw_response" data); eauto.
  - destruct (hasValidRaw_throws _ _ V) as [T L].
    split; [repeat split; auto|]. split.
    + split.
      * intros [d D]. discriminate D.
      * intros [F|[b B]]; discriminate.
    + destruct (get "raw_response" data); auto; try discriminate T.
      * rewrite hasValidRaw_string in V. discriminate V.
      * discriminate V.
Qed.
End classifier_facts.

(** C9, the claim as stated fails: a payload with [success === false] and an
    error that also carries the two parse flags signals a parse failure over
    valid data, yet the record produced is of kind [api_error], case 1 being
    tested first. *)
Lemma detectResponseIssue_api_error_first :
  AgentInterceptor.flagged_parse_failure AgentInterceptor.failed_and_flagged = true
  /\ (forall nts stn, AgentInterceptor.signals_parse_failure nts stn
                        AgentInterceptor.failed_and_flagged = Return true)
  /\ (forall nts stn b,
        AgentInterceptor.detectResponseIssue nts stn b AgentInterceptor.failed_and_flagged
        = Return (AgentInterceptor.issue b AgentInterceptor.api_error
                    (VStr "model overloaded") VUndef)).
Proof. repeat split. Qed.

Lemma detectResponseIssue_kinds_witness :
  is_nullish AgentInterceptor.nested_failure = false
  /\ forall nts stn b, exists d,
       AgentInterceptor.detectResponseIssue nts stn b AgentInterceptor.nested_failure
       = Return d
       /\ AgentInterceptor.kind_of d = Some AgentInterceptor.parse_error.
Proof.
  split; [reflexivity|]. intros nts stn b.
  pose proof (proj1 (detectResponseIssue_kinds nts stn b AgentInterceptor.nested_failure
                       (eq_refl : is_nullish AgentInterceptor.nested_failure = false)))
    as K.
  eexists. split; [reflexivity|].
  apply (proj2 (proj1 (proj2 K))). split; reflexivity.
Defined.

(** ** The backoff *)

Lemma Qpower_three_halves_mono (n : nat) :
  Qpower (3 # 2) (Z.of_nat n) <= Qpower (3 # 2) (Z.of_nat (S n)).
Proof.
  apply Qpower_le_compat_l; [lia|discriminate].
Qed.

(** C4: the delay of attempt 0 is 300 ms, below one second; the delays never
    decrease from one attempt to the next; none exceeds the cap of 3000 ms;
    the cap is not reached before attempt 6 and is the delay of every
    attempt from 6 on. *)
Theorem delay_backoff :
  AiAgent.delay 0 == 300
  /\ AiAgent.delay 0 < 1000
  /\ (forall n, AiAgent.delay n <= AiAgent.delay (S n))
  /\ (forall n, AiAgent.delay n <= 3000)
  /\ AiAgent.delay 5 < 3000
  /\ (forall n, AiAgent.delay (6 + n) == 3000).
Proof.
  unfold AiAgent.delay. repeat split.
  - intros n. apply Q.min_le_compat_r.
    apply Qmult_le_l; [reflexivity|apply Qpower_three_halves_mono].
  - intros n. apply Q.le_min_r.
  - intros n. apply Q.min_r.
    induction n as [|n IH].
    + vm_compute. discriminate.
    + apply Qle_trans with (1 := IH).
      apply Qmult_le_l; [reflexivity|].
      replace (6 + S n)%nat with (S (6 + n)) by lia.
      apply Qpower_three_halves_mono.
Qed.

(** ** The clock *)

(** The first index at which a test fails, below one at which it fails. *)
Lemma first_failure (p : nat -> bool) :
  forall n, p n = false ->
  exists N, (N <= n)%nat /\ p N = false /\ forall k, (k < N)%nat -> p k = true.
Proof.
  induction n as [n IH] using lt_wf_ind. intros Hn.
  destruct (forallb p (seq 0 n)) eqn:A.
  - exists n. repeat split; [lia|exact Hn|].
    intros k Hk. rewrite forallb_forall in A. apply A. apply in_seq. lia.
  - assert (E : exists k, In k (seq 0 n) /\ p k = false).
    { clear -A. induction (seq 0 n) as [|a l IHl]; [discriminate|].
      cbn in A. destruct (p a) eqn:Pa.
      - destruct (IHl A) as [k [Hin Hk]]. exists k. split; [now right|exact Hk].
      - exists a. split; [now left|exact Pa]. }
    destruct E as [k [Hin Hk]]. apply in_seq in Hin.
    destruct (IH k ltac:(lia) Hk) as [N [HN [PN Hbelow]]].
    exists N. repeat split; [lia|exact PN|exact Hbelow].
Qed.

Lemma delay_at_least_300 n : 300 <= AiAgent.delay n.
Proof.
  unfold AiAgent.delay. apply Q.min_glb; [|discriminate].
  rewrite <- (Qmult_1_r 300) at 1.
  apply Qmult_le_l; [reflexivity|].
  apply Qpower_1_le; [discriminate|lia].
Qed.

(** When every round lasts at least as long as its sleep, the clock reaches
    the ceiling within a thousand rounds. *)
Lemma steady_clock_reaches_ceiling (w : AiAgent.World) :
  (forall k, (Qfloor (AiAgent.delay k) <= AiAgent.now w (S k) - AiAgent.now w k)%Z) ->
  exists N, (N < 1000)%nat
            /\ (forall k, (k < N)%nat -> AiAgent.before_ceiling w (S k) = true)
            /\ AiAgent.before_ceiling w (S N) = false.
Proof.
  intros Hstep.
  assert (Hround : forall k, (300 <= AiAgent.now w (S k) - AiAgent.now w k)%Z).
  { intros k. apply Z.le_trans with (2 := Hstep k).
    change 300%Z with (Qfloor 300). apply Qfloor_resp_le, delay_at_least_300. }
  assert (Hsum : forall k, (300 * Z.of_nat k <= AiAgent.now w k - AiAgent.now w 0)%Z).
  { induction k as [|k IHk]; [lia|]. specialize (Hround k). lia. }
  destruct (first_failure (fun k => AiAgent.before_ceiling w (S k)) 999) as [N [HN [PN Hb]]].
  - unfold AiAgent.before_ceiling, AiAgent.POLL_TIMEOUT_MS.
    apply Z.ltb_ge. specialize (Hsum 1000%nat). lia.
  - exists N. repeat split; [lia|exact Hb|exact PN].
Qed.

(** ** The client *)

Section client_facts.
Import AiAgent.
Variable w : World.
Variables message agent_id options : value.
#[local] Abbreviation loop := (poll_loop w agent_id).
#[local] Abbreviation call := (callAIAgent w message agent_id options).
#[local] Abbreviation try := (callAIAgent_try w message agent_id options).
#[local] Abbreviation poll_body tid := (VObj [("task_id", tid)]).

(** One more round of the loop. *)
Lemma poll_loop_continue fuel tid uid sid attempt trace :
  before_ceiling w (S attempt) = true ->
  continues (fetchWrapper w (S attempt) (poll_body tid)) = true ->
  loop (S fuel) tid uid sid (now w 0) attempt trace =
  loop fuel tid uid sid (now w 0) (S attempt) (trace ++ iteration w tid attempt)%list.
Proof.
  unfold before_ceiling. intros G C. cbn [poll_loop]. rewrite G.
  unfold iteration. rewrite <- app_assoc. cbn [app].
  destruct (fetchWrapper w (S attempt) (poll_body tid)) as [e| |[p|e]];
    try discriminate C; [reflexivity|].
  cbn in C. apply andb_prop in C. destruct C as [N P].
  unfold get_prop. apply negb_true_iff in N. rewrite N, P. reflexivity.
Qed.

(** [k] more rounds of the loop. *)
Lemma poll_loop_rounds k : forall fuel tid uid sid attempt trace,
  (forall j, (j < k)%nat -> before_ceiling w (S (attempt + j)) = true) ->
  (forall j, (j < k)%nat ->
     continues (fetchWrapper w (S (attempt + j)) (poll_body tid)) = true) ->
  loop (k + fuel) tid uid sid (now w 0) attempt trace =
  loop fuel tid uid sid (now w 0) (attempt + k)
       (trace ++ flat_map (iteration w tid) (seq attempt k))%list.
Proof.
  induction k as [|k IH]; intros fuel tid uid sid attempt trace G C.
  - cbn. now rewrite Nat.add_0_r, app_nil_r.
  - cbn [Nat.add]. rewrite poll_loop_continue.
    + rewrite IH.
      * cbn [seq flat_map]. rewrite <- app_assoc.
        now replace (S attempt + k)%nat with (attempt + S k)%nat by lia.
      * intros j Hj. replace (S attempt + j)%nat with (attempt + S j)%nat by lia.
        apply G. lia.
      * intros j Hj. replace (S attempt + j)%nat with (attempt + S j)%nat by lia.
        apply C. lia.
    + rewrite <- (Nat.add_0_r attempt). apply G. lia.
    + rewrite <- (Nat.add_0_r attempt). apply C. lia.
Qed.

(** The loop ends at the first reading at or after the ceiling. *)
Lemma poll_loop_timeout fuel tid uid sid attempt trace :
  before_ceiling w (S attempt) = false ->
  loop (S fuel) tid uid sid (now w 0) attempt trace =
  Some ((trace ++ [Clock (now w (S attempt))])%list,
        Return (failure "Agent task timed out after 5 minutes")).
Proof.
  unfold before_ceiling. intros G. cbn [poll_loop]. now rewrite G.
Qed.

(** A reply that is neither [null] nor processing ends the loop. *)
Lemma poll_loop_terminal fuel tid uid sid attempt trace pollData :
  before_ceiling w (S attempt) = true ->
  fetchWrapper w (S attempt) (poll_body tid) = Response (Return pollData) ->
  is_nullish pollData = false ->
  is_str_lit (get "status" pollData) "processing" = false ->
  loop (S fuel) tid uid sid (now w 0) attempt trace =
  Some ((trace ++ iteration w tid attempt)%list,
        Return (VObj (obj_extend (own_entries pollData)
                        [("agent_id", agent_id); ("user_id", uid); ("session_id", sid)]))).
Proof.
  unfold before_ceiling. intros G F N P. cbn [poll_loop]. rewrite G, F.
  unfold get_prop. rewrite N, P. unfold iteration.
  now rewrite <- app_assoc.
Qed.


Lemma posts_app t1 t2 : posts (t1 ++ t2) = (posts t1 ++ posts t2)%list.
Proof. apply flat_map_app. Qed.

(** Each round posts once. *)
Lemma posts_iterations tid n : forall a,
  List.length (posts (flat_map (iteration w tid) (seq a n))) = n.
Proof.
  induction n as [|n IH]; intros a; [reflexivity|].
  cbn [seq flat_map]. rewrite posts_app, length_app, IH. reflexivity.
Qed.

Lemma get_truthy_not_nullish k v : truthy (get k v) = true -> is_nullish v = false.
Proof. destruct v; simpl; congruence. Qed.




(** The run against a backend that accepts the task and then reports
    'processing' at every poll, when reading [N + 1] of the clock is the
    first at or after the ceiling. *)
Lemma callAIAgent_processing_run submitData N fuel :
  fetchWrapper w 0 (submit_body message agent_id options)
    = Response (Return submitData) ->
  truthy (get "task_id" submitData) = true ->
  (forall k body, reports_processing (fetchWrapper w (S k) body) = true) ->
  (forall k, (k < N)%nat -> before_ceiling w (S k) = true) ->
  before_ceiling w (S N) = false ->
  (N < fuel)%nat ->
  call fuel =
  Some (([Post (submit_body message agent_id options); Clock (now w 0)]
         ++ flat_map (iteration w (get "task_id" submitData)) (seq 0 N)
         ++ [Clock (now w (S N))])%list,
        Return (failure "Agent task timed out after 5 minutes")).
Proof.
  intros F T P G E Hf.
  unfold callAIAgent, callAIAgent_try. rewrite F.
  unfold get_prop. rewrite (get_truthy_not_nullish _ _ T), T. cbn [negb].
  replace fuel with (N + S (fuel - S N))%nat by lia.
  rewrite poll_loop_rounds.
  - cbn [Nat.add]. rewrite (poll_loop_timeout _ _ _ _ _ _ E).
    now rewrite <- !app_assoc.
  - intros j Hj. now apply G.
  - intros j Hj. cbn [Nat.add].
    specialize (P j (poll_body (get "task_id" submitData))).
    unfold continues. now destruct (fetchWrapper w (S j) _).
Qed.

(** C3: against a backend that accepts the task and then reports
    'processing' at every poll, the loop ends at the first reading of the
    clock at or after the ceiling of five minutes, whatever the number [N] of
    rounds made before it: the run is the submit, then [N] rounds (a reading
    below the ceiling, the sleep of the backoff, one poll), then the reading
    that ends the loop, after which nothing is posted; the value returned is
    the timeout failure.  When every round lasts at least as long as its
    sleep, that reading comes within a thousand rounds. *)
Theorem callAIAgent_times_out :
  forall submitData,
    fetchWrapper w 0 (submit_body message agent_id options)
      = Response (Return submitData) ->
    truthy (get "task_id" submitData) = true ->
    (forall k body, reports_processing (fetchWrapper w (S k) body) = true) ->
    let run N :=
      ([Post (submit_body message agent_id options); Clock (now w 0)]
       ++ flat_map (iteration w (get "task_id" submitData)) (seq 0 N)
       ++ [Clock (now w (S N))])%list in
    (forall N fuel,
       (forall k, (k < N)%nat -> before_ceiling w (S k) = true) ->
       before_ceiling w (S N) = false ->
       (N < fuel)%nat ->
       call fuel = Some (run N, Return (failure "Agent task timed out after 5 minutes"))
       /\ get "success" (failure "Agent task timed out after 5 minutes") = VBool false
       /\ (POLL_TIMEOUT_MS <= now w (S N) - now w 0)%Z
       /\ List.length (posts (run N)) = S N)
    /\ ((forall k, (Qfloor (delay k) <= now w (S k) - now w k)%Z) ->
        exists N, (N < 1000)%nat /\
          forall fuel, (N < fuel)%nat ->
            call fuel
            = Some (run N, Return (failure "Agent task timed out after 5 minutes"))).
Proof.
  intros submitData F T P run. split.
  - intros N fuel G E Hf. repeat split.
    + now apply callAIAgent_processing_run.
    + unfold before_ceiling in E. apply Z.ltb_ge in E. exact E.
    + subst run. cbn beta. rewrite !posts_app, !length_app, posts_iterations.
      cbn. lia.
  - intros Hstep.
    destruct (steady_clock_reaches_ceiling w Hstep) as [N [HN [G E]]].
    exists N. split; [exact HN|].
    intros fuel Hf. now apply callAIAgent_processing_run.
Qed.

(** A run that ends at poll number [k] with a reply that is neither [null]
    nor processing. *)
Lemma callAIAgent_terminal_poll submitData pollData k fuel :
  fetchWrapper w 0 (submit_body message agent_id options)
    = Response (Return submitData) ->
  truthy (get "task_id" submitData) = true ->
  (forall j, (j < k)%nat ->
     continues (fetchWrapper w (S j) (poll_body (get "task_id" submitData))) = true) ->
  (forall j, (j <= k)%nat -> before_ceiling w (S j) = true) ->
  fetchWrapper w (S k) (poll_body (get "task_id" submitData))
    = Response (Return pollData) ->
  is_nullish pollData = false ->
  is_str_lit (get "status" pollData) "processing" = false ->
  (k < fuel)%nat ->
  call fuel =
  Some (([Post (submit_body message agent_id options); Clock (now w 0)]
         ++ flat_map (iteration w (get "task_id" submitData)) (seq 0 (S k)))%list,
        Return (VObj (obj_extend (own_entries pollData)
                        [("agent_id", agent_id);
                         ("user_id", get "user_id" submitData);
                         ("session_id", get "session_id" submitData)]))).
Proof.
  intros F T C G P N St Hf.
  unfold callAIAgent, callAIAgent_try. rewrite F.
  unfold get_prop. rewrite (get_truthy_not_nullish _ _ T), T. cbn [negb].
  replace fuel with (k + S (fuel - S k))%nat by lia.
  rewrite poll_loop_rounds.
  - cbn [Nat.add]. rewrite (poll_loop_terminal _ _ _ _ _ _ pollData); try assumption.
    + rewrite seq_S, flat_map_app. cbn [flat_map Nat.add].
      now rewrite app_nil_r, <- !app_assoc.
    + apply G. lia.
  - intros j Hj. apply G. cbn [Nat.add]. lia.
  - intros j Hj. now apply C.
Qed.

(** A submit reply that is not [null] and whose [task_id] is falsy ends
    the call before the loop. *)
Lemma callAIAgent_submit_only submitData fuel :
  fetchWrapper w 0 (submit_body message agent_id options)
    = Response (Return submitData) ->
  is_nullish submitData = false ->
  truthy (get "task_id" submitData) = false ->
  call fuel =
  Some ([Post (submit_body message agent_id options)],
        Return (if is_false (get "success" submitData) then submitData
                else failure "No task_id in response")).
Proof.
  intros F N T.
  unfold callAIAgent, callAIAgent_try. rewrite F.
  unfold get_prop. rewrite N, T. reflexivity.
Qed.

(** C10: when the submit reply is a JSON object (any JSON value other than
    [null], indeed) whose [task_id] is absent or falsy, [callAIAgent] makes
    no poll: its whole run is the submit request, whatever the fuel; a
    reply with [success === false] is returned as it is, and for any other
    the value returned is the failure with the message 'No task_id in
    response'. *)
Theorem callAIAgent_no_task_id :
  forall submitData fuel,
    fetchWrapper w 0 (submit_body message agent_id options)
      = Response (Return submitData) ->
    is_nullish submitData = false ->
    truthy (get "task_id" submitData) = false ->
    call fuel =
    Some ([Post (submit_body message agent_id options)],
          Return (if is_false (get "success" submitData) then submitData
                  else failure "No task_id in response"))
    /\ posts [Post (submit_body message agent_id options)]
       = [submit_body message agent_id options].
Proof.
  intros submitData fuel F N T. split; [|reflexivity].
  now apply callAIAgent_submit_only.
Qed.
End client_facts.


Lemma slow_world_guard :
  forall k, (k < 2)%nat -> AiAgent.before_ceiling Samples.slow_world (S k) = true.
Proof.
  intros [|[|k]] H; [reflexivity|reflexivity|lia].
Defined.

Lemma callAIAgent_times_out_witness :
  AiAgent.before_ceiling Samples.slow_world 3 = false
  /\ AiAgent.callAIAgent Samples.slow_world (VStr "hi") (VStr "A1") VUndef 3
     = Some ([AiAgent.Post (AiAgent.submit_body (VStr "hi") (VStr "A1") VUndef);
              AiAgent.Clock 0;
              AiAgent.Clock 100000; AiAgent.Sleep (AiAgent.delay 0);
              AiAgent.Post (VObj [("task_id", VStr "T1")]);
              AiAgent.Clock 200000; AiAgent.Sleep (AiAgent.delay 1);
              AiAgent.Post (VObj [("task_id", VStr "T1")]);
              AiAgent.Clock 300000],
             Return (AiAgent.failure "Agent task timed out after 5 minutes")).
Proof.
  split; [reflexivity|].
  apply (proj1 (callAIAgent_times_out Samples.slow_world (VStr "hi") (VStr "A1") VUndef
                  (VObj [("task_id", VStr "T1")])
                  eq_refl eq_refl (fun _ _ => eq_refl))
           2%nat 3%nat slow_world_guard eq_refl (le_n 3)).
Defined.

Lemma callAIAgent_no_task_id_witness :
  is_nullish (VObj [("agent_id", VStr "A1")]) = false
  /\ truthy (get "task_id" (VObj [("agent_id", VStr "A1")])) = false
  /\ AiAgent.callAIAgent Samples.no_task_world (VStr "hi") (VStr "A1") VUndef 0
     = Some ([AiAgent.Post (AiAgent.submit_body (VStr "hi") (VStr "A1") VUndef)],
             Return (AiAgent.failure "No task_id in response")).
Proof.
  split; [reflexivity|]. split; [reflexivity|].
  apply (proj1 (callAIAgent_no_task_id Samples.no_task_world (VStr "hi") (VStr "A1")
                  VUndef (VObj [("agent_id", VStr "A1")]) 0%nat
                  eq_refl eq_refl eq_refl)).
Defined.

(** ** JSON on the wire *)

(** A falsy value is still falsy once serialised and parsed. *)
Lemma json_roundtrip_falsy v : truthy v = false -> truthy (json_roundtrip v) = false.
Proof.
  destruct v as [| |b|n|s|fs|xs]; simpl; try congruence.
  intros T. apply negb_false_iff in T. unfold num_is_finite.
  destruct (num_is_zero n) eqn:Z.
  - now destruct (negb (num_is_nan n) && negb (PrimFloat.is_infinity n)).
  - simpl in T. rewrite T. reflexivity.
Qed.

(** Reading a property of an object with distinct keys commutes with the
    round trip through JSON. *)
Lemma json_roundtrip_get k fs :
  NoDup (map fst fs) ->
  get k (json_roundtrip (VObj fs)) = json_roundtrip (get k (VObj fs)).
Proof.
  induction fs as [|[k' x] r IH]; intros ND; [reflexivity|].
  inversion ND as [|? ? Hnotin ND']; subst.
  specialize (IH ND').
  assert (Hfresh : String.eqb k k' = true -> lookup k r = None).
  { intros E. apply String.eqb_eq in E. subst k'.
    destruct (lookup k r) as [y|] eqn:L; [|reflexivity].
    exfalso. apply Hnotin. apply lookup_in in L.
    change k with (fst (k, y)). now apply in_map. }
  assert (Hnone : lookup k r = None -> get k (json_roundtrip (VObj r)) = VUndef).
  { intros L. rewrite IH. simpl. now rewrite L. }
  simpl in *.
  destruct x; simpl; destruct (String.eqb k k') eqn:E;
    try reflexivity; try exact IH.
  rewrite (Hfresh eq_refl) in *. now apply Hnone.
Qed.

(** ** The route *)




Section route_facts.
Variable NumberToString : float -> string.
Variable StringToNumber : string -> float.
Variable parseLLMJson : value -> completion value.
Variable JSON_stringify : value -> string.
Variable LYZR_API_KEY : string.
Variables uuid_user uuid_session now_iso : string.
Variable backend : Route.Request -> completion Http.Response.
#[local] Abbreviation submitTask :=
  (Route.submitTask NumberToString StringToNumber parseLLMJson uuid_user uuid_session backend).
#[local] Abbreviation pollTask :=
  (Route.pollTask NumberToString parseLLMJson JSON_stringify now_iso backend).

(** [submitTask] rejects a body without message or agent_id before any
    request to the inference backend. *)
Lemma submitTask_validation body :
  is_nullish body = false ->
  truthy (get "message" body) = false \/ truthy (get "agent_id" body) = false ->
  submitTask body = ([], Return Route.validation_failure).
Proof.
  intros N H. unfold Route.submitTask. rewrite N.
  assert (C : negb (truthy (get "message" body)) || negb (truthy (get "agent_id" body))
              = true).
  { destruct H as [H|H]; rewrite H; [reflexivity|apply orb_true_r]. }
  rewrite C. reflexivity.
Qed.

(** Otherwise [submitTask] does send a request to the inference backend,
    once the session id and the test of the assets are computed. *)
Lemma submitTask_contacts_backend body sid b :
  is_nullish body = false ->
  truthy (get "message" body) = true -> truthy (get "agent_id" body) = true ->
  final_session_id NumberToString body uuid_session = Return sid ->
  with_assets NumberToString StringToNumber body = Return b ->
  exists request, fst (submitTask body) = [request]
                  /\ Route.target request = Route.LYZR_TASK_URL.
Proof.
  intros N M A S W. unfold Route.submitTask. rewrite N, M, A. cbn [negb orb].
  unfold final_session_id in S. unfold with_assets in W. rewrite S, W.
  match goal with |- context [backend ?r] => exists r; destruct (backend r) as [res|e] end;
    [|split; reflexivity].
  destruct (negb (Http.ok res)); [split; reflexivity|].
  destruct (Http.json res) as [data|e]; [|split; reflexivity].
  destruct (is_nullish data); split; reflexivity.
Qed.


End route_facts.

(** ** The client against the route *)

Section deployment_facts.
Import AiAgent.
Variable s : Deployment.Server.
#[local] Abbreviation poll_body tid := (VObj [("task_id", VStr tid)]).

Lemma submit_body_keys message agent_id options :
  NoDup (map fst (own_entries (submit_body message agent_id options))).
Proof.
  cbn. repeat constructor; cbn; intuition discriminate.
Qed.

(** The route answers a submit without message or agent_id with the
    validation failure, and sends nothing to the inference backend. *)
Lemma handle_submit_validation n message agent_id options :
  Deployment.LYZR_API_KEY s <> "" ->
  truthy message = false \/ truthy agent_id = false ->
  Deployment.handle s n (submit_body message agent_id options)
  = ([], Return Route.validation_failure).
Proof.
  intros K H. unfold Deployment.handle, Route.POST.
  apply String.eqb_neq in K. rewrite K.
  pose proof (submit_body_keys message agent_id options) as ND.
  unfold submit_body in *. cbn [own_entries] in ND.
  match goal with |- context [json_roundtrip ?b] => set (body := b) in * end.
  assert (Hn : is_nullish (json_roundtrip body) = false) by reflexivity.
  assert (Ht : get "task_id" (json_roundtrip body) = VUndef).
  { unfold body. now rewrite (json_roundtrip_get "task_id" _ ND). }
  assert (Hm : get "message" (json_roundtrip body) = json_roundtrip message).
  { unfold body. now rewrite (json_roundtrip_get "message" _ ND). }
  assert (Ha : get "agent_id" (json_roundtrip body) = json_roundtrip agent_id).
  { unfold body. now rewrite (json_roundtrip_get "agent_id" _ ND). }
  unfold get_prop. rewrite Hn, Ht. cbn [truthy].
  apply submitTask_validation; [exact Hn|].
  rewrite Hm, Ha.
  destruct H as [H|H]; [left|right]; now apply json_roundtrip_falsy.
Qed.

Lemma world_submit_validation n message agent_id options :
  Deployment.LYZR_API_KEY s <> "" ->
  Deployment.online s n = true ->
  truthy message = false \/ truthy agent_id = false ->
  fetchWrapper (Deployment.world s) n (submit_body message agent_id options)
  = Response (Return (failure "message and agent_id are required")).
Proof.
  intros K O H. unfold Deployment.world, Deployment.browser_fetch.
  cbn [fetchWrapper]. rewrite O, handle_submit_validation by assumption.
  reflexivity.
Qed.






(** Every reply the route returns is an object: each is made by
    [NextResponse.json] of an object literal. *)
Lemma NextResponse_json_body b st r :
  Route.NextResponse_json b st = Return r -> Route.body r = b.
Proof.
  unfold Route.NextResponse_json.
  destruct (_ || _); [discriminate|].
  destruct (_ || _); [discriminate|]. now intros [= <-].
Qed.

Lemma handle_reply_is_object n body r :
  snd (Deployment.handle s n body) = Return r ->
  exists fs, Route.body r = VObj fs.
Proof.
  unfold Deployment.handle, Route.POST, Route.submitTask, Route.pollTask,
    Route.server_error.
  repeat match goal with
         | |- context [match ?x with _ => _ end] => destruct x eqn:?
         | |- context [if ?x then _ else _] => destruct x eqn:?
         end;
    cbn [snd]; intros H; try discriminate H;
    try (injection H as <-; cbn [Route.body]; eauto);
    try (apply NextResponse_json_body in H; rewrite H; eauto).
Qed.

(** So the JSON of a reply of the route, as the client reads it, is never
    [null]. *)
Lemma world_reply_is_object n body v :
  fetchWrapper (Deployment.world s) n body = Response (Return v) ->
  exists fs, v = VObj fs.
Proof.
  unfold Deployment.world, Deployment.browser_fetch. cbn [fetchWrapper].
  destruct (Deployment.online s n); [|cbn; discriminate].
  unfold FetchWrapper.fetchWrapper, Route.served.
  destruct (snd (Deployment.handle s n body)) as [r|e] eqn:H.
  - destruct (handle_reply_is_object n body r H) as [fs B]. rewrite B.
    cbn [Http.redirected Http.status Http.content_type Http.json snd].
    repeat match goal with
           | |- context [if ?x then _ else _] => destruct x
           end; cbn [snd]; try discriminate;
      intros [= <-]; cbn [json_roundtrip]; eauto.
  - cbn. discriminate.
Qed.
(** Against the route the reply to a submit is an object, so that a submit
    reply without a truthy [task_id] ends the call without a poll. *)
Lemma callAIAgent_no_task_id_route message agent_id options submitData fuel :
  fetchWrapper (Deployment.world s) 0 (submit_body message agent_id options)
    = Response (Return submitData) ->
  truthy (get "task_id" submitData) = false ->
  callAIAgent (Deployment.world s) message agent_id options fuel =
  Some ([Post (submit_body message agent_id options)],
        Return (if is_false (get "success" submitData) then submitData
                else failure "No task_id in response")).
Proof.
  intros F T. apply callAIAgent_submit_only; [exact F| |exact T].
  destruct (world_reply_is_object _ _ _ F) as [fs ->]. reflexivity.
Qed.
End deployment_facts.

(** C5, as amended: the validation is made by the route, not by the client.
    For every submit body whose message or agent_id is missing or empty,
    [submitTask] answers with the validation failure (status 400,
    [success = false], message 'message and agent_id are required') and
    sends no request to the inference backend.  [callAIAgent] itself
    validates nothing: it posts the body to the route and, the route being
    reachable and configured with a key, returns that failure as it is,
    without polling. *)
Theorem submit_validation :
  (forall nts stn parse uuid_user uuid_session backend body,
     is_nullish body = false ->
     truthy (get "message" body) = false \/ truthy (get "agent_id" body) = false ->
     Route.submitTask nts stn parse uuid_user uuid_session backend body
     = ([], Return Route.validation_failure))
  /\ (forall s message agent_id options fuel,
        Deployment.LYZR_API_KEY s <> "" ->
        Deployment.online s 0 = true ->
        truthy message = false \/ truthy agent_id = false ->
        AiAgent.callAIAgent (Deployment.world s) message agent_id options fuel
        = Some ([AiAgent.Post (AiAgent.submit_body message agent_id options)],
                Return (AiAgent.failure "message and agent_id are required"))
        /\ Deployment.backend_requests s 0
             (AiAgent.submit_body message agent_id options) = []).
Proof.
  split.
  - intros. now apply submitTask_validation.
  - intros s message agent_id options fuel K O H. split.
    + rewrite (callAIAgent_submit_only (Deployment.world s) message agent_id options
                 (AiAgent.failure "message and agent_id are required") fuel);
        [reflexivity| |reflexivity|reflexivity].
      now apply world_submit_validation.
    + unfold Deployment.backend_requests.
      now rewrite O, handle_submit_validation.
Qed.

Lemma submit_validation_witness :
  truthy (VStr "hi") = true
  /\ truthy (VStr "") = false
  /\ AiAgent.callAIAgent (Deployment.world Samples.expiring_server)
       (VStr "hi") (VStr "") VUndef 5
     = Some ([AiAgent.Post (AiAgent.submit_body (VStr "hi") (VStr "") VUndef)],
             Return (AiAgent.failure "message and agent_id are required"))
  /\ Deployment.backend_requests Samples.expiring_server 0
       (AiAgent.submit_body (VStr "hi") (VStr "") VUndef) = [].
Proof.
  split; [reflexivity|]. split; [reflexivity|].
  apply (proj2 submit_validation Samples.expiring_server (VStr "hi") (VStr "") VUndef 5%nat).
  - discriminate.
  - reflexivity.
  - right. reflexivity.
Defined.

(** C5, the claim as stated fails: called without a message, [callAIAgent]
    does issue a network request, the post of the body to ['/api/agent'];
    the failure it returns is the reply of the route to that request. *)
Lemma callAIAgent_posts_invalid_submit :
  truthy VUndef = false
  /\ AiAgent.callAIAgent (Deployment.world Samples.expiring_server)
       VUndef (VStr "A1") VUndef 0
     = Some ([AiAgent.Post (AiAgent.submit_body VUndef (VStr "A1") VUndef)],
             Return (AiAgent.failure "message and agent_id are required"))
  /\ AiAgent.posts [AiAgent.Post (AiAgent.submit_body VUndef (VStr "A1") VUndef)]
     = [VObj [("message", VUndef); ("agent_id", VStr "A1"); ("user_id", VUndef);
              ("session_id", VUndef); ("assets", VUndef)]].
Proof. repeat split. Qed.



Lemma expiring_server_continues :
  forall j, (j < 1)%nat ->
    AiAgent.continues
      (AiAgent.fetchWrapper (Deployment.world Samples.expiring_server) (S j)
         (VObj [("task_id", VStr "T1")])) = true.
Proof.
  intros [|j] H; [reflexivity|lia].
Defined.

Lemma expiring_server_guard :
  forall j, (j <= 1)%nat ->
    AiAgent.before_ceiling (Deployment.world Samples.expiring_server) (S j) = true.
Proof.
  intros [|[|j]] H; [reflexivity|reflexivity|lia].
Defined.



(* ================================================================== *)
(** * Further properties *)
(* ================================================================== *)

(** ** The fetch wrapper *)


(** ** The client's run *)

Lemma lookup_assoc_set_same (A : Type) k (x : A) fs :
  lookup k (assoc_set k x fs) = Some x.
Proof.
  induction fs as [|[k' y] r IH]; cbn.
  - now rewrite String.eqb_refl.
  - destruct (String.eqb k k') eqn:E; cbn; rewrite ?String.eqb_refl, ?E; auto.
Qed.

Lemma lookup_assoc_set_other (A : Type) k k' (x : A) fs :
  k <> k' -> lookup k' (assoc_set k x fs) = lookup k' fs.
Proof.
  intros NE. induction fs as [|[k0 y] r IH]; cbn.
  - apply String.eqb_neq in NE. rewrite String.eqb_sym in NE. now rewrite NE.
  - destruct (String.eqb k k0) eqn:E; cbn.
    + apply String.eqb_eq in E. subst k0.
      apply String.eqb_neq in NE. rewrite String.eqb_sym in NE. now rewrite NE.
    + now rewrite IH.
Qed.

Section client_more.
Import AiAgent.
Variable w : World.
Variables message agent_id options : value.
#[local] Abbreviation loop := (poll_loop w agent_id).
#[local] Abbreviation call := (callAIAgent w message agent_id options).
#[local] Abbreviation submit := (submit_body message agent_id options).
#[local] Abbreviation timeout := (failure "Agent task timed out after 5 minutes").

(** The events the loop adds are whole rounds, followed at most by the
    reading of the clock that ends it. *)
Lemma poll_loop_trace_shape fuel : forall tid uid sid attempt trace0 trace c,
  loop fuel tid uid sid (now w 0) attempt trace0 = Some (trace, c) ->
  exists k,
    (trace = (trace0 ++ flat_map (iteration w tid) (seq attempt k))%list
     /\ (1 <= k)%nat)
    \/ (trace = (trace0 ++ flat_map (iteration w tid) (seq attempt k)
                 ++ [Clock (now w (S (attempt + k)))])%list
        /\ c = Return timeout).
Proof.
  induction fuel as [|fuel IH]; intros tid uid sid attempt trace0 trace c H;
    [discriminate|].
  cbn [poll_loop] in H.
  assert (One : forall c0,
    Some (((trace0 ++ [Clock (now w (S attempt))])
           ++ [Sleep (delay attempt); Post (VObj [("task_id", tid)])])%list, c0)
    = Some (trace, c) ->
    exists k,
      (trace = (trace0 ++ flat_map (iteration w tid) (seq attempt k))%list
       /\ (1 <= k)%nat)
      \/ (trace = (trace0 ++ flat_map (iteration w tid) (seq attempt k)
                   ++ [Clock (now w (S (attempt + k)))])%list
          /\ c = Return timeout)).
  { intros c0 [= <- <-]. exists 1%nat. left. split; [|lia].
    cbn [seq flat_map iteration]. now rewrite app_nil_r, <- app_assoc. }
  assert (More :
    loop fuel tid uid sid (now w 0) (S attempt)
      ((trace0 ++ [Clock (now w (S attempt))])
       ++ [Sleep (delay attempt); Post (VObj [("task_id", tid)])])%list
    = Some (trace, c) ->
    exists k,
      (trace = (trace0 ++ flat_map (iteration w tid) (seq attempt k))%list
       /\ (1 <= k)%nat)
      \/ (trace = (trace0 ++ flat_map (iteration w tid) (seq attempt k)
                   ++ [Clock (now w (S (attempt + k)))])%list
          /\ c = Return timeout)).
  { intros R. apply IH in R. destruct R as [k [[E K]|[E C]]]; exists (S k).
    - left. split; [|lia]. rewrite E. cbn [seq flat_map iteration].
      now rewrite <- !app_assoc.
    - right. split; [|exact C]. rewrite E. cbn [seq flat_map iteration].
      rewrite <- !app_assoc. cbn [app].
      now replace (S attempt + k)%nat with (attempt + S k)%nat by lia. }
  destruct (now w (S attempt) - now w 0 <? POLL_TIMEOUT_MS)%Z.
  - destruct (fetchWrapper w (S attempt) _) as [e| |[p|e]]; eauto.
    destruct (get_prop p "status") as [st|e]; eauto.
    destruct (is_str_lit st "processing"); eauto.
  - injection H as <- <-. exists 0%nat. right. split; [|reflexivity].
    cbn [seq flat_map app]. now rewrite Nat.add_0_r.
Qed.

(** X2: every run of [callAIAgent] is the submit request alone, or the
    submit request, the reading of the start time and then whole rounds of
    the loop, each a reading of the clock, the sleep of the backoff and one
    poll, in this order; a run that goes on after its last poll does so only
    with the reading of the clock that ends the loop, and then returns the
    timeout failure.  No two polls are issued without a sleep between
    them. *)
Theorem callAIAgent_run_shape :
  forall fuel trace v,
    call fuel = Some (trace, Return v) ->
    trace = [Post submit]
    \/ exists submitData k,
         fetchWrapper w 0 submit = Response (Return submitData)
         /\ truthy (get "task_id" submitData) = true
         /\ ((trace = rounds w submit (get "task_id" submitData) k /\ (1 <= k)%nat)
             \/ (trace = (rounds w submit (get "task_id" submitData) k
                          ++ [Clock (now w (S k))])%list
                 /\ v = timeout)).
Proof.
  intros fuel trace v H.
  assert (T : exists c, callAIAgent_try w message agent_id options fuel
                        = Some (trace, c)
                        /\ (forall x, c = Return x -> v = x)).
  { unfold callAIAgent in H.
    destruct (callAIAgent_try w message agent_id options fuel) as [[tr [x|e]]|];
      try discriminate; injection H as <- <-; eexists; split; try reflexivity.
    - now intros x0 [= ->].
    - discriminate. }
  destruct T as [c [T V]]. unfold callAIAgent_try in T.
  destruct (fetchWrapper w 0 submit) as [e| |[submitData|e]] eqn:F;
    try (injection T as <- _; now left).
  destruct (get_prop submitData "task_id") as [tid|e] eqn:G;
    [|injection T as <- _; now left].
  destruct (truthy tid) eqn:Tr; cbn [negb] in T; [|injection T as <- _; now left].
  unfold get_prop in G. destruct (is_nullish submitData); [discriminate|].
  injection G as <-.
  right. exists submitData. apply poll_loop_trace_shape in T.
  destruct T as [k [[E K]|[E C]]]; exists k; (split; [reflexivity|]); (split; [exact Tr|]).
  - left. split; [|exact K]. unfold rounds. rewrite E. now rewrite <- app_assoc.
  - right. split.
    + unfold rounds. rewrite E. cbn [Nat.add]. now rewrite <- !app_assoc.
    + now apply V.
Qed.

(** A run against polls that all make the loop go round again. *)
Lemma callAIAgent_continuing_run submitData N fuel :
  fetchWrapper w 0 submit = Response (Return submitData) ->
  truthy (get "task_id" submitData) = true ->
  (forall k, (k < N)%nat ->
     continues (fetchWrapper w (S k) (VObj [("task_id", get "task_id" submitData)]))
     = true) ->
  (forall k, (k < N)%nat -> before_ceiling w (S k) = true) ->
  before_ceiling w (S N) = false ->
  (N < fuel)%nat ->
  call fuel =
  Some ((rounds w submit (get "task_id" submitData) N ++ [Clock (now w (S N))])%list,
        Return timeout).
Proof.
  intros F T C G E Hf.
  unfold callAIAgent, callAIAgent_try. rewrite F.
  unfold get_prop. rewrite (get_truthy_not_nullish _ _ T), T. cbn [negb].
  replace fuel with (N + S (fuel - S N))%nat by lia.
  rewrite poll_loop_rounds.
  - cbn [Nat.add]. rewrite (poll_loop_timeout _ _ _ _ _ _ _ _ E).
    unfold rounds. now rewrite <- !app_assoc.
  - intros j Hj. now apply G.
  - intros j Hj. now apply C.
Qed.

(** X3: the value a terminal poll makes [callAIAgent] return is the reply
    of the poll with three properties written over it: [agent_id] is the
    caller's, [user_id] and [session_id] are those of the submit reply, and
    every other property of the reply is kept as it is. *)
Theorem callAIAgent_result_ids :
  forall submitData fields k fuel,
    fetchWrapper w 0 submit = Response (Return submitData) ->
    truthy (get "task_id" submitData) = true ->
    (forall j, (j < k)%nat ->
       continues (fetchWrapper w (S j) (VObj [("task_id", get "task_id" submitData)]))
       = true) ->
    (forall j, (j <= k)%nat -> before_ceiling w (S j) = true) ->
    fetchWrapper w (S k) (VObj [("task_id", get "task_id" submitData)])
      = Response (Return (VObj fields)) ->
    is_str_lit (get "status" (VObj fields)) "processing" = false ->
    (k < fuel)%nat ->
    exists v,
      call fuel
      = Some (rounds w submit (get "task_id" submitData) (S k), Return v)
      /\ get "agent_id" v = agent_id
      /\ get "user_id" v = get "user_id" submitData
      /\ get "session_id" v = get "session_id" submitData
      /\ forall key, key <> "agent_id" -> key <> "user_id" -> key <> "session_id" ->
           get key v = get key (VObj fields).
Proof.
  intros submitData fields k fuel F T C G P S Hf.
  eexists. split.
  - apply (callAIAgent_terminal_poll w message agent_id options submitData
             (VObj fields) k fuel F T C G P eq_refl S Hf).
  - cbn [own_entries obj_extend fold_left fst snd get].
    repeat split.
    + rewrite lookup_assoc_set_other by discriminate.
      rewrite lookup_assoc_set_other by discriminate.
      now rewrite lookup_assoc_set_same.
    + rewrite lookup_assoc_set_other by discriminate.
      now rewrite lookup_assoc_set_same.
    + now rewrite lookup_assoc_set_same.
    + intros key K1 K2 K3.
      rewrite !lookup_assoc_set_other by congruence. reflexivity.
Qed.
End client_more.

Lemma callAIAgent_run_shape_witness :
  AiAgent.callAIAgent Samples.slow_world (VStr "hi") (VStr "A1") VUndef 3
  = Some (Samples2.slow_trace,
          Return (AiAgent.failure "Agent task timed out after 5 minutes"))
  /\ (Samples2.slow_trace = [AiAgent.Post Samples2.hi_submit]
      \/ exists submitData k,
           AiAgent.fetchWrapper Samples.slow_world 0 Samples2.hi_submit
           = AiAgent.Response (Return submitData)
           /\ truthy (get "task_id" submitData) = true
           /\ ((Samples2.slow_trace
                = rounds Samples.slow_world Samples2.hi_submit
                    (get "task_id" submitData) k
                /\ (1 <= k)%nat)
               \/ (Samples2.slow_trace
                   = (rounds Samples.slow_world Samples2.hi_submit
                        (get "task_id" submitData) k
                      ++ [AiAgent.Clock (AiAgent.now Samples.slow_world (S k))])%list
                   /\ AiAgent.failure "Agent task timed out after 5 minutes"
                      = AiAgent.failure "Agent task timed out after 5 minutes"))).
Proof.
  split; [reflexivity|].
  apply (callAIAgent_run_shape Samples.slow_world (VStr "hi") (VStr "A1") VUndef
           3%nat Samples2.slow_trace
           (AiAgent.failure "Agent task timed out after 5 minutes")).
  reflexivity.
Defined.

Lemma callAIAgent_result_ids_witness :
  exists v,
    AiAgent.callAIAgent (Deployment.world Samples.expiring_server)
      (VStr "hi") (VStr "A1") VUndef 2
    = Some (rounds (Deployment.world Samples.expiring_server)
              Samples2.hi_submit (VStr "T1") 2, Return v)
    /\ get "agent_id" v = VStr "A1"
    /\ get "user_id" v = VStr "user-00000000-0000-4000-8000-000000000000"
    /\ get "session_id" v = VStr "A1-11111111-111"
    /\ forall key, key <> "agent_id" -> key <> "user_id" -> key <> "session_id" ->
         get key v = get key (VObj Samples2.expired_reply).
Proof.
  exact (callAIAgent_result_ids (Deployment.world Samples.expiring_server)
           (VStr "hi") (VStr "A1") VUndef
           Samples2.hi_submit_reply Samples2.expired_reply 1%nat 2%nat
           eq_refl eq_refl expiring_server_continues expiring_server_guard
           eq_refl eq_refl (le_n 2)).
Defined.

(** ** The client against the route, continued *)

Section deployment_more.
Import AiAgent.
Variable s : Deployment.Server.
#[local] Abbreviation poll_body tid := (VObj [("task_id", VStr tid)]).

(** What the route makes of a poll the backend answers with a task that
    failed: a reply with status 500. *)
Lemma handle_poll_failed n tid res task :
  Deployment.LYZR_API_KEY s <> "" ->
  tid <> "" ->
  Deployment.backend s n (Route.poll_request tid) = Return res ->
  Http.ok res = true ->
  Http.json res = Return task ->
  is_str_lit (get "status" task) "failed" = true ->
  Deployment.handle s n (poll_body tid)
  = ([Route.poll_request tid],
     Return {| Route.body :=
                 VObj [("success", VBool false);
                       ("status", VStr "failed");
                       ("response",
                        VObj [("status", VStr "error");
                              ("result", VObj []);
                              ("message", js_or (get "error" task)
                                                (VStr "Agent task failed"))]);
                       ("error", js_or (get "error" task) (VStr "Agent task failed"))];
               Route.http_status := 500 |}).
Proof.
  intros K T B O J St. unfold Deployment.handle, Route.POST.
  apply String.eqb_neq in K. rewrite K.
  cbn [json_roundtrip]. unfold get_prop.
  cbn [is_nullish get lookup String.eqb Ascii.eqb Bool.eqb truthy].
  apply String.eqb_neq in T. rewrite T. cbn [negb].
  unfold Route.pollTask. cbn [ToString]. fold (Route.poll_request tid).
  rewrite B, O, J. cbn [negb]. unfold get_prop.
  assert (N : is_nullish task = false) by (destruct task; try reflexivity; discriminate St).
  rewrite N.
  destruct (get "status" task) as [| |b|x|st|fs|xs]; try discriminate St.
  cbn [is_str_lit] in *. apply String.eqb_eq in St. subst st. reflexivity.
Qed.

(** A failed task reaches the client as [undefined]. *)
Lemma world_poll_failed n tid res task :
  Deployment.LYZR_API_KEY s <> "" ->
  Deployment.online s n = true ->
  tid <> "" ->
  Deployment.backend s n (Route.poll_request tid) = Return res ->
  Http.ok res = true ->
  Http.json res = Return task ->
  is_str_lit (get "status" task) "failed" = true ->
  fetchWrapper (Deployment.world s) n (poll_body tid) = Undefined.
Proof.
  intros K O T B Ok J St.
  unfold Deployment.world, Deployment.browser_fetch. cbn [fetchWrapper].
  rewrite O, (handle_poll_failed n tid res task K T B Ok J St).
  reflexivity.
Qed.

(** Without a key the route answers 500 before reading the body. *)
Lemma handle_without_key n body :
  Deployment.LYZR_API_KEY s = "" ->
  Deployment.handle s n body
  = ([], Return {| Route.body :=
                     VObj (Route.failure_body
                             (VStr "LYZR_API_KEY not configured")
                             (VStr "LYZR_API_KEY not configured on server"));
                   Route.http_status := 500 |}).
Proof.
  intros K. unfold Deployment.handle, Route.POST. now rewrite K.
Qed.

Lemma world_unreachable n body :
  Deployment.LYZR_API_KEY s = "" \/ Deployment.online s n = false ->
  fetchWrapper (Deployment.world s) n body = Undefined.
Proof.
  intros H. unfold Deployment.world, Deployment.browser_fetch. cbn [fetchWrapper].
  destruct (Deployment.online s n) eqn:O.
  - destruct H as [K|H]; [|discriminate]. now rewrite handle_without_key.
  - reflexivity.
Qed.
End deployment_more.

(** X4: a task the backend declares failed is not returned to the caller.
    The route answers such a poll with status 500, [fetchWrapper] turns a
    500 into [undefined], and the loop takes [undefined] for a poll to
    retry: against a backend that reports the task as failed at every poll,
    and with a user who declines the reload [fetchWrapper] offers,
    [callAIAgent] polls until the ceiling and returns the timeout failure,
    the error text of the backend being lost. *)
Theorem backend_failure_is_retried :
  forall s message agent_id options submitData tid N fuel,
    Deployment.LYZR_API_KEY s <> "" ->
    (forall n, Deployment.online s n = true) ->
    (forall n, Deployment.answer s n = false) ->
    AiAgent.fetchWrapper (Deployment.world s) 0
      (AiAgent.submit_body message agent_id options)
      = AiAgent.Response (Return submitData) ->
    get "task_id" submitData = VStr tid ->
    tid <> "" ->
    (forall n, exists res task,
       Deployment.backend s (S n) (Route.poll_request tid) = Return res
       /\ Http.ok res = true
       /\ Http.json res = Return task
       /\ is_str_lit (get "status" task) "failed" = true) ->
    (forall k, (k < N)%nat ->
       AiAgent.before_ceiling (Deployment.world s) (S k) = true) ->
    AiAgent.before_ceiling (Deployment.world s) (S N) = false ->
    (N < fuel)%nat ->
    (forall n, AiAgent.fetchWrapper (Deployment.world s) (S n)
                 (VObj [("task_id", VStr tid)]) = AiAgent.Undefined)
    /\ AiAgent.callAIAgent (Deployment.world s) message agent_id options fuel
       = Some ((rounds (Deployment.world s)
                  (AiAgent.submit_body message agent_id options) (VStr tid) N
                ++ [AiAgent.Clock (Deployment.clock s (S N))])%list,
               Return (AiAgent.failure "Agent task timed out after 5 minutes")).
Proof.
  intros s message agent_id options submitData tid N fuel K O _ F T NE B G E Hf.
  assert (U : forall n, AiAgent.fetchWrapper (Deployment.world s) (S n)
                          (VObj [("task_id", VStr tid)]) = AiAgent.Undefined).
  { intros n. destruct (B n) as [res [task [Bn [Ok [J St]]]]].
    now apply (world_poll_failed s (S n) tid res task). }
  split; [exact U|].
  assert (Tr : truthy (get "task_id" submitData) = true).
  { rewrite T. cbn. apply String.eqb_neq in NE. now rewrite NE. }
  rewrite (callAIAgent_continuing_run (Deployment.world s) message agent_id options
             submitData N fuel F Tr).
  - now rewrite T.
  - intros k Hk. rewrite T, U. reflexivity.
  - exact G.
  - exact E.
  - exact Hf.
Qed.

(** X5: when the route has no API key, or cannot be reached, the caller is
    told 'No response from server': the route's own message
    ('LYZR_API_KEY not configured') comes with status 500, which
    [fetchWrapper] turns into [undefined] once the user has declined the
    reload.  The run is the submit request alone, and nothing is sent to the
    inference backend. *)
Theorem submit_without_route :
  forall s message agent_id options fuel,
    Deployment.LYZR_API_KEY s = "" \/ Deployment.online s 0 = false ->
    Deployment.answer s 0 = false ->
    AiAgent.callAIAgent (Deployment.world s) message agent_id options fuel
    = Some ([AiAgent.Post (AiAgent.submit_body message agent_id options)],
            Return (AiAgent.failure "No response from server"))
    /\ Deployment.backend_requests s 0
         (AiAgent.submit_body message agent_id options) = [].
Proof.
  intros s message agent_id options fuel H _. split.
  - unfold AiAgent.callAIAgent, AiAgent.callAIAgent_try.
    now rewrite (world_unreachable s 0 _ H).
  - unfold Deployment.backend_requests.
    destruct (Deployment.online s 0) eqn:O; [|reflexivity].
    destruct H as [K|H]; [|discriminate]. now rewrite handle_without_key.
Qed.

Lemma failing_server_polls :
  forall n, exists res task,
    Deployment.backend Samples2.failing_server (S n) (Route.poll_request "T1")
    = Return res
    /\ Http.ok res = true
    /\ Http.json res = Return task
    /\ is_str_lit (get "status" task) "failed" = true.
Proof.
  intros n. eexists. eexists. repeat split.
Defined.

Lemma failing_server_guard :
  forall k, (k < 2)%nat ->
    AiAgent.before_ceiling (Deployment.world Samples2.failing_server) (S k) = true.
Proof.
  intros [|[|k]] H; [reflexivity|reflexivity|lia].
Defined.

Lemma backend_failure_is_retried_witness :
  AiAgent.callAIAgent (Deployment.world Samples2.failing_server)
    (VStr "hi") (VStr "A1") VUndef 3
  = Some ((rounds (Deployment.world Samples2.failing_server)
             Samples2.hi_submit (VStr "T1") 2
           ++ [AiAgent.Clock 300000])%list,
          Return (AiAgent.failure "Agent task timed out after 5 minutes")).
Proof.
  apply (proj2 (backend_failure_is_retried Samples2.failing_server
                  (VStr "hi") (VStr "A1") VUndef Samples2.hi_submit_reply "T1"
                  2%nat 3%nat
                  ltac:(discriminate) (fun _ => eq_refl) (fun _ => eq_refl)
                  eq_refl eq_refl ltac:(discriminate)
                  failing_server_polls failing_server_guard eq_refl (le_n 3))).
Defined.

Lemma submit_without_route_witness :
  AiAgent.callAIAgent (Deployment.world Samples2.keyless_server)
    (VStr "hi") (VStr "A1") VUndef 3
  = Some ([AiAgent.Post Samples2.hi_submit],
          Return (AiAgent.failure "No response from server")).
Proof.
  apply (proj1 (submit_without_route Samples2.keyless_server
                  (VStr "hi") (VStr "A1") VUndef 3%nat
                  (or_introl eq_refl) eq_refl)).
Defined.

(** ** The route, continued *)

Lemma js_or_truthy a b : truthy b = true -> truthy (js_or a b) = true.
Proof.
  intros H. unfold js_or. now destruct (truthy a) eqn:T.
Qed.

Lemma append_dash_nonempty a b : String.eqb (a ++ "-" ++ b) "" = false.
Proof. now destruct a. Qed.

Section route_more.
Variable NumberToString : float -> string.
Variable StringToNumber : string -> float.
Variable parseLLMJson : value -> completion value.
Variable JSON_stringify : value -> string.
Variables uuid_user uuid_session now_iso : string.

(** X6: on a body with message and agent_id that the backend accepts,
    [submitTask] sends one POST to the task URL and answers 200 with the
    task_id of the backend; the user and session identifiers it answers
    with are the ones it sent to the backend, the caller's own when given
    and a generated default otherwise, and are never empty; the assets go
    to the backend exactly when there are some.  This is so whenever the
    session id and the test of the assets can be computed, as they can for
    a truthy session_id or an agent_id that is no object, and for assets
    that are an array, a string or absent.  When the agent_id is an object
    that cannot be converted to a string and there is no session_id, or the
    [length] of the assets cannot be converted to a number, [submitTask]
    rejects before any request to the backend. *)
Theorem submitTask_accepted :
  forall body res data,
    is_nullish body = false ->
    truthy (get "message" body) = true ->
    truthy (get "agent_id" body) = true ->
    Http.ok res = true ->
    Http.json res = Return data ->
    is_nullish data = false ->
    let uid := final_user_id body uuid_user in
    let run := Route.submitTask NumberToString StringToNumber parseLLMJson
                 uuid_user uuid_session (always (Return res)) body in
    match final_session_id NumberToString body uuid_session,
          with_assets NumberToString StringToNumber body with
    | Return sid, Return assets =>
        exists payload,
          run
          = ([{| Route.target := Route.LYZR_TASK_URL;
                 Route.method := "POST";
                 Route.payload := VObj payload |}],
             Return {| Route.body := VObj [("task_id", get "task_id" data);
                                           ("agent_id", get "agent_id" body);
                                           ("user_id", uid);
                                           ("session_id", sid)];
                       Route.http_status := 200 |})
          /\ lookup "message" payload = Some (get "message" body)
          /\ lookup "agent_id" payload = Some (get "agent_id" body)
          /\ lookup "user_id" payload = Some uid
          /\ lookup "session_id" payload = Some sid
          /\ truthy uid = true
          /\ truthy sid = true
          /\ (truthy (get "user_id" body) = true -> uid = get "user_id" body)
          /\ (truthy (get "session_id" body) = true -> sid = get "session_id" body)
          /\ lookup "assets" payload
             = if assets then Some (get "assets" body) else None
    | Throw e, _ =>
        run = ([], Throw e)
        /\ truthy (get "session_id" body) = false
        /\ ToString NumberToString (get "agent_id" body) = Throw e
    | Return _, Throw e =>
        run = ([], Throw e)
        /\ truthy (get "assets" body) = true
        /\ ToNumber NumberToString StringToNumber (get "length" (get "assets" body))
           = Throw e
    end
    /\ (truthy (get "session_id" body) = true
        \/ is_object (get "agent_id" body) = false ->
        exists sid, final_session_id NumberToString body uuid_session = Return sid)
    /\ match get "assets" body with
       | VObj _ => True
       | _ => exists assets,
                with_assets NumberToString StringToNumber body = Return assets
       end.
Proof.
  intros body res data N M A Ok J D uid run. split; [|split].
  - subst run. unfold Route.submitTask, always. rewrite N, M, A. cbn [negb orb].
    fold (final_user_id body uuid_user). fold uid.
    unfold final_session_id, with_assets.
    destruct (truthy (get "session_id" body)) eqn:TS.
    + destruct (truthy (get "assets" body)) eqn:TA.
      * destruct (length_gt NumberToString StringToNumber (get "assets" body) 0)
          as [assets|e] eqn:L.
        -- rewrite Ok, J, D. cbn [negb].
           eexists. split; [reflexivity|].
           assert (Tu : truthy uid = true) by (apply js_or_truthy; reflexivity).
           assert (Eu : truthy (get "user_id" body) = true -> uid = get "user_id" body).
           { intros H. subst uid. unfold final_user_id, js_or. now rewrite H. }
           destruct assets; repeat split; auto.
        -- split; [reflexivity|]. split; [reflexivity|].
           destruct (get "assets" body); try discriminate L; try discriminate TA;
             unfold length_gt, js_gt in L;
             match type of L with
             | bindc ?c _ = _ => destruct c; [discriminate L | cbn in L; congruence]
             end.
      * rewrite Ok, J, D. cbn [negb].
        eexists. split; [reflexivity|].
        assert (Tu : truthy uid = true) by (apply js_or_truthy; reflexivity).
        assert (Eu : truthy (get "user_id" body) = true -> uid = get "user_id" body).
        { intros H. subst uid. unfold final_user_id, js_or. now rewrite H. }
        repeat split; auto.
    + destruct (ToString NumberToString (get "agent_id" body)) as [id|e] eqn:TI;
        cbn [bindc]; [|repeat split; reflexivity].
      destruct (truthy (get "assets" body)) eqn:TA.
      * destruct (length_gt NumberToString StringToNumber (get "assets" body) 0)
          as [assets|e] eqn:L.
        -- rewrite Ok, J, D. cbn [negb].
           eexists. split; [reflexivity|].
           assert (Tu : truthy uid = true) by (apply js_or_truthy; reflexivity).
           assert (Eu : truthy (get "user_id" body) = true -> uid = get "user_id" body).
           { intros H. subst uid. unfold final_user_id, js_or. now rewrite H. }
           assert (Ts : truthy (VStr (id ++ "-" ++ substring 0 12 uuid_session)) = true).
           { cbn [truthy]. now rewrite append_dash_nonempty. }
           destruct assets; repeat split; auto; discriminate.
        -- split; [reflexivity|]. split; [reflexivity|].
           destruct (get "assets" body); try discriminate L; try discriminate TA;
             unfold length_gt, js_gt in L;
             match type of L with
             | bindc ?c _ = _ => destruct c; [discriminate L | cbn in L; congruence]
             end.
      * rewrite Ok, J, D. cbn [negb].
        eexists. split; [reflexivity|].
        assert (Tu : truthy uid = true) by (apply js_or_truthy; reflexivity).
        assert (Eu : truthy (get "user_id" body) = true -> uid = get "user_id" body).
        { intros H. subst uid. unfold final_user_id, js_or. now rewrite H. }
        assert (Ts : truthy (VStr (id ++ "-" ++ substring 0 12 uuid_session)) = true).
        { cbn [truthy]. now rewrite append_dash_nonempty. }
        repeat split; auto; discriminate.
  - unfold final_session_id. intros [H|H]; [rewrite H; eauto|].
    destruct (truthy (get "session_id" body)); [eauto|].
    destruct (get "agent_id" body); try discriminate H; cbn; eauto.
    destruct b; cbn; eauto.
  - unfold with_assets.
    destruct (get "assets" body); cbn; eauto.
    + match goal with |- context [if ?c then _ else _] => destruct c end; eauto.
    + match goal with |- context [if ?c then _ else _] => destruct c end; eauto.
    + match goal with |- context [if ?c then _ else _] => destruct c end; eauto.
Qed.


(** X8: for a task the backend reports as neither processing nor failed,
    and an extractor that does not throw, [pollTask] answers 200 with
    [success: true] and [status: 'completed'], having sent the one GET
    for the task; the [response] it answers with is a normalized one: its
    status is 'success' or 'error' and its result is never empty or null;
    [raw_response] is absent exactly when the task carries no response. *)
Theorem pollTask_completed :
  forall tid res task st,
    Http.ok res = true ->
    Http.json res = Return task ->
    get_prop task "status" = Return st ->
    is_str_lit st "processing" = false ->
    is_str_lit st "failed" = false ->
    (forall v, exists parsed, parseLLMJson v = Return parsed) ->
    exists normalized moduleOutputs rawText,
      Route.pollTask NumberToString parseLLMJson JSON_stringify now_iso
        (always (Return res)) (VStr tid)
      = ([Route.poll_request tid],
         Return {| Route.body := VObj [("success", VBool true);
                                       ("status", VStr "completed");
                                       ("response", response_object normalized);
                                       ("module_outputs", moduleOutputs);
                                       ("timestamp", VStr now_iso);
                                       ("raw_response", rawText)];
                   Route.http_status := 200 |})
      /\ truthy (result normalized) = true
      /\ (get "status" (response_object normalized) = VStr "success"
          \/ get "status" (response_object normalized) = VStr "error")
      /\ (rawText = VUndef <-> get "response" task = VUndef).
Proof.
  intros tid res task st Ok J G P F Total.
  unfold Route.pollTask, always. cbn [ToString]. fold (Route.poll_request tid).
  rewrite Ok, J, G, P, F. cbn [negb].
  match goal with |- context [parseLLMJson ?a] =>
    destruct (Total a) as [parsed E]; rewrite E end.
  eexists. eexists. eexists. split; [reflexivity|].
  split; [apply normalizeResponse_result_truthy|].
  split.
  - cbn. match goal with |- context [status ?r] => destruct (status r) end; auto.
  - destruct (get "response" task); split; intros H; try reflexivity; discriminate H.
Qed.
End route_more.

Lemma submitTask_accepted_witness :
  exists payload,
    fst (Route.submitTask (fun _ => "") (fun _ => nan) (fun v => Return v)
           "00000000-0000-4000-8000-000000000000"
           "11111111-1111-4111-8111-111111111111"
           (always (Return accepted)) sample_submit)
    = [{| Route.target := Route.LYZR_TASK_URL;
          Route.method := "POST";
          Route.payload := VObj payload |}]
    /\ lookup "user_id" payload
       = Some (VStr "user-00000000-0000-4000-8000-000000000000")
    /\ lookup "session_id" payload = Some (VStr "S9")
    /\ lookup "assets" payload = Some (VArr [VStr "asset-1"]).
Proof.
  pose proof (proj1 (submitTask_accepted (fun _ => "") (fun _ => nan) (fun v => Return v)
                "00000000-0000-4000-8000-000000000000"
                "11111111-1111-4111-8111-111111111111"
                sample_submit accepted (VObj [("task_id", VStr "T1")])
                eq_refl eq_refl eq_refl eq_refl eq_refl eq_refl)) as H.
  cbv zeta in H. cbn [final_session_id with_assets] in H.
  destruct H as [payload [E [_ [_ [U [S [_ [_ [_ [_ A]]]]]]]]]].
  exists payload. split; [now rewrite E|]. split; [exact U|]. split; [exact S|exact A].
Defined.


Lemma pollTask_completed_witness :
  exists normalized moduleOutputs rawText,
    snd (Route.pollTask (fun _ => "") (fun v => Return v) (fun _ => "{}")
           "2025-01-01T00:00:00.000Z" (always (Return completed_task)) (VStr "T1"))
    = Return {| Route.body := VObj [("success", VBool true);
                                    ("status", VStr "completed");
                                    ("response", response_object normalized);
                                    ("module_outputs", moduleOutputs);
                                    ("timestamp", VStr "2025-01-01T00:00:00.000Z");
                                    ("raw_response", rawText)];
                Route.http_status := 200 |}
    /\ truthy (result normalized) = true.
Proof.
  destruct (pollTask_completed (fun _ => "") (fun v => Return v) (fun _ => "{}")
              "2025-01-01T00:00:00.000Z" "T1" completed_task
              (VObj [("status", VStr "completed");
                     ("response", VObj [("response", VStr "Hello back");
                                        ("module_outputs", VObj [])])])
              (VStr "completed")
              eq_refl eq_refl eq_refl eq_refl eq_refl
              (fun v => ex_intro _ v eq_refl))
    as [normalized [mo [raw [E [T _]]]]].
  exists normalized, mo, raw. split; [now rewrite E|exact T].
Defined.

(** ** The normalizer, continued *)

Section normalizer_more.
Variable NumberToString : float -> string.
#[local] Abbreviation normalize := (normalizeResponse NumberToString).

Lemma string_or_undefined_guard m :
  string_or_undefined (if is_string m then m else VUndef) = true.
Proof. now destruct m. Qed.

(** X9: the [message] of a normalized response is a string or is absent,
    unless the candidate is, or unwraps to, an object with a [status]
    property, whose own [message] is passed through whatever it is. *)
Theorem normalizeResponse_message_type :
  forall v,
    string_or_undefined (message (normalize v)) = true \/ carries_status v.
Proof.
  apply (normalizeResponse_cases
           (fun v => string_or_undefined (message (normalize v)) = true
                     \/ carries_status v)).
  - intros v U. destruct v as [| |b|n|s|fs|xs]; try (left; reflexivity).
    + left. now destruct b.
    + left. cbn. match goal with |- context [if ?c then _ else _] => now destruct c end.
    + left. cbn. match goal with |- context [if ?c then _ else _] => now destruct c end.
    + destruct (has_key "status" (VObj fs)) eqn:Hs;
        [right; now apply cs_here|left].
      unfold unwraps in U. cbn -[has_key get] in *. rewrite Hs in *.
      cbn -[has_key get] in *.
      destruct (has_key "result" (VObj fs)) eqn:Hr; cbn -[has_key get] in *.
      * apply string_or_undefined_guard.
      * destruct (has_key "message" (VObj fs) && is_string (get "message" (VObj fs)))
          eqn:Hm; cbn -[has_key get] in *.
        -- apply andb_prop in Hm. destruct Hm as [_ Hm].
           now destruct (get "message" (VObj fs)).
        -- destruct (has_key "response" (VObj fs)); [discriminate U|reflexivity].
    + left. now rewrite normalizeResponse_array.
  - intros v U [IH|IH].
    + left. now rewrite (normalizeResponse_unwrap NumberToString v U).
    + right. now apply cs_inner.
Qed.

Lemma extractText_of_message r :
  truthy (message r) = true -> extractText r = message r.
Proof. intros T. unfold extractText. now rewrite T. Qed.

(** X10: [extractText] never gives [null] or [undefined]: its value is
    truthy, or it is the empty string.  And the ways an agent has of
    answering with plain text, the text itself, [{result: text}],
    [{message: text}], [{response: text}] and [{result: {answer: text}}],
    all normalize to a response of which [extractText] is that text. *)
Theorem extractText_plain_text :
  (forall r, truthy (extractText r) = true \/ extractText r = VStr "")
  /\ (forall s, s <> "" ->
        extractText (normalize (VStr s)) = VStr s
        /\ extractText (normalize (VObj [("result", VStr s)])) = VStr s
        /\ extractText (normalize (VObj [("message", VStr s)])) = VStr s
        /\ extractText (normalize (VObj [("response", VStr s)])) = VStr s
        /\ extractText (normalize (VObj [("result", VObj [("answer", VStr s)])]))
           = VStr s).
Proof.
  split.
  - intros r. unfold extractText. cbv zeta.
    repeat match goal with
           | |- context [if truthy ?x then _ else _] =>
               destruct (truthy x) eqn:?; [now left|]
           end.
    destruct (result r); cbn [is_string]; try (now right).
    match goal with H : truthy (message r) = false |- _ => clear H end.
    match goal with |- truthy (VStr ?s) = true \/ _ =>
      destruct s; [now right|now left] end.
  - intros s NE. apply String.eqb_neq in NE.
    assert (T : truthy (VStr s) = true) by (cbn; now rewrite NE).
    repeat split; cbn; rewrite ?NE; cbn;
      unfold extractText; cbn; now rewrite NE.
Qed.
End normalizer_more.

Lemma extractText_plain_text_witness :
  "Hello back" <> ""
  /\ forall nts,
       extractText (normalizeResponse nts (VObj [("response", VStr "Hello back")]))
       = VStr "Hello back".
Proof.
  split; [discriminate|]. intros nts.
  apply (proj2 (extractText_plain_text nts) "Hello back"). discriminate.
Defined.

(** ** [generateUUID] *)

Lemma below_16 (r : N) :
  (r < 16)%N ->
  In r [0; 1; 2; 3; 4; 5; 6; 7; 8; 9; 10; 11; 12; 13; 14; 15]%N.
Proof.
  intros H. cbn.
  assert (r = 0 \/ r = 1 \/ r = 2 \/ r = 3 \/ r = 4 \/ r = 5 \/ r = 6 \/ r = 7
          \/ r = 8 \/ r = 9 \/ r = 10 \/ r = 11 \/ r = 12 \/ r = 13 \/ r = 14
          \/ r = 15)%N by lia.
  intuition auto.
Qed.

Lemma toString16_digit (r : N) :
  (r < 16)%N -> Uuid.toString16 r = String (Uuid.hex_char r) "".
Proof.
  intros H. apply below_16 in H. cbn in H.
  repeat (destruct H as [<-|H]; [reflexivity|]). destruct H.
Qed.

Lemma is_hex_hex_char (r : N) :
  (r < 16)%N -> Uuid.is_hex (Uuid.hex_char r) = true.
Proof.
  intros H. apply below_16 in H. cbn in H.
  repeat (destruct H as [<-|H]; [reflexivity|]). destruct H.
Qed.

Lemma variant_digit (r : N) :
  (r < 16)%N ->
  Uuid.replacement "y" r = String (Uuid.hex_char (N.lor (N.land r 3) 8)) ""
  /\ Uuid.is_variant (Uuid.hex_char (N.lor (N.land r 3) 8)) = true.
Proof.
  intros H. apply below_16 in H. cbn in H.
  repeat (destruct H as [<-|H]; [split; reflexivity|]). destruct H.
Qed.

(** X11: whatever the draws of [(Math.random() * 16) | 0], each of them
    below 16, [generateUUID] returns a string of the form of a version 4
    UUID: 36 characters, lower-case hexadecimal digits in groups of 8, 4, 4,
    4 and 12 separated by hyphens, the third group starting with 4 and the
    fourth with 8, 9, a or b. *)
Theorem generateUUID_is_uuid_v4 :
  forall random,
    (forall k, (random k < 16)%N) ->
    Uuid.is_uuid_v4 (Uuid.generateUUID random) = true
    /\ String.length (Uuid.generateUUID random) = 36%nat.
Proof.
  intros random H.
  assert (E : exists s, Uuid.generateUUID random = s
                        /\ Uuid.is_uuid_v4 s = true
                        /\ String.length s = 36%nat).
  { unfold Uuid.generateUUID, Uuid.template.
    cbn [Uuid.replace_xy Ascii.eqb Bool.eqb orb].
    change (Uuid.replacement "x") with Uuid.toString16.
    rewrite !toString16_digit by apply H.
    rewrite (proj1 (variant_digit _ (H 15%nat))).
    cbn [append].
    eexists. split; [reflexivity|]. split; [|reflexivity].
    unfold Uuid.is_uuid_v4.
    cbn [Uuid.matches Ascii.eqb Bool.eqb].
    rewrite !is_hex_hex_char by apply H.
    rewrite (proj2 (variant_digit _ (H 15%nat))).
    reflexivity. }
  destruct E as [s [-> [U L]]]. now split.
Qed.

Lemma sample_draws_below_16 : forall k, (Uuid.sample_draws k < 16)%N.
Proof.
  intros k. unfold Uuid.sample_draws.
  pose proof (Nat.mod_upper_bound k 16). lia.
Defined.

Lemma generateUUID_is_uuid_v4_witness :
  Uuid.generateUUID Uuid.sample_draws = "01234567-89ab-4cde-b012-3456789abcde"
  /\ Uuid.is_uuid_v4 (Uuid.generateUUID Uuid.sample_draws) = true.
Proof.
  split; [reflexivity|].
  apply (proj1 (generateUUID_is_uuid_v4 Uuid.sample_draws sample_draws_below_16)).
Defined.

(** ** [uploadFiles] *)

(** X12: [uploadFiles] posts one form, holding all the files in order,
    unless there is no file, when it posts nothing.  Its outcome is the
    JSON of the server as it is, or, when there is no file, when
    [fetchWrapper] rejects or returns [undefined] and when the body is not
    JSON, a response built by the client with [success = false], no asset
    identifier, [total_files] the number of files, no successful upload and
    every file counted as failed, so that the two counts add up to the
    total.  It throws in one case only: what was thrown at it is no [Error]
    and cannot be converted to a string, so that building the response
    throws in the [catch] block. *)
Theorem uploadFiles_outcome :
  forall nts now_iso fetchWrapper input,
    let files := Upload.fileArray input in
    let run := Upload.uploadFiles nts now_iso fetchWrapper input in
    fst run = (if (List.length files =? 0)%nat then [] else [files])
    /\ match snd run with
       | Return (Upload.Built r) =>
           Upload.success r = false
           /\ Upload.asset_ids r = []
           /\ Upload.total_files r = List.length files
           /\ Upload.successful_uploads r = 0%nat
           /\ (Upload.successful_uploads r + Upload.failed_uploads r
               = Upload.total_files r)%nat
           /\ (files = [] \/ forall data,
                 fetchWrapper files <> AiAgent.Response (Return data))
       | Return (Upload.Served data) =>
           files <> [] /\ fetchWrapper files = AiAgent.Response (Return data)
       | Throw e =>
           files <> []
           /\ exists v,
                (fetchWrapper files = AiAgent.Rejects (JsOther v)
                 \/ fetchWrapper files = AiAgent.Response (Throw (JsOther v)))
                /\ ToString nts v = Throw e
       end.
Proof.
  intros nts now_iso fetchWrapper input files run. subst run.
  unfold Upload.uploadFiles. fold files.
  destruct files as [|f fs] eqn:E; cbn [List.length Nat.eqb fst snd].
  - repeat split. now left.
  - split; [reflexivity|].
    assert (Caught : forall e,
              (forall data, fetchWrapper (f :: fs) <> AiAgent.Response (Return data)) ->
              (forall v, e = JsOther v ->
                 fetchWrapper (f :: fs) = AiAgent.Rejects (JsOther v)
                 \/ fetchWrapper (f :: fs) = AiAgent.Response (Throw (JsOther v))) ->
              match Upload.network_failure nts now_iso (S (List.length fs)) e with
              | Return (Upload.Built r) =>
                  Upload.success r = false
                  /\ Upload.asset_ids r = []
                  /\ Upload.total_files r = S (List.length fs)
                  /\ Upload.successful_uploads r = 0%nat
                  /\ (Upload.successful_uploads r + Upload.failed_uploads r
                      = Upload.total_files r)%nat
                  /\ (f :: fs = [] \/ forall data,
                        fetchWrapper (f :: fs) <> AiAgent.Response (Return data))
              | Return (Upload.Served data) =>
                  f :: fs <> []
                  /\ fetchWrapper (f :: fs) = AiAgent.Response (Return data)
              | Throw e' =>
                  f :: fs <> []
                  /\ exists v,
                       (fetchWrapper (f :: fs) = AiAgent.Rejects (JsOther v)
                        \/ fetchWrapper (f :: fs) = AiAgent.Response (Throw (JsOther v)))
                       /\ ToString nts v = Throw e'
              end).
    { intros e ND O. unfold Upload.network_failure, Upload.error_text.
      destruct e as [msg|v]; cbn [bindc]; [repeat split; auto|].
      destruct (ToString nts v) as [text|e'] eqn:TS; cbn [bindc];
        [repeat split; auto|].
      split; [discriminate|]. exists v. split; [now apply O | exact TS]. }
    destruct (fetchWrapper (f :: fs)) as [e| |[data|e]] eqn:F.
    + apply Caught; [discriminate|]. intros v ->. now left.
    + apply Caught; [discriminate|]. discriminate.
    + split; [discriminate | reflexivity].
    + apply Caught; [discriminate|]. intros v ->. now right.
Qed.

(* ================================================================== *)
(** ** The interceptor's state *)
(* ================================================================== *)

Lemma substring_length_le : forall m s, (String.length (substring 0 m s) <= m)%nat.
Proof.
  induction m as [|m IH]; intros [|c s]; cbn; try lia.
  specialize (IH s). lia.
Qed.

(** X13: Installing and uninstalling the interceptor are idempotent, touch
    only [window.fetch] and the installed flag, and do nothing outside a
    browser.  In a browser, uninstalling after installing always leaves
    [window.fetch] bound to the fetch captured at load time and the flag
    cleared, whatever [window.fetch] was bound to before. *)
Theorem interceptor_install_uninstall :
  forall in_browser st,
    let install := Interceptor.installAgentInterceptor in_browser in
    let uninstall := Interceptor.uninstallAgentInterceptor in_browser in
    install (install st) = install st
    /\ uninstall (uninstall st) = uninstall st
    /\ uninstall (install st)
       = (if in_browser then Interceptor.with_fetch st false Interceptor.OriginalFetch
          else st)
    /\ Interceptor.isInterceptorInstalled (install st)
       = (in_browser || Interceptor.interceptorInstalled st)
    /\ Interceptor.isInterceptorInstalled (uninstall st)
       = (negb in_browser && Interceptor.interceptorInstalled st)
    /\ Interceptor.getPendingError (install st) = Interceptor.getPendingError st
    /\ Interceptor.getPendingError (uninstall st) = Interceptor.getPendingError st
    /\ Interceptor.modalCallback (install st) = Interceptor.modalCallback st
    /\ Interceptor.modalCallback (uninstall st) = Interceptor.modalCallback st.
Proof.
  intros [|] [[|] f p cb n ps]; cbv zeta;
    unfold Interceptor.installAgentInterceptor, Interceptor.uninstallAgentInterceptor,
      Interceptor.isInterceptorInstalled, Interceptor.getPendingError,
      Interceptor.with_fetch; cbn; repeat split; reflexivity.
Qed.

(** X14: A fix request either leaves the whole state as it was, or posts
    exactly one message to the parent: then there was a pending error, the
    page runs in an iframe, the message carries the pending error's details
    with action 'user_requested_fix' and at most 2000 code units of the
    serialized response, the pending error is cleared, the registered
    callback (if any) is called once with null, and asking again does
    nothing.  Nothing is posted without a pending error or outside an
    iframe, and when posting throws the error stays pending. *)
Theorem sendFixRequestToParent_lifecycle :
  forall inIframe nts stringify post_throws st,
    let send := Interceptor.sendFixRequestToParent inIframe nts stringify in
    let st' := send post_throws st in
    (st' = st
     \/ exists p m,
          Interceptor.pendingError st = Some p
          /\ inIframe = true /\ post_throws = false
          /\ Interceptor.posted st' = (Interceptor.posted st ++ [m])%list
          /\ Interceptor.details m = Interceptor.pending_error p
          /\ Interceptor.action m = "user_requested_fix"
          /\ Interceptor.generateFixPrompt nts (Interceptor.pending_error p)
             = Return (Interceptor.fixPrompt m)
          /\ (String.length (Interceptor.fullResponseText m) <= 2000)%nat
          /\ Interceptor.pendingError st' = None
          /\ Interceptor.notified st'
             = (Interceptor.notified st
                ++ match Interceptor.modalCallback st with
                   | Some cb => [(cb, None)]
                   | None => []
                   end)%list
          /\ send post_throws st' = st' /\ send false st' = st')
    /\ (if inIframe && negb post_throws then True else st' = st)
    /\ (match Interceptor.pendingError st with None => st' = st | Some _ => True end)
    /\ Interceptor.window_fetch st' = Interceptor.window_fetch st
    /\ Interceptor.interceptorInstalled st' = Interceptor.interceptorInstalled st
    /\ Interceptor.modalCallback st' = Interceptor.modalCallback st.
Proof.
  intros inIframe nts stringify post_throws st. cbv zeta.
  unfold Interceptor.sendFixRequestToParent.
  destruct (Interceptor.pendingError st) as [p|] eqn:P.
  2:{ repeat split; auto. destruct (inIframe && negb post_throws); auto. }
  destruct inIframe; cbn [negb andb].
  2:{ repeat split; auto. }
  destruct (Interceptor.generateFixPrompt nts (Interceptor.pending_error p))
    as [prompt|e] eqn:G.
  2:{ repeat split; auto. destruct (negb post_throws); auto. }
  destruct (Interceptor.full_response_text stringify (Interceptor.fullResponse p))
    as [text|e] eqn:T.
  2:{ repeat split; auto. destruct (negb post_throws); auto. }
  destruct post_throws; cbn [negb].
  { repeat split; auto. }
  repeat split; auto.
  assert (L : (String.length text <= 2000)%nat).
  { unfold Interceptor.full_response_text in T.
    destruct (Interceptor.fullResponse p); inversion T; apply substring_length_le. }
  right. eexists p, _. repeat split; try reflexivity; try exact G; try exact L.
  cbn. destruct (Interceptor.modalCallback st); [reflexivity | now rewrite app_nil_r].
Qed.

(** X15: The interceptor is transparent: in a browser a call settles exactly
    as the original fetch does, and outside one it throws 'Fetch not
    available'.  It never clears a pending error and touches nothing else
    of the state.  When it records a pending error, the request went to the
    agent host and either the reply's JSON body was classified as an issue
    (that error and that body are recorded), or the fetch failed while the
    page runs in an iframe (a network_error with a null response).  A call
    to another host leaves the state alone. *)
Theorem interceptedFetch_transparent :
  forall in_browser inIframe nts stn browser st request_url fetched,
    let run := Interceptor.interceptedFetch in_browser inIframe nts stn browser
                 st request_url fetched in
    let st' := fst run in
    snd run = (if in_browser then fetched else Throw (JsError "Fetch not available"))
    /\ Interceptor.window_fetch st' = Interceptor.window_fetch st
    /\ Interceptor.interceptorInstalled st' = Interceptor.interceptorInstalled st
    /\ Interceptor.modalCallback st' = Interceptor.modalCallback st
    /\ Interceptor.posted st' = Interceptor.posted st
    /\ (st' = st
        \/ exists e full,
             st' = Interceptor.setPendingError e full st
             /\ in_browser = true
             /\ includes request_url "agent-prod.studio.lyzr.ai" = true
             /\ ((exists response,
                    fetched = Return response
                    /\ Http.json response = Return full
                    /\ AgentInterceptor.detectResponseIssue nts stn browser full
                       = Return {| AgentInterceptor.hasIssue := true;
                                   AgentInterceptor.error := Some e |})
                 \/ (exists err,
                       fetched = Throw err /\ inIframe = true /\ full = VNull
                       /\ e = Interceptor.network_error_details browser err
                       /\ AgentInterceptor.type e = AgentInterceptor.network_error)))
    /\ (if includes request_url "agent-prod.studio.lyzr.ai" then True else st' = st)
    /\ (match Interceptor.pendingError st with
        | Some _ => Interceptor.pendingError st' <> None
        | None => True
        end).
Proof.
  intros in_browser inIframe nts stn browser st request_url fetched. cbv zeta.
  unfold Interceptor.interceptedFetch.
  destruct in_browser; cbn [negb].
  2:{ cbn. repeat split; auto.
      - destruct (includes _ _); auto.
      - destruct (Interceptor.pendingError st); auto. discriminate. }
  destruct (includes request_url "agent-prod.studio.lyzr.ai") eqn:U; cbn [negb].
  2:{ cbn. repeat split; auto.
      destruct (Interceptor.pendingError st); auto. discriminate. }
  destruct fetched as [response|err]; cbn [fst snd].
  - destruct (Http.json response) as [data|e0] eqn:J.
    2:{ repeat split; auto. destruct (Interceptor.pendingError st); auto; discriminate. }
    destruct (AgentInterceptor.detectResponseIssue nts stn browser data) as [d|e0] eqn:D.
    2:{ repeat split; auto. destruct (Interceptor.pendingError st); auto; discriminate. }
    destruct d as [[|] [e|]]; cbn [AgentInterceptor.hasIssue AgentInterceptor.error];
      try (repeat split; auto;
           destruct (Interceptor.pendingError st); auto; discriminate).
    repeat split; auto.
    + right. exists e, data. repeat split; auto. left. exists response. auto.
    + destruct (Interceptor.pendingError st); auto; discriminate.
  - destruct inIframe.
    2:{ repeat split; auto. destruct (Interceptor.pendingError st); auto; discriminate. }
    repeat split; auto.
    + right. eexists _, VNull. repeat split; auto. right. exists err. auto.
    + destruct (Interceptor.pendingError st); auto; discriminate.
Qed.

(** X16: From detection to the fix request.  When the interceptor, in a
    browser and inside an iframe, sees a reply from the agent host whose
    JSON body is classified as an issue, a fix request that follows posts
    one message carrying exactly that error and clears it, provided the
    error's message can be converted to a string and its raw response is a
    string or absent.  When the message cannot be converted (an object with
    a [toString] property of its own), or the raw response is any other
    value (an object under [details], say), building the prompt throws:
    nothing is posted and the error stays pending. *)
Theorem fix_request_after_detection :
  forall nts stn stringify browser st request_url response data e,
    includes request_url "agent-prod.studio.lyzr.ai" = true ->
    Http.json response = Return data ->
    AgentInterceptor.detectResponseIssue nts stn browser data
    = Return {| AgentInterceptor.hasIssue := true; AgentInterceptor.error := Some e |} ->
    let st1 := fst (Interceptor.interceptedFetch true true nts stn browser
                      st request_url (Return response)) in
    let st2 := Interceptor.sendFixRequestToParent true nts stringify false st1 in
    Interceptor.getPendingError st1
    = Some {| Interceptor.pending_error := e; Interceptor.fullResponse := data |}
    /\ match ToString nts (AgentInterceptor.message e),
             AgentInterceptor.raw_response e with
       | Return _, (VUndef | VNull | VStr _) =>
           exists m,
             Interceptor.posted st2 = (Interceptor.posted st ++ [m])%list
             /\ Interceptor.details m = e
             /\ Interceptor.generateFixPrompt nts e = Return (Interceptor.fixPrompt m)
             /\ Interceptor.fullResponseText m = substring 0 2000 (stringify data)
             /\ Interceptor.getPendingError st2 = None
       | _, _ =>
           st2 = st1
           /\ exists ex, Interceptor.generateFixPrompt nts e = Throw ex
       end.
Proof.
  intros nts stn stringify browser st request_url response data e U J D. cbv zeta.
  unfold Interceptor.interceptedFetch. cbn [negb]. rewrite U. cbn [negb fst].
  rewrite J, D. cbn [AgentInterceptor.hasIssue AgentInterceptor.error].
  split; [reflexivity|].
  assert (ND : Interceptor.full_response_text stringify data
               = Return (substring 0 2000 (stringify data))).
  { destruct data; try reflexivity. cbn in D. discriminate. }
  unfold Interceptor.sendFixRequestToParent, Interceptor.setPendingError.
  cbn [Interceptor.with_pending Interceptor.pendingError negb
       Interceptor.pending_error Interceptor.fullResponse].
  unfold Interceptor.generateFixPrompt.
  destruct (ToString nts (AgentInterceptor.message e)) as [text|ex]; cbn [bindc].
  2:{ destruct (AgentInterceptor.raw_response e); split; eauto. }
  destruct (AgentInterceptor.raw_response e);
    cbn [Interceptor.opt_substring bindc ToString];
    try (split; [reflexivity | eauto]);
    rewrite ND; eexists; repeat split; reflexivity.
Qed.

Lemma fix_request_after_detection_witness :
  Interceptor.getPendingError
    (fst (Interceptor.interceptedFetch true true (fun _ => "") (fun _ => nan)
            Interceptor.sample_browser Interceptor.sample_state
            AgentInterceptor.LYZR_API_URL (Return Interceptor.lyzr_reply)))
  = Some {| Interceptor.pending_error := Interceptor.sample_details;
            Interceptor.fullResponse := AgentInterceptor.nested_failure |}
  /\ exists m,
       Interceptor.posted
         (Interceptor.sendFixRequestToParent true (fun _ => "") (fun _ => "{}") false
            (fst (Interceptor.interceptedFetch true true (fun _ => "") (fun _ => nan)
                    Interceptor.sample_browser Interceptor.sample_state
                    AgentInterceptor.LYZR_API_URL (Return Interceptor.lyzr_reply))))
       = [m]
       /\ Interceptor.details m = Interceptor.sample_details.
Proof.
  destruct (fix_request_after_detection (fun _ => "") (fun _ => nan) (fun _ => "{}")
              Interceptor.sample_browser Interceptor.sample_state
              AgentInterceptor.LYZR_API_URL Interceptor.lyzr_reply
              AgentInterceptor.nested_failure Interceptor.sample_details
              eq_refl eq_refl eq_refl) as [P M].
  cbv zeta in M. cbn [ToString AgentInterceptor.message AgentInterceptor.raw_response
                      Interceptor.sample_details] in M.
  destruct M as [m [Q [R _]]].
  split; [exact P|]. exists m. split; [exact Q | exact R].
Defined.

(* ================================================================== *)
(** ** The wrappers of the client *)
(* ================================================================== *)

Lemma js_or_default_truthy v d : truthy d = true -> truthy (js_or v d) = true.
Proof. intros D. unfold js_or. destruct (truthy v) eqn:T; auto. Qed.

(** X17: [callAgentAPI] succeeds exactly when [callAIAgent] resolved with a
    value whose [success] is truthy and whose [response] has a status other
    than 'error'; it reports success exactly when it attaches no error.  On
    success it has no effect.  Otherwise it attaches one error, sent to the
    parent and to the global callback only inside an iframe: an api_error
    with a truthy message, next to the response and raw response of the
    value, or a network_error, which arises only when the call of
    [callAIAgent] threw or the value or its [response] is null or
    undefined. *)
Theorem callAgentAPI_outcome :
  forall env c,
    let effects := fst (UseAgent.callAgentAPI_settle env c) in
    let r := snd (UseAgent.callAgentAPI_settle env c) in
    (UseAgent.success r = true <-> UseAgent.error r = None)
    /\ (UseAgent.success r = true <->
        exists result,
          c = Return result
          /\ is_nullish result = false
          /\ truthy (get "success" result) = true
          /\ is_nullish (get "response" result) = false
          /\ is_str_lit (get "status" (get "response" result)) "error" = false)
    /\ match UseAgent.error r with
       | None => effects = []
       | Some e =>
           effects
           = (if ErrorBoundary.inIframe env
              then ErrorBoundary.sendErrorToParent env e ++ UseAgent.call_global env e
              else [])%list
           /\ ((AgentInterceptor.type e = AgentInterceptor.api_error
                /\ truthy (AgentInterceptor.message e) = true
                /\ exists result,
                     c = Return result
                     /\ UseAgent.response r = get "response" result
                     /\ UseAgent.raw_response r = get "raw_response" result
                     /\ AgentInterceptor.raw_response e = get "raw_response" result)
               \/ (AgentInterceptor.type e = AgentInterceptor.network_error
                   /\ UseAgent.response r
                      = UseAgent.error_response (AgentInterceptor.message e)
                   /\ ((exists ex, c = Throw ex)
                       \/ exists result,
                            c = Return result
                            /\ (is_nullish result = true
                                \/ is_nullish (get "response" result) = true))))
       end.
Proof.
  intros env c. cbv zeta. unfold UseAgent.callAgentAPI_settle.
  destruct c as [result|ex]; cbn [bindc].
  2:{ cbn. repeat split; try discriminate.
      - intros [result [H _]]; discriminate.
      - right. repeat split; eauto. }
  unfold UseAgent.callAgentAPI_try, get_prop.
  destruct (is_nullish result) eqn:N; cbn [bindc].
  { cbn. repeat split; try discriminate.
    - intros [x [[= <-] [H _]]]; congruence.
    - right. repeat split; eauto. }
  destruct (truthy (get "success" result)) eqn:S; cbn [negb bindc].
  - destruct (is_nullish (get "response" result)) eqn:NR; cbn [bindc].
    { cbn. repeat split; try discriminate.
      - intros [x [[= <-] [_ [_ [H _]]]]]; congruence.
      - right. repeat split; eauto. }
    destruct (is_str_lit (get "status" (get "response" result)) "error") eqn:ST.
    + destruct (truthy (get "error" result)) eqn:E; cbn [bindc].
      * cbn. repeat split; try discriminate.
        -- intros [x [[= <-] H]]; intuition congruence.
        -- left. repeat split; eauto.
      * cbn. repeat split; try discriminate.
        -- intros [x [[= <-] H]]; intuition congruence.
        -- left. repeat split; eauto using js_or_default_truthy.
    + cbn. repeat split; auto. eauto 10.
  - destruct (truthy (get "error" result)) eqn:E; cbn [bindc].
    + cbn. repeat split; try discriminate.
      * intros [x [[= <-] H]]; intuition congruence.
      * left. repeat split; eauto.
    + destruct (is_nullish (get "response" result)) eqn:NR; cbn [bindc].
      * cbn. repeat split; try discriminate.
        -- intros [x [[= <-] H]]; intuition congruence.
        -- right. repeat split; eauto.
      * cbn. repeat split; try discriminate.
        -- intros [x [[= <-] H]]; intuition congruence.
        -- left. repeat split; eauto using js_or_default_truthy.
Qed.

(** X18: After [callAgent] of the hook [useAgent] has settled, [loading] is
    false, the error of the state is the error of the result, the response
    of the state is the response of the result, and the last result is the
    value [callAIAgent] resolved with.  The call succeeds exactly when that
    value and its [response] are not null or undefined and its [success] is
    truthy: an agent-level status 'error' still counts as a success and
    leaves the error of the state empty, but is reported to [onError] with
    an api_error.  A failure is reported to [onError] once. *)
Theorem useAgent_callAgent_outcome :
  forall env options st c,
    let run := UseAgent.callAgent_settle env options st c in
    let st' := fst (fst run) in
    let effects := snd (fst run) in
    let r := snd run in
    UseAgent.loading st' = false
    /\ UseAgent.hook_error st' = UseAgent.error r
    /\ UseAgent.hook_response st' = UseAgent.response r
    /\ UseAgent.lastResult st'
       = match c with Return result => result | Throw _ => UseAgent.lastResult st end
    /\ (UseAgent.success r = true <-> UseAgent.error r = None)
    /\ (UseAgent.success r = true <->
        exists result,
          c = Return result
          /\ is_nullish result = false
          /\ truthy (get "success" result) = true
          /\ is_nullish (get "response" result) = false)
    /\ match UseAgent.error r with
       | Some e =>
           exists sent,
             effects = (sent ++ UseAgent.call_onError options e)%list
             /\ (ErrorBoundary.inIframe env = false -> sent = [])
             /\ forall x, ~ In (ErrorBoundary.OnError x) sent
       | None =>
           exists result,
             c = Return result
             /\ if is_str_lit (get "status" (get "response" result)) "error"
                then exists sent e,
                       effects = (sent ++ UseAgent.call_onError options e)%list
                       /\ (ErrorBoundary.inIframe env = false -> sent = [])
                       /\ (forall x, ~ In (ErrorBoundary.OnError x) sent)
                       /\ AgentInterceptor.type e = AgentInterceptor.api_error
                       /\ truthy (AgentInterceptor.message e) = true
                else effects = []
       end.
Proof.
  assert (Sent : forall env e (b : bool) x,
            ~ In (ErrorBoundary.OnError x)
                (if ErrorBoundary.inIframe env
                 then ErrorBoundary.sendErrorToParent env e
                      ++ (if b then [ErrorBoundary.GlobalError e] else [])
                 else [])%list).
  { intros env e b x. unfold ErrorBoundary.sendErrorToParent.
    destruct (ErrorBoundary.inIframe env), (ErrorBoundary.post_throws env), b; cbn;
      intuition discriminate. }
  assert (Out : forall env e (b : bool),
            ErrorBoundary.inIframe env = false ->
            (if ErrorBoundary.inIframe env
             then ErrorBoundary.sendErrorToParent env e
                  ++ (if b then [ErrorBoundary.GlobalError e] else [])
             else [])%list = []).
  { intros env e b ->. reflexivity. }
  intros env options st c. cbv zeta. unfold UseAgent.callAgent_settle.
  destruct c as [result|ex].
  2:{ cbn. repeat split; try discriminate.
      - intros [result [H _]]; discriminate.
      - eexists. split; [reflexivity|]. split; [apply Out | apply Sent]. }
  unfold UseAgent.callAgent_try, get_prop.
  destruct (is_nullish result) eqn:N.
  { cbn. repeat split; try discriminate.
    - intros [x [[= <-] [H _]]]; congruence.
    - eexists. split; [reflexivity|]. split; [apply Out | apply Sent]. }
  destruct (truthy (get "success" result)) eqn:S; cbn [negb].
  - destruct (is_nullish (get "response" result)) eqn:NR.
    { cbn. repeat split; try discriminate.
      - intros [x [[= <-] H]]; intuition congruence.
      - eexists. split; [reflexivity|]. split; [apply Out | apply Sent]. }
    cbn. repeat split; eauto.
    exists result. split; [reflexivity|].
    destruct (is_str_lit (get "status" (get "response" result)) "error"); [|reflexivity].
    eexists _, _. split; [reflexivity|]. repeat split.
    + intros I. rewrite I. reflexivity.
    + intros x. unfold UseAgent.call_global, ErrorBoundary.sendErrorToParent.
      destruct (ErrorBoundary.inIframe env), (is_false (UseAgent.showErrorModal options)),
        (ErrorBoundary.post_throws env), (ErrorBoundary.globalErrorCallback env);
        cbn; intuition discriminate.
    + apply js_or_default_truthy. reflexivity.
  - cbn. repeat split; try discriminate.
    + intros [x [[= <-] H]]; intuition congruence.
    + eexists. split; [reflexivity|]. split; [apply Out | apply Sent].
Qed.

(** Every value [callAIAgent] resolves with is an object. *)
Lemma poll_loop_value w agent_id fuel : forall tid uid sid start attempt trace0 trace v,
  AiAgent.poll_loop w agent_id fuel tid uid sid start attempt trace0
  = Some (trace, Return v) ->
  is_nullish v = false.
Proof.
  induction fuel as [|fuel IH]; intros tid uid sid start attempt trace0 trace v H;
    [discriminate|].
  cbn [AiAgent.poll_loop] in H.
  destruct (_ <? _)%Z; [|now injection H as _ <-].
  destruct (AiAgent.fetchWrapper w (S attempt) _) as [e| |[p|e]]; try discriminate;
    eauto.
  destruct (get_prop p "status") as [s|e]; try discriminate.
  destruct (is_str_lit s "processing"); eauto. now injection H as _ <-.
Qed.

Lemma callAIAgent_value w message agent_id options fuel trace c :
  AiAgent.callAIAgent w message agent_id options fuel = Some (trace, c) ->
  exists v rest,
    c = Return v /\ is_nullish v = false
    /\ trace = AiAgent.Post (AiAgent.submit_body message agent_id options) :: rest.
Proof.
  unfold AiAgent.callAIAgent. intros H.
  assert (T : forall tr c0,
            AiAgent.callAIAgent_try w message agent_id options fuel = Some (tr, c0) ->
            (forall v, c0 = Return v -> is_nullish v = false)
            /\ exists rest,
                 tr = AiAgent.Post (AiAgent.submit_body message agent_id options) :: rest).
  { intros tr c0 E. unfold AiAgent.callAIAgent_try in E.
    destruct (AiAgent.fetchWrapper w 0 _) as [e| |[submitData|e]].
    - injection E as <- <-. split; [discriminate | eauto].
    - injection E as <- <-. split; [now intros v [= <-] | eauto].
    - unfold get_prop in E. destruct (is_nullish submitData) eqn:N.
      + injection E as <- <-. split; [discriminate | eauto].
      + destruct (negb (truthy (get "task_id" submitData))).
        * injection E as <- <-. split; [|eauto]. intros v [= <-].
          destruct (is_false (get "success" submitData)); [exact N | reflexivity].
        * split.
          -- intros v ->. eapply poll_loop_value; exact E.
          -- apply poll_loop_trace_shape in E.
             destruct E as [k [[-> _]|[-> _]]]; cbn; eauto.
    - injection E as <- <-. split; [discriminate | eauto]. }
  destruct (AiAgent.callAIAgent_try w message agent_id options fuel)
    as [[tr [v|e]]|] eqn:E; try discriminate; injection H as <- <-;
    destruct (T _ _ eq_refl) as [V [rest R]]; eexists _, rest; repeat split; eauto.
Qed.

(** X19: The two wrappers compared on the same settled call.  Whenever
    [callAgentAPI] reports success so does the hook's [callAgent]; they
    disagree exactly on a value whose [success] is truthy and whose response
    has the status 'error', which the hook reports as a success and
    [callAgentAPI] as a failure.  On a failure record of [callAIAgent]
    itself both fail with the same api_error, whose message is the record's
    message, or 'Agent call failed' when that message is empty. *)
Theorem wrappers_compared :
  forall env options st c,
    let api := snd (UseAgent.callAgentAPI_settle env c) in
    let hook := snd (UseAgent.callAgent_settle env options st c) in
    (if UseAgent.success api then UseAgent.success hook = true else True)
    /\ (UseAgent.success hook = true /\ UseAgent.success api = false <->
        exists result,
          c = Return result
          /\ is_nullish result = false
          /\ truthy (get "success" result) = true
          /\ is_nullish (get "response" result) = false
          /\ is_str_lit (get "status" (get "response" result)) "error" = true)
    /\ (forall msg,
          let failed := snd (UseAgent.callAgentAPI_settle env
                               (Return (AiAgent.failure msg))) in
          failed = snd (UseAgent.callAgent_settle env options st
                          (Return (AiAgent.failure msg)))
          /\ UseAgent.success failed = false
          /\ UseAgent.response failed = UseAgent.error_response (VStr msg)
          /\ UseAgent.error failed
             = Some (UseAgent.createErrorDetails env AgentInterceptor.api_error
                       (VStr (if String.eqb msg "" then "Agent call failed" else msg))
                       VUndef)).
Proof.
  intros env options st c. cbv zeta. split; [|split].
  3:{ intros msg. unfold UseAgent.callAgentAPI_settle, UseAgent.callAgent_settle,
        AiAgent.failure.
      cbn. unfold js_or. cbn. destruct (String.eqb msg ""); cbn; repeat split. }
  - unfold UseAgent.callAgentAPI_settle, UseAgent.callAgent_settle.
    destruct c as [result|ex]; cbn [bindc]; [|cbn; tauto].
    unfold UseAgent.callAgentAPI_try, UseAgent.callAgent_try, get_prop.
    destruct (is_nullish result) eqn:N; cbn [bindc]; [cbn; tauto|].
    destruct (truthy (get "success" result)) eqn:S; cbn [negb bindc];
      destruct (is_nullish (get "response" result)) eqn:NR; cbn [bindc];
      destruct (is_str_lit (get "status" (get "response" result)) "error") eqn:ST;
      destruct (truthy (get "error" result)) eqn:E; cbn [bindc]; cbn; tauto.
  - unfold UseAgent.callAgentAPI_settle, UseAgent.callAgent_settle.
    destruct c as [result|ex]; cbn [bindc].
    2:{ cbn. split; [intros [? _]; discriminate | intros [x [? _]]; discriminate]. }
    unfold UseAgent.callAgentAPI_try, UseAgent.callAgent_try, get_prop.
    destruct (is_nullish result) eqn:N; cbn [bindc].
    { cbn. split; [intros [? _]; discriminate
                  | intros [x [[= <-] [? _]]]; congruence]. }
    destruct (truthy (get "success" result)) eqn:S; cbn [negb bindc];
      destruct (is_nullish (get "response" result)) eqn:NR; cbn [bindc];
      destruct (is_str_lit (get "status" (get "response" result)) "error") eqn:ST;
      destruct (truthy (get "error" result)) eqn:E; cbn [bindc]; cbn;
      (split;
       [ intros [? ?]; try discriminate; exists result; repeat split; auto
       | intros [x [[= <-] ?]]; intuition congruence ]).
Qed.

(** X20: [callAgentAPI] over the client.  It settles exactly when
    [callAIAgent] does, with the same events; the first event is the submit
    request, which carries the options [userId] and [sessionId] as
    [user_id] and [session_id] and no assets.  The value [callAIAgent]
    resolved with is never null or undefined, so that an error thrown
    inside the client surfaces as an api_error: a network_error is reported
    only when that value has no [response]. *)
Theorem callAgentAPI_over_client :
  forall env w message agentId options fuel,
    let client :=
      AiAgent.callAIAgent w message agentId
        (UseAgent.client_options (get_opt options "userId") (get_opt options "sessionId"))
        fuel in
    match UseAgent.callAgentAPI env w message agentId options fuel with
    | None => client = None
    | Some (trace, (effects, r)) =>
        exists v rest,
          client = Some (trace, Return v)
          /\ is_nullish v = false
          /\ trace
             = AiAgent.Post (VObj [("message", message);
                                   ("agent_id", agentId);
                                   ("user_id", get_opt options "userId");
                                   ("session_id", get_opt options "sessionId");
                                   ("assets", VUndef)]) :: rest
          /\ (effects, r) = UseAgent.callAgentAPI_settle env (Return v)
          /\ match UseAgent.error r with
             | Some e =>
                 AgentInterceptor.type e = AgentInterceptor.api_error
                 \/ (AgentInterceptor.type e = AgentInterceptor.network_error
                     /\ is_nullish (get "response" v) = true)
             | None => UseAgent.success r = true
             end
    end.
Proof.
  intros env w message agentId options fuel. cbv zeta. unfold UseAgent.callAgentAPI.
  destruct (AiAgent.callAIAgent w message agentId _ fuel) as [[trace c]|] eqn:C;
    [|reflexivity].
  destruct (callAIAgent_value _ _ _ _ _ _ _ C) as [v [rest [-> [N ->]]]].
  destruct (UseAgent.callAgentAPI_settle env (Return v)) as [effects r] eqn:R.
  exists v, rest. repeat split; auto.
  unfold UseAgent.callAgentAPI_settle in R. cbn [bindc] in R.
  unfold UseAgent.callAgentAPI_try, get_prop in R. rewrite N in R. cbn [bindc] in R.
  destruct (truthy (get "success" v)); cbn [negb bindc] in R;
    destruct (is_nullish (get "response" v)) eqn:NR; cbn [bindc] in R;
    destruct (is_str_lit (get "status" (get "response" v)) "error");
    destruct (truthy (get "error" v)); cbn [bindc] in R;
    injection R as <- <-; cbn; auto.
Qed.

(** X21: The agent id of the hook.  [callAgent] uses the first truthy one of
    the call's [agentId], the hook's [agentId] option and
    NEXT_PUBLIC_AGENT_ID.  When none is truthy it makes no request and has
    no effect: it fails with the api_error 'No agent_id provided', stored
    as the error of the state, and leaves [loading], the response and the
    last result of the state as they were.  Otherwise its first event is the
    submit request with that id, and [loading] is false once it settles. *)
Theorem useAgent_agent_id :
  forall env options NEXT_PUBLIC_AGENT_ID w st callOptions fuel,
    let id := UseAgent.finalAgentId options NEXT_PUBLIC_AGENT_ID callOptions in
    ((truthy (UseAgent.agentId callOptions) = true
      /\ id = UseAgent.agentId callOptions)
     \/ (truthy (UseAgent.agentId callOptions) = false
         /\ truthy (UseAgent.options_agentId options) = true
         /\ id = UseAgent.options_agentId options)
     \/ (truthy (UseAgent.agentId callOptions) = false
         /\ truthy (UseAgent.options_agentId options) = false
         /\ id = NEXT_PUBLIC_AGENT_ID))
    /\ match UseAgent.callAgent env options NEXT_PUBLIC_AGENT_ID w st callOptions fuel with
       | None =>
           truthy id = true
           /\ AiAgent.callAIAgent w (UseAgent.message callOptions) id
                (UseAgent.client_options (UseAgent.userId callOptions)
                   (UseAgent.sessionId callOptions)) fuel = None
       | Some (trace, (st', effects, r)) =>
           if truthy id then
             UseAgent.loading st' = false
             /\ exists rest,
                  trace
                  = AiAgent.Post (VObj [("message", UseAgent.message callOptions);
                                        ("agent_id", id);
                                        ("user_id", UseAgent.userId callOptions);
                                        ("session_id", UseAgent.sessionId callOptions);
                                        ("assets", VUndef)]) :: rest
           else
             trace = [] /\ effects = []
             /\ UseAgent.success r = false
             /\ UseAgent.response r
                = UseAgent.error_response (VStr "No agent_id provided")
             /\ UseAgent.hook_error st' = UseAgent.error r
             /\ option_map AgentInterceptor.message (UseAgent.error r)
                = Some (VStr "No agent_id provided")
             /\ option_map AgentInterceptor.type (UseAgent.error r)
                = Some AgentInterceptor.api_error
             /\ UseAgent.loading st' = UseAgent.loading st
             /\ UseAgent.hook_response st' = UseAgent.hook_response st
             /\ UseAgent.lastResult st' = UseAgent.lastResult st
       end.
Proof.
  intros env options envid w st callOptions fuel. cbv zeta. split.
  { unfold UseAgent.finalAgentId, js_or.
    destruct (truthy (UseAgent.agentId callOptions)) eqn:A.
    - rewrite A. auto.
    - destruct (truthy (UseAgent.options_agentId options)) eqn:O; auto 6. }
  unfold UseAgent.callAgent.
  destruct (truthy (UseAgent.finalAgentId options envid callOptions)) eqn:T; cbn [negb].
  2:{ cbn. repeat split. }
  destruct (AiAgent.callAIAgent w _ _ _ fuel) as [[trace c]|] eqn:C; [|auto].
  destruct (callAIAgent_value _ _ _ _ _ _ _ C) as [v [rest [-> [N ->]]]].
  destruct (UseAgent.callAgent_settle env options st (Return v)) as [[st' effects] r] eqn:R.
  split; [|exists rest; reflexivity].
  unfold UseAgent.callAgent_settle in R.
  destruct (UseAgent.callAgent_try env options _ v) as [[s1 e1] [r1|ex]].
  - injection R as <- _ _. reflexivity.
  - destruct (UseAgent.callAgent_catch env options s1 ex) as [[s2 e2] r2].
    injection R as <- _ _. reflexivity.
Qed.

(* ================================================================== *)
(** ** [handleApiError] against the interceptor's classifier *)
(* ================================================================== *)

(** X22: [handleApiError] returns null on null and undefined, where the
    interceptor's classifier throws.  It posts to the parent exactly what
    [sendErrorToParent] posts for the record it returns, and nothing when
    it returns null.  A record it returns has a truthy message and the
    endpoint given.  It tests the nested response first: on a payload that
    is an API failure whose nested response failed too it returns a
    parse_error where the classifier returns an api_error.  When it
    returns an api_error, the classifier returns an api_error with the
    same message; when it returns null, the classifier returns no
    api_error.  Where the classifier throws on a payload that is not null,
    on the length of a raw response, [handleApiError], which reads no
    length, returns a parse_error. *)
Theorem handleApiError_against_interceptor :
  forall nts stn browser env response endpoint,
    let run := ErrorBoundary.handleApiError env response endpoint in
    let detected := AgentInterceptor.detectResponseIssue nts stn browser response in
    fst run = match snd run with
              | Some e => ErrorBoundary.sendErrorToParent env e
              | None => []
              end
    /\ (if is_nullish response
        then run = ([], None) /\ exists ex, detected = Throw ex
        else match detected with
             | Return d =>
                 AgentInterceptor.kind_of d = Some AgentInterceptor.api_error <->
                 AgentInterceptor.api_failure response = true
             | Throw _ =>
                 AgentInterceptor.api_failure response = false
                 /\ ErrorBoundary.nested_failed response = true
                 /\ option_map AgentInterceptor.type (snd run)
                    = Some AgentInterceptor.parse_error
             end)
    /\ match snd run with
       | None =>
           ErrorBoundary.nested_failed response = false
           /\ (is_nullish response = true
               \/ AgentInterceptor.api_failure response = false)
       | Some e =>
           AgentInterceptor.endpoint e = endpoint
           /\ truthy (AgentInterceptor.message e) = true
           /\ is_nullish response = false
           /\ ((AgentInterceptor.type e = AgentInterceptor.parse_error
                /\ ErrorBoundary.nested_failed response = true
                /\ AgentInterceptor.message e = get "error" (get "response" response)
                /\ AgentInterceptor.raw_response e
                   = js_or (get "raw_response" response)
                       (get "raw_response" (get "response" response)))
               \/ (AgentInterceptor.type e = AgentInterceptor.api_error
                   /\ ErrorBoundary.nested_failed response = false
                   /\ AgentInterceptor.message e = get "error" response
                   /\ AgentInterceptor.raw_response e = get "details" response
                   /\ detected
                      = Return (AgentInterceptor.issue browser AgentInterceptor.api_error
                                  (AgentInterceptor.message e)
                                  (js_or (AgentInterceptor.raw_response e)
                                     (get "raw_response" response)))))
       end.
Proof.
  intros nts stn browser env response endpoint. cbv zeta.
  unfold ErrorBoundary.handleApiError, ErrorBoundary.nested_failed,
    AgentInterceptor.detectResponseIssue, AgentInterceptor.api_failure, get_prop.
  destruct (is_nullish response) eqn:N.
  { unfold get_opt. rewrite N. cbn. repeat split; eauto. }
  cbn [bindc].
  assert (G : forall k, get_opt response k = get k response).
  { intros k. unfold get_opt. now rewrite N. }
  rewrite !G.
  assert (I : forall k, is_false (get_opt (get "response" response) "success")
                        && truthy (get_opt (get "response" response) k) = true ->
                        get_opt (get "response" response) k
                        = get k (get "response" response)).
  { intros k. unfold get_opt.
    destruct (is_nullish (get "response" response)); [discriminate | reflexivity]. }
  assert (Detect : forall nested : bool,
    (nested = false ->
     is_false (get "success" (get "response" response))
     && truthy (get "error" (get "response" response)) = true ->
     truthy (get "response" response) && is_object (get "response" response) = false) ->
    is_false (get "success" response) && truthy (get "error" response) = false ->
    match
      (if is_false (get "_parse_succeeded" response)
          && is_true (get "_has_valid_data" response)
       then Return (AgentInterceptor.issue browser AgentInterceptor.parse_error
                      (VStr "JSON parsing failed but valid data exists in raw_response")
                      (get "raw_response" response))
       else
         if truthy (get "response" response) && is_object (get "response" response)
         then
           if is_false (get "success" (get "response" response))
              && truthy (get "error" (get "response" response))
           then
             valid <- AgentInterceptor.hasValidRaw nts stn (get "raw_response" response) ;;
             (if valid : bool
              then Return (AgentInterceptor.issue browser AgentInterceptor.parse_error
                             (get "error" (get "response" response))
                             (get "raw_response" response))
              else Return (AgentInterceptor.no_issue))
           else Return (AgentInterceptor.no_issue)
         else Return (AgentInterceptor.no_issue))
    with
    | Return d =>
        AgentInterceptor.kind_of d = Some AgentInterceptor.api_error <-> false = true
    | Throw _ => nested = true
    end).
  { intros nested Hn _.
    destruct (is_false (get "_parse_succeeded" response)
              && is_true (get "_has_valid_data" response));
      [cbn; split; discriminate|].
    destruct (truthy (get "response" response) && is_object (get "response" response))
      eqn:O; [|cbn; split; discriminate].
    destruct (is_false (get "success" (get "response" response))
              && truthy (get "error" (get "response" response))) eqn:F;
      [|cbn; split; discriminate].
    destruct (AgentInterceptor.hasValidRaw nts stn (get "raw_response" response))
      as [[|]|ex]; cbn; try (split; discriminate).
    destruct nested; [reflexivity|]. specialize (Hn eq_refl eq_refl). discriminate. }
  destruct (is_false (get_opt (get "response" response) "success")
            && truthy (get_opt (get "response" response) "error")) eqn:NF.
  - pose proof (I _ NF) as IE. apply andb_prop in NF. destruct NF as [_ TE].
    rewrite IE in TE. cbn [fst snd].
    split; [unfold ErrorBoundary.sendErrorToParent;
            destruct (ErrorBoundary.inIframe env); reflexivity|].
    split.
    + destruct (is_false (get "success" response) && truthy (get "error" response))
        eqn:AF; [cbn; tauto|].
      specialize (Detect true ltac:(discriminate) eq_refl).
      match goal with
      | |- match ?c with _ => _ end => destruct c
      end; [exact Detect | repeat split].
    + cbn. repeat split; auto.
  - destruct (is_false (get "success" response) && truthy (get "error" response)) eqn:AF.
    + cbn [fst snd].
      split; [unfold ErrorBoundary.sendErrorToParent;
              destruct (ErrorBoundary.inIframe env); reflexivity|].
      split; [cbn; tauto|].
      apply andb_prop in AF. destruct AF as [_ TE].
      cbn. repeat split; auto. right. repeat split; auto.
    + cbn [fst snd]. split; [reflexivity|]. split; [|auto].
      assert (Hn : false = false ->
                   is_false (get "success" (get "response" response))
                   && truthy (get "error" (get "response" response)) = true ->
                   truthy (get "response" response)
                   && is_object (get "response" response) = false).
      { intros _ F.
        destruct (truthy (get "response" response) && is_object (get "response" response))
          eqn:O; [|reflexivity].
        apply andb_prop in O. destruct O as [T _].
        unfold get_opt in NF. rewrite (truthy_is_not_nullish _ T) in NF.
        congruence. }
      specialize (Detect false Hn eq_refl).
      match goal with
      | |- match ?c with _ => _ end => destruct c
      end; [exact Detect | discriminate Detect].
Qed.

(* ================================================================== *)
(** ** The page's reading of an agent result *)
(* ================================================================== *)

Lemma size_positive v : (1 <= Page.size v)%nat.
Proof. destruct v; cbn; lia. Qed.

Lemma size_lookup k fs : forall x,
  lookup k fs = Some x -> (Page.size x < Page.size (VObj fs))%nat.
Proof.
  induction fs as [|[k' y] rest IH]; intros x; cbn [lookup]; [discriminate|].
  destruct (String.eqb k k').
  - intros [= ->]. cbn. lia.
  - intros H. specialize (IH x H). cbn in IH |- *. lia.
Qed.

Lemma size_get_truthy k fs :
  truthy (get k (VObj fs)) = true ->
  (Page.size (get k (VObj fs)) < Page.size (VObj fs))%nat.
Proof.
  cbn [get]. destruct (lookup k fs) as [x|] eqn:L; [|discriminate].
  intros _. now apply size_lookup with k.
Qed.

Lemma parseAgentResult_fixed JSON_parse r fuel :
  Page.unwrapped r = true -> Page.parseAgentResult JSON_parse (S fuel) r = Some r.
Proof.
  destruct r; try discriminate. unfold Page.unwrapped. cbn [Page.parseAgentResult truthy negb].
  destruct (Page.has_payload (VObj fields)); [reflexivity|]. cbn [orb].
  destruct (truthy (get "result" (VObj fields))); [discriminate|].
  destruct (truthy (get "response" (VObj fields))); [discriminate|]. reflexivity.
Qed.

(** X23: Whatever [parseAgentResult] returns is an object with nothing left
    to unwrap: it carries [jobs], [opportunities] or [digest_date], or it
    has neither a truthy [result] nor a truthy [response].  So the function
    is idempotent: applied to its own result it returns it unchanged.  The
    result does not depend on the depth allowed, once it is enough. *)
Theorem parseAgentResult_unwrapped :
  forall JSON_parse fuel rawResult r,
    Page.parseAgentResult JSON_parse fuel rawResult = Some r ->
    Page.unwrapped r = true
    /\ (forall fuel', Page.parseAgentResult JSON_parse (S fuel') r = Some r)
    /\ (forall fuel', (fuel <= fuel')%nat ->
          Page.parseAgentResult JSON_parse fuel' rawResult = Some r).
Proof.
  intros JSON_parse fuel.
  assert (U : forall rawResult r,
            Page.parseAgentResult JSON_parse fuel rawResult = Some r ->
            Page.unwrapped r = true
            /\ (forall fuel', (fuel <= fuel')%nat ->
                  Page.parseAgentResult JSON_parse fuel' rawResult = Some r)).
  { induction fuel as [|fuel IH]; intros rawResult r H; [discriminate|].
    assert (M : forall x,
              Page.parseAgentResult JSON_parse fuel x = Some r ->
              Page.unwrapped r = true
              /\ (forall fuel', (S fuel <= fuel')%nat ->
                    Page.parseAgentResult JSON_parse fuel'
                      x = Page.parseAgentResult JSON_parse fuel x)).
    { intros x Hx. destruct (IH _ _ Hx) as [Ux Fx]. split; [exact Ux|].
      intros fuel' L. rewrite Hx. apply Fx. lia. }
    cbn [Page.parseAgentResult] in H.
    assert (K : forall fuel', (S fuel <= fuel')%nat -> exists n, fuel' = S n /\ (fuel <= n)%nat).
    { intros [|n] L; [lia|]. exists n. split; [reflexivity | lia]. }
    destruct (truthy rawResult) eqn:T; cbn [negb] in H.
    2:{ injection H as <-. split; [reflexivity|].
        intros fuel' L. destruct (K _ L) as [n [-> _]].
        cbn [Page.parseAgentResult]. now rewrite T. }
    destruct rawResult as [| |b|n|s|fs|xs]; try discriminate;
      try (injection H as <-; split; [reflexivity|];
           intros fuel' L; destruct (K _ L) as [n' [-> _]];
           cbn [Page.parseAgentResult]; rewrite T; reflexivity).
    - (* a string *)
      destruct (JSON_parse s) as [parsed|e] eqn:P.
      + destruct (IH _ _ H) as [Ur Fr]. split; [exact Ur|].
        intros fuel' L. destruct (K _ L) as [n' [-> Ln]].
        cbn [Page.parseAgentResult]. rewrite T, P. cbn [negb]. now apply Fr.
      + injection H as <-. split; [reflexivity|].
        intros fuel' L. destruct (K _ L) as [n' [-> _]].
        cbn [Page.parseAgentResult]. now rewrite T, P.
    - (* an object *)
      destruct (Page.has_payload (VObj fs)) eqn:HP.
      { injection H as <-. split; [unfold Page.unwrapped; now rewrite HP|].
        intros fuel' L. destruct (K _ L) as [n' [-> _]].
        cbn [Page.parseAgentResult]. now rewrite T, HP. }
      destruct (truthy (get "result" (VObj fs))) eqn:R.
      { destruct (IH _ _ H) as [Ur Fr]. split; [exact Ur|].
        intros fuel' L. destruct (K _ L) as [n' [-> Ln]].
        cbn [Page.parseAgentResult]. rewrite T, HP, R. cbn [negb]. now apply Fr. }
      destruct (truthy (get "response" (VObj fs))) eqn:R2.
      { destruct (IH _ _ H) as [Ur Fr]. split; [exact Ur|].
        intros fuel' L. destruct (K _ L) as [n' [-> Ln]].
        cbn [Page.parseAgentResult]. rewrite T, HP, R, R2. cbn [negb]. now apply Fr. }
      injection H as <-. split; [unfold Page.unwrapped; now rewrite HP, R, R2|].
      intros fuel' L. destruct (K _ L) as [n' [-> _]].
      cbn [Page.parseAgentResult]. now rewrite T, HP, R, R2. }
  intros rawResult r H. destruct (U _ _ H) as [Ur Fr].
  repeat split; auto. intros fuel'. now apply parseAgentResult_fixed.
Qed.

Lemma parseAgentResult_unwrapped_witness :
  Page.parseAgentResult Page.sample_parse 4 Page.wrapped_jobs
  = Some (VObj [("jobs", VArr [VNum 1%float])])
  /\ Page.unwrapped (VObj [("jobs", VArr [VNum 1%float])]) = true
  /\ Page.parseAgentResult Page.sample_parse 1 (VObj [("jobs", VArr [VNum 1%float])])
     = Some (VObj [("jobs", VArr [VNum 1%float])]).
Proof.
  split; [reflexivity|].
  destruct (parseAgentResult_unwrapped Page.sample_parse 4 Page.wrapped_jobs
              (VObj [("jobs", VArr [VNum 1%float])]) eq_refl) as [U [F _]].
  split; [exact U | exact (F 0%nat)].
Defined.

Lemma sample_parse_shrinks s v :
  Page.sample_parse s = Return v -> (Page.size v <= String.length s)%nat.
Proof.
  unfold Page.sample_parse.
  destruct (String.eqb_spec s "{}") as [->|_]; [intros [= <-]; cbn; lia|].
  destruct (String.eqb_spec s Page.jobs_text) as [->|_]; [intros [= <-]; cbn; lia|].
  discriminate.
Qed.

(** X24: [parseAgentResult] returns on every value, provided a parsed value
    is no larger than its text (as is the case of [JSON.parse]): a depth of
    the size of the value is enough. *)
Theorem parseAgentResult_total :
  forall JSON_parse,
    (forall s v, JSON_parse s = Return v -> (Page.size v <= String.length s)%nat) ->
    forall fuel rawResult,
      (Page.size rawResult <= fuel)%nat ->
      exists r, Page.parseAgentResult JSON_parse fuel rawResult = Some r.
Proof.
  intros JSON_parse Shrink.
  induction fuel as [|fuel IH]; intros rawResult L.
  { pose proof (size_positive rawResult). lia. }
  cbn [Page.parseAgentResult].
  destruct (truthy rawResult) eqn:T; cbn [negb]; [|eauto].
  destruct rawResult as [| |b|n|s|fs|xs]; eauto.
  - destruct (JSON_parse s) as [parsed|e] eqn:P; [|eauto].
    apply IH. specialize (Shrink _ _ P). cbn in L. lia.
  - destruct (Page.has_payload (VObj fs)); [eauto|].
    destruct (truthy (get "result" (VObj fs))) eqn:R.
    { apply IH. pose proof (size_get_truthy _ _ R). lia. }
    destruct (truthy (get "response" (VObj fs))) eqn:R2; [|eauto].
    apply IH. pose proof (size_get_truthy _ _ R2). lia.
Qed.

Lemma parseAgentResult_total_witness :
  exists r, Page.parseAgentResult Page.sample_parse 15 Page.wrapped_jobs = Some r.
Proof.
  apply (parseAgentResult_total Page.sample_parse sample_parse_shrinks 15
           Page.wrapped_jobs).
  vm_compute. lia.
Defined.

(* ================================================================== *)
(** ** The hooks of the client *)
(* ================================================================== *)

(** X25: [callAgent] of [useAIAgent] has no [try] of its own, and would
    leave [loading] set if the call of [callAIAgent] threw.  Over the
    client it never does: whenever [callAIAgent] settles, [callAgent]
    returns the very value it resolved with, [loading] is false, the
    response of the state is the value's [response], and the error of the
    state is null exactly when the value's [success] is truthy and a truthy
    value otherwise. *)
Theorem useAIAgent_callAgent_settles :
  forall w message agent_id options fuel,
    (forall e, Hooks.loading (fst (Hooks.callAgent_settle (Throw e))) = true)
    /\ match Hooks.callAgent w message agent_id options fuel with
       | None => AiAgent.callAIAgent w message agent_id options fuel = None
       | Some (trace, (st, c)) =>
           exists v,
             AiAgent.callAIAgent w message agent_id options fuel
             = Some (trace, Return v)
             /\ c = Return v
             /\ Hooks.loading st = false
             /\ Hooks.response st = get "response" v
             /\ (if truthy (get "success" v)
                 then Hooks.error st = VNull
                 else truthy (Hooks.error st) = true
                      /\ Hooks.error st
                         = js_or (get "error" v) (VStr "Unknown error"))
       end.
Proof.
  intros w message agent_id options fuel. split; [reflexivity|].
  unfold Hooks.callAgent.
  destruct (AiAgent.callAIAgent w message agent_id options fuel) as [[trace c]|] eqn:C;
    [|reflexivity].
  destruct (callAIAgent_value _ _ _ _ _ _ _ C) as [v [rest [-> [N _]]]].
  unfold Hooks.callAgent_settle, get_prop. cbn [bindc]. rewrite N. cbn [bindc].
  exists v. destruct (truthy (get "success" v)) eqn:S; cbn; rewrite ?S; repeat split; auto.
  apply js_or_default_truthy. reflexivity.
Qed.

(** X26: [upload] of [useFileUpload] posts what [uploadFiles] posts.  It
    returns what [uploadFiles] returned, with [uploading] false, that
    outcome stored as the result and an error that is null or truthy,
    except when the call of [uploadFiles] throws, or the server's JSON body
    is null or undefined, so that the read of [success] throws: then the
    call rejects and [uploading] stays set.  A response built by the client
    itself always leaves a truthy error. *)
Theorem useFileUpload_upload_settles :
  forall nts now_iso fetchWrapper input,
    let run := Hooks.upload nts now_iso fetchWrapper input in
    let uploaded := Upload.uploadFiles nts now_iso fetchWrapper input in
    let st := fst (snd run) in
    fst run = fst uploaded
    /\ match snd (snd run) with
       | Return out =>
           snd uploaded = Return out
           /\ Hooks.uploading st = false
           /\ Hooks.result st = Some out
           /\ match out with
              | Upload.Built _ => truthy (Hooks.upload_error st) = true
              | Upload.Served data =>
                  is_nullish data = false
                  /\ if truthy (get "success" data)
                     then Hooks.upload_error st = VNull
                     else truthy (Hooks.upload_error st) = true
              end
       | Throw e =>
           Hooks.uploading st = true
           /\ (snd uploaded = Throw e
               \/ exists data,
                    snd uploaded = Return (Upload.Served data)
                    /\ is_nullish data = true
                    /\ fetchWrapper (Upload.fileArray input)
                       = AiAgent.Response (Return data))
       end.
Proof.
  intros nts now_iso fetchWrapper input. cbv zeta. unfold Hooks.upload. cbn [fst snd].
  split; [reflexivity|].
  unfold Upload.uploadFiles.
  destruct (List.length (Upload.fileArray input) =? 0)%nat; cbn [snd].
  { cbn. repeat split. }
  assert (Caught : forall e,
            match snd (Hooks.upload_settle
                         (Upload.network_failure nts now_iso
                            (List.length (Upload.fileArray input)) e)) with
            | Return out =>
                Upload.network_failure nts now_iso
                  (List.length (Upload.fileArray input)) e = Return out
                /\ Hooks.uploading
                     (fst (Hooks.upload_settle
                             (Upload.network_failure nts now_iso
                                (List.length (Upload.fileArray input)) e))) = false
                /\ Hooks.result
                     (fst (Hooks.upload_settle
                             (Upload.network_failure nts now_iso
                                (List.length (Upload.fileArray input)) e))) = Some out
                /\ match out with
                   | Upload.Built _ =>
                       truthy (Hooks.upload_error
                                 (fst (Hooks.upload_settle
                                         (Upload.network_failure nts now_iso
                                            (List.length (Upload.fileArray input)) e))))
                       = true
                   | Upload.Served data =>
                       is_nullish data = false
                       /\ if truthy (get "success" data)
                          then Hooks.upload_error
                                 (fst (Hooks.upload_settle
                                         (Upload.network_failure nts now_iso
                                            (List.length (Upload.fileArray input)) e)))
                               = VNull
                          else truthy
                                 (Hooks.upload_error
                                    (fst (Hooks.upload_settle
                                            (Upload.network_failure nts now_iso
                                               (List.length (Upload.fileArray input)) e))))
                               = true
                   end
            | Throw e' =>
                Hooks.uploading
                  (fst (Hooks.upload_settle
                          (Upload.network_failure nts now_iso
                             (List.length (Upload.fileArray input)) e))) = true
                /\ (Upload.network_failure nts now_iso
                      (List.length (Upload.fileArray input)) e = Throw e'
                    \/ exists data,
                         Upload.network_failure nts now_iso
                           (List.length (Upload.fileArray input)) e
                         = Return (Upload.Served data)
                         /\ is_nullish data = true
                         /\ fetchWrapper (Upload.fileArray input)
                            = AiAgent.Response (Return data))
            end).
  { intros e. unfold Upload.network_failure.
    destruct (Upload.error_text nts e) as [text|e']; cbn.
    - repeat split. apply js_or_default_truthy. reflexivity.
    - split; [reflexivity | now left]. }
  destruct (fetchWrapper (Upload.fileArray input)) as [e| |[data|e]] eqn:F;
    try apply Caught.
  unfold Hooks.upload_settle, get_prop.
  destruct (is_nullish data) eqn:N.
  - cbn. split; [reflexivity|]. right. exists data. auto.
  - destruct (truthy (get "success" data)) eqn:S; cbn; rewrite S; repeat split; auto.
    apply js_or_default_truthy. reflexivity.
Qed.
